(** * build.py: the LLVM/Clang toolchain build pipeline for Android

    A shallow embedding of [build.py] and the properties of its
    specification.  Python values are modelled as follows:
    - [str] as [string], [list] as [list], [dict] with string keys as
      [gmap string _] (iteration order of a dict is unspecified in
      Python 2, so whatever depends on it takes the order as a parameter
      or goes through [map_to_list]);
    - [None]-able arguments as [option];
    - exceptions as the [Raise] outcome of a state-passing monad whose
      state is the trace of everything the script did to the outside
      world (subprocesses, file system, logging);
    - the modules [utils], [android_version], [version] and [mapfile],
      which the script imports, as parameters. *)

From Stdlib Require Import Ascii.
From stdpp Require Import gmap strings list fin_maps.


(** ** Python string and path helpers *)

Module Py.

(** [s.startswith(p)] *)
Fixpoint startswith (s p : string) {struct p} : bool :=
  match p with
  | EmptyString => true
  | String a p' =>
      match s with
      | EmptyString => false
      | String b s' => Ascii.eqb a b && startswith s' p'
      end
  end.

(** [s.endswith(p)] *)
Definition endswith (s p : string) : bool :=
  startswith (String.rev s) (String.rev p).

(** [sep.join(l)] *)
Definition join (sep : string) (l : list string) : string := String.concat sep l.

(** [s.split('-')[0]]: the part of [s] before the first dash *)
Fixpoint split_dash_head (s : string) : string :=
  match s with
  | EmptyString => EmptyString
  | String c rest =>
      if Ascii.eqb c "-" then EmptyString else String c (split_dash_head rest)
  end.

(** Truth value of an optional string: [None] and [''] are false. *)
Definition truthy (o : option string) : bool :=
  match o with
  | None => false
  | Some s => negb (String.eqb s "")
  end.

(** [posixpath.join(a, b)] *)
Definition path_join2 (a b : string) : string :=
  if startswith b "/" then b
  else if String.eqb a "" || endswith a "/" then a +:+ b
  else a +:+ "/" +:+ b.

(** [os.path.join(a, *p)] *)
Definition path_join (a : string) (p : list string) : string :=
  foldl path_join2 a p.

(** [os.path.basename(p)]: what follows the last slash *)
Fixpoint basename (p : string) : string :=
  match p with
  | EmptyString => EmptyString
  | String c rest =>
      if Ascii.eqb c "/" then basename rest
      else
        (* keep [c] only if no slash follows *)
        let b := basename rest in
        if String.eqb b rest then String c rest else b
  end.

(** [template.format(version=v)] for a template with [{version}] fields;
    [skip] counts the characters of a field still to be dropped. *)
Fixpoint format_from (skip : nat) (template v : string) : string :=
  match template with
  | EmptyString => EmptyString
  | String c rest =>
      match skip with
      | S k => format_from k rest v
      | O =>
          if startswith template "{version}"
          then v +:+ format_from 8 rest v
          else String c (format_from 0 rest v)
      end
  end.

Definition format (template v : string) : string := format_from 0 template v.

(** [d.update(e)]: the entries of [e] override those of [d] *)
Definition update {V} (d e : gmap string V) : gmap string V := e ∪ d.

(** A run of assignments [d[k] = v], first assignment first *)
Definition assign {V} (d : gmap string V) (kvs : list (string * V)) : gmap string V :=
  foldl (λ m kv, <[kv.1 := kv.2]> m) d kvs.

End Py.

(** ** The imported modules

    [utils], [android_version] and the process environment are not part
    of [build.py]; the script only calls them.  They are the fields of
    one record, fixed for a run. *)

Record Host := {
  android_path : list string → string;   (* utils.android_path(...) *)
  out_path : list string → string;       (* utils.out_path(...) *)
  llvm_path : list string → string;      (* utils.llvm_path(...) *)
  build_os_type : string;                (* utils.build_os_type() *)
  host_is_linux : bool;                  (* utils.host_is_linux() *)
  host_is_darwin : bool;                 (* utils.host_is_darwin() *)
  patch_level : string;                  (* android_version.patch_level *)
  svn_revision : string;                 (* android_version.svn_revision *)
  ORIG_ENV : gmap string string;         (* dict(os.environ) at import time *)
  (* the order in which the interpreter walks the items of a dict:
     unspecified in Python 2 *)
  iteritems : gmap string string → list (string * string)
}.

(** [version.Version]: what the script reads of it *)
Record Version := {
  major : string;
  short_version : string;
  long_version : string
}.

Definition STAGE2_TARGETS : string := "AArch64;ARM;BPF;Mips;X86".

(** ** Paths and the configuration matrix (pure code) *)

Section Paths.
Context (hst : Host).

Definition ndk_base : string :=
  let ndk_version := "r16" in
  android_path hst ["toolchain/prebuilts/ndk"; ndk_version].

Definition android_api (arch : string) (platform : bool) : string :=
  if platform then "26"
  else if bool_decide (arch ∈ ["arm"; "i386"; "mips"]) then "14"
  else "21".

Definition ndk_path (arch : string) (platform : bool) : string :=
  let platform_level := "android-" +:+ android_api arch platform in
  Py.path_join ndk_base ["platforms"; platform_level].

Definition ndk_libcxx_headers : string :=
  Py.path_join ndk_base ["sources"; "cxx-stl"; "llvm-libc++"; "include"].

Definition ndk_libcxxabi_headers : string :=
  Py.path_join ndk_base ["sources"; "cxx-stl"; "llvm-libc++abi"; "include"].

Definition ndk_toolchain_lib (arch toolchain_root host_tag : string) : string :=
  let toolchain_lib :=
    Py.path_join ndk_base
      ["toolchains"; toolchain_root; "prebuilt"; "linux-x86_64"; host_tag] in
  if bool_decide (arch ∈ ["arm"; "i386"; "mips"])
  then Py.path_join toolchain_lib ["lib"]
  else Py.path_join toolchain_lib ["lib64"].

Definition support_headers : string :=
  Py.path_join ndk_base ["sources"; "android"; "support"; "include"].

Definition clang_prebuilt_version : string := "clang-4393122".

Definition clang_prebuilt_base_dir : string :=
  android_path hst ["prebuilts/clang/host"; build_os_type hst; clang_prebuilt_version].

Definition clang_prebuilt_bin_dir : string :=
  android_path hst [clang_prebuilt_base_dir; "bin"].

Definition clang_prebuilt_lib_dir : string :=
  android_path hst [clang_prebuilt_base_dir; "lib64"].

Definition arch_from_triple (triple : string) : string :=
  let arch := Py.split_dash_head triple in
  if String.eqb arch "i686" then "i386" else arch.

Definition clang_resource_dir (version arch : string) : string :=
  Py.path_join "lib64" ["clang"; version; "lib"; "linux"; arch].

Definition clang_prebuilt_libcxx_headers : string :=
  android_path hst [clang_prebuilt_base_dir; "include"; "c++"; "v1"].

Definition libcxx_header_dirs (ndk_cxx : bool) : list string :=
  if ndk_cxx
  then [ndk_libcxx_headers; ndk_libcxxabi_headers; support_headers]
  else [clang_prebuilt_libcxx_headers; android_path hst ["bionic"; "libc"; "include"]].

Definition cmake_prebuilt_bin_dir : string :=
  android_path hst ["prebuilts/cmake"; build_os_type hst; "bin"].

Definition cmake_bin_path : string := Py.path_join cmake_prebuilt_bin_dir ["cmake"].

Definition ninja_bin_path : string := Py.path_join cmake_prebuilt_bin_dir ["ninja"].

(** Base cmake options such as build type that are common across all
    invocations *)
Definition base_cmake_defines : gmap string string :=
  Py.assign ∅
    [("CMAKE_BUILD_TYPE", "Release");
     ("LLVM_ENABLE_ASSERTIONS", "OFF");
     ("LLVM_ENABLE_THREADS", "OFF");
     ("LLVM_LIBDIR_SUFFIX", "64");
     ("LLVM_VERSION_PATCH", patch_level hst);
     ("CLANG_VERSION_PATCHLEVEL", patch_level hst);
     ("CLANG_REPOSITORY_STRING", "https://android.googlesource.com/toolchain/clang");
     ("LLVM_REPOSITORY_STRING", "https://android.googlesource.com/toolchain/llvm")].

(** *** cross_compile_configs *)

(** One row of the [configs] table:
    [(arch, ndk_arch, toolchain_path, llvm_triple, extra_flags)] *)
Definition config_row : Type := string * string * string * string * string.

Definition configs : list config_row :=
  [("arm", "arm", "arm/arm-linux-androideabi-4.9/arm-linux-androideabi",
    "arm-linux-android", "-march=armv7-a");
   ("aarch64", "arm64",
    "aarch64/aarch64-linux-android-4.9/aarch64-linux-android",
    "aarch64-linux-android", "");
   ("x86_64", "x86_64",
    "x86/x86_64-linux-android-4.9/x86_64-linux-android",
    "x86_64-linux-android", "");
   ("i386", "x86", "x86/x86_64-linux-android-4.9/x86_64-linux-android",
    "i686-linux-android", "-m32");
   ("mips", "mips",
    "mips/mips64el-linux-android-4.9/mips64el-linux-android",
    "mipsel-linux-android", "-m32");
   ("mips64", "mips64",
    "mips/mips64el-linux-android-4.9/mips64el-linux-android",
    "mips64el-linux-android", "-m64")].

(** What the generator yields for one row:
    [(arch, llvm_triple, defines, cflags)] *)
Record config := {
  cfg_arch : string;
  cfg_llvm_triple : string;
  cfg_defines : gmap string string;
  cfg_cflags : list string
}.

Definition toolchain_root : string :=
  android_path hst ["prebuilts/gcc"; build_os_type hst].

(** The local [ldflags] of the loop body *)
Definition ldflags_of (platform : bool) (row : config_row) : list string :=
  let '(arch, ndk_arch, toolchain_path, llvm_triple, extra_flags) := row in
  let sysroot_libs := Py.path_join (ndk_path arch platform) ["arch-" +:+ ndk_arch] in
  (* Include the directory with libgcc.a to the linker search path. *)
  let toolchain_builtins :=
    Py.path_join toolchain_root
      [toolchain_path; ".."; "lib"; "gcc"; Py.basename toolchain_path; "4.9.x"] in
  (* The 32-bit libgcc.a is sometimes in a separate subdir *)
  let toolchain_builtins :=
    if String.eqb arch "i386" then Py.path_join toolchain_builtins ["32"]
    else if String.eqb arch "mips" then Py.path_join toolchain_builtins ["32"; "mips-r2"]
    else toolchain_builtins in
  let libcxx_libs :=
    Py.path_join ndk_base ["sources"; "cxx-stl"; "llvm-libc++"; "libs"] in
  let libcxx_libs :=
    if String.eqb ndk_arch "arm" then Py.path_join libcxx_libs ["armeabi"]
    else if String.eqb ndk_arch "arm64" then Py.path_join libcxx_libs ["arm64-v8a"]
    else Py.path_join libcxx_libs [ndk_arch] in
  let toolchain_lib :=
    if String.eqb ndk_arch "arm"
    then ndk_toolchain_lib arch "arm-linux-androideabi-4.9" "arm-linux-androideabi"
    else if String.eqb ndk_arch "x86" || String.eqb ndk_arch "x86_64"
    then ndk_toolchain_lib arch (ndk_arch +:+ "-4.9") llvm_triple
    else ndk_toolchain_lib arch (llvm_triple +:+ "-4.9") llvm_triple in
  let ldflags :=
    ["-L" +:+ toolchain_builtins; "-Wl,-z,defs"; "-L" +:+ libcxx_libs;
     "-L" +:+ toolchain_lib;
     "--sysroot=" +:+ sysroot_libs] in
  if negb (String.eqb arch "mips") && negb (String.eqb arch "mips64")
  then ldflags ++ ["-Wl,--hash-style=both"]
  else ldflags.

(** The body of the [for] loop of [cross_compile_configs], for one row *)
Definition cross_compile_config (stage2_install : string) (platform : bool)
    (row : config_row) : config :=
  let '(arch, ndk_arch, toolchain_path, llvm_triple, extra_flags) := row in
  let cc := Py.path_join stage2_install ["bin"; "clang"] in
  let cxx := Py.path_join stage2_install ["bin"; "clang++"] in
  let toolchain_bin := Py.path_join toolchain_root [toolchain_path; "bin"] in
  let sysroot := Py.path_join ndk_base ["sysroot"] in
  let sysroot_headers :=
    if String.eqb arch "arm"
    then Py.path_join sysroot ["usr"; "include"; "arm-linux-androideabi"]
    else Py.path_join sysroot ["usr"; "include"; llvm_triple] in
  let ldflags := ldflags_of platform row in
  let defines :=
    Py.assign ∅
      [("CMAKE_C_COMPILER", cc);
       ("CMAKE_CXX_COMPILER", cxx);
       ("CMAKE_EXE_LINKER_FLAGS", Py.join " " ldflags);
       ("CMAKE_SHARED_LINKER_FLAGS", Py.join " " ldflags);
       ("CMAKE_MODULE_LINKER_FLAGS", Py.join " " ldflags);
       ("CMAKE_SYSROOT", sysroot);
       ("CMAKE_SYSROOT_COMPILE", sysroot)] in
  let cflags :=
    ["--target=" +:+ llvm_triple;
     "-B" +:+ toolchain_bin;
     "-isystem " +:+ sysroot_headers;
     "-D__ANDROID_API__=" +:+ android_api arch platform;
     extra_flags] in
  {| cfg_arch := arch; cfg_llvm_triple := llvm_triple;
     cfg_defines := defines; cfg_cflags := cflags |}.

(** The generator: it takes no architecture list, it walks the fixed
    table. *)
Definition cross_compile_configs (stage2_install : string) (platform : bool)
    : list config :=
  map (cross_compile_config stage2_install platform) configs.

End Paths.

(** ** The outside world

    Everything the script does to its environment is an [action] (it
    either succeeds or raises), a [query] (a test on a path) or a read.
    A run is recorded as the list of [event]s it performed, each with
    the answer it got. *)

Inductive level := INFO | DEBUG.

(** Arguments of a logging call, kept unformatted as [logging] does *)
Inductive logarg :=
| LStr (s : string)
| LBool (b : bool)
| LCmd (argv : list string).     (* subprocess.list2cmdline(argv) *)

Inductive action :=
| CheckCall (argv : list string) (cwd : option string)
            (env : option (gmap string string))   (* subprocess.check_call *)
| Makedirs (path : string)                        (* os.makedirs *)
| OsRemove (path : string)                        (* os.remove *)
| OsSymlink (target link : string)                (* os.symlink *)
| UtilsRmTree (path : string)                     (* utils.rm_tree *)
| UtilsRemove (path : string)                     (* utils.remove *)
| ShutilRmtree (path : string)                    (* shutil.rmtree *)
| ShutilCopy2 (src dst : string)                  (* shutil.copy2 *)
| ShutilMove (src dst : string)                   (* shutil.move *)
| ShutilCopytree (src dst : string)               (* shutil.copytree(symlinks=True) *)
| WriteFile (path content : string)               (* open(path, 'w').write(content) *)
| Touch (path : string)                           (* open(path, 'w+').close() *)
| CreateMapFile (lib_file map_file : string).     (* mapfile.create_map_file *)

Inductive query :=
| Exists (path : string)      (* os.path.exists *)
| IsFile (path : string)      (* os.path.isfile *)
| IsDir (path : string)       (* os.path.isdir *)
| IsLink (path : string).     (* os.path.islink *)

Inductive exn :=
| RuntimeError (msg : string)
| CalledProcessError (argv : list string)   (* a subprocess exited non-zero *)
| EnvironmentError (a : action)             (* OSError, IOError or shutil.Error *)
| ReadError (path : string).                (* a listing or a file that cannot be read *)

Inductive outcome (A : Type) :=
| Ok (a : A)
| Raise (e : exn).
Arguments Ok {A} a.
Arguments Raise {A} e.

Definition exn_of_action (a : action) : exn :=
  match a with
  | CheckCall argv _ _ => CalledProcessError argv
  | _ => EnvironmentError a
  end.

(** *** What the code needs of a monad, and of a file system *)

Class PyMonad (M : Type → Type) := {
  ret : ∀ {A}, A → M A;
  bind : ∀ {A B}, M A → (A → M B) → M B;
  raise : ∀ {A}, exn → M A
}.

Declare Scope py_scope.
Delimit Scope py_scope with py.
Notation "x <- c1 ;; c2" := (bind c1 (λ x, c2))
  (at level 100, c1 at next level, right associativity) : py_scope.
Notation "c1 ;; c2" := (bind c1 (λ _, c2))
  (at level 100, right associativity) : py_scope.
Local Open Scope py_scope.

(** [for x in l: body(x)] *)
Fixpoint for_each {M} `{PyMonad M} {A} (l : list A) (body : A → M unit) : M unit :=
  match l with
  | [] => ret tt
  | x :: l' => body x ;; for_each l' body
  end.

(** [if c: body] *)
Definition when {M} `{PyMonad M} (c : bool) (body : M unit) : M unit :=
  if c then body else ret tt.

Class FileSystem (M : Type → Type) := {
  os_path_isfile : string → M bool;
  os_path_islink : string → M bool;
  os_listdir : string → M (list string);
  os_remove : string → M unit;
  shutil_move : string → string → M unit;
  logger_debug : string → list logarg → M unit
}.

(** ** Shared-library normalization

    Written against the two interfaces above, so that the same code runs
    on the trace of a whole build and on a model of the library
    directory. *)

Section Normalize.
Context {M : Type → Type} `{PyMonad M, FileSystem M}.
Context (hst : Host).

(** Proxy for os.remove with logging. *)
Definition remove (path : string) : M unit :=
  logger_debug "remove %s" [LStr path] ;;
  os_remove path.

(** The [libs] table of [normalize_llvm_host_libs] *)
Definition host_libs (host : string) : gmap string string :=
  if String.eqb host "linux-x86"
  then list_to_map
       [("libLLVM", "libLLVM-{version}svn.so");
        ("libclang", "libclang.so.{version}");
        ("libc++", "libc++.so.{version}");
        ("libc++abi", "libc++abi.so.{version}")]
  else list_to_map
       [("libc++", "libc++.{version}.dylib");
        ("libc++abi", "libc++abi.{version}.dylib")].

Definition getVersions (version : Version) (libname : string) : string * string :=
  if negb (Py.startswith libname "libc++")
  then (short_version version, major version)
  else ("1.0", "1").

(** The name filter of the clean-up: [libname + '.'] or [libname + '-'] *)
Definition same_stem (libname lib : string) : bool :=
  Py.startswith lib (libname +:+ ".")    (* so libc++abi is ignored *)
  || Py.startswith lib (libname +:+ "-").

(** The body of the loop over [libs.iteritems()] *)
Definition normalize_lib (libdir : string) (version : Version)
    (item : string * string) : M unit :=
  let '(libname, libformat) := item in
  let '(short_version, major) := getVersions version libname in
  let real_lib := Py.path_join libdir [Py.format libformat short_version] in
  let soname_lib := Py.path_join libdir [Py.format libformat major] in
  soname_lib <-
    (if String.eqb libname "libLLVM"
     then
       (* Hack: soname_lib doesn't exist for LLVM.  No need to move *)
       ret real_lib
     else
       (* Rename the library to match its SONAME *)
       is_file <- os_path_isfile real_lib ;;
       if negb is_file
       then raise (RuntimeError (real_lib +:+ " must be a regular file"))
       else
         is_link <- os_path_islink soname_lib ;;
         if negb is_link
         then raise (RuntimeError (soname_lib +:+ " must be a symlink"))
         else shutil_move real_lib soname_lib ;; ret soname_lib) ;;
  (* Retain only soname_lib and delete other files for this library. *)
  names <- os_listdir libdir ;;
  let all_libs := List.filter (same_stem libname) names in
  for_each all_libs (λ lib,
    let lib := Py.path_join libdir [lib] in
    when (negb (String.eqb lib soname_lib)) (remove lib)).

(** Normalize host libraries (libLLVM, libclang, libc++, libc++abi) so
    that there is just one library, whose SONAME entry matches the actual
    name. *)
Definition normalize_llvm_host_libs (install_dir host : string)
    (version : Version) : M unit :=
  let libs := host_libs host in
  let libdir := Py.path_join install_dir ["lib64"] in
  for_each (iteritems hst libs) (normalize_lib libdir version).

End Normalize.

(** ** The trace monad *)

Inductive event :=
| EAct (a : action) (ok : bool)
| EAsk (q : query) (b : bool)
| EListdir (path : string) (r : option (list string))
| EGlob (pattern : string) (r : list string)
| EWalk (top : string) (r : list (string * list string * list string))
| EVersion (version_file : string) (r : option Version)
| EReadFile (path : string) (r : option string)
| ENow (r : string)
| ELog (lvl : level) (fmt : string) (args : list logarg).

Definition trace := list event.

(** The environment's answers; each may depend on what happened so far. *)
Record Oracle := {
  o_act : trace → action → bool;          (* does the action succeed? *)
  o_ask : trace → query → bool;
  o_listdir : trace → string → option (list string);
  o_glob : trace → string → list string;
  (* the [(dirpath, dirs, files)] triples [os.walk] yields in this run *)
  o_walk : trace → string → list (string * list string * list string);
  o_version : trace → string → option Version;
  o_read : trace → string → option string;
  o_now : trace → string                  (* datetime.now().strftime("%H:%M:%S") *)
}.

Definition T (A : Type) : Type := trace → outcome A * trace.

Definition T_ret {A} (a : A) : T A := λ t, (Ok a, t).

Definition T_bind {A B} (m : T A) (k : A → T B) : T B :=
  λ t, match m t with
       | (Ok a, t') => k a t'
       | (Raise e, t') => (Raise e, t')
       end.

Definition T_raise {A} (e : exn) : T A := λ t, (Raise e, t).

#[export] Instance T_monad : PyMonad T :=
  {| ret := @T_ret; bind := @T_bind; raise := @T_raise |}.

(** ** The script, on traces *)

Section Pipeline.
Context (hst : Host) (orc : Oracle).

Definition act (a : action) : T unit :=
  λ t, let ok := o_act orc t a in
       (if ok then Ok tt else Raise (exn_of_action a), t ++ [EAct a ok]).

Definition ask (q : query) : T bool :=
  λ t, let b := o_ask orc t q in (Ok b, t ++ [EAsk q b]).

Definition listdir (path : string) : T (list string) :=
  λ t, let r := o_listdir orc t path in
       (match r with Some l => Ok l | None => Raise (ReadError path) end,
        t ++ [EListdir path r]).

Definition glob (pattern : string) : T (list string) :=
  λ t, let r := o_glob orc t pattern in (Ok r, t ++ [EGlob pattern r]).

Definition walk (top : string) : T (list (string * list string * list string)) :=
  λ t, let r := o_walk orc t top in (Ok r, t ++ [EWalk top r]).

Definition read_version (version_file : string) : T Version :=
  λ t, let r := o_version orc t version_file in
       (match r with Some v => Ok v | None => Raise (ReadError version_file) end,
        t ++ [EVersion version_file r]).

Definition read_file (path : string) : T string :=
  λ t, let r := o_read orc t path in
       (match r with Some s => Ok s | None => Raise (ReadError path) end,
        t ++ [EReadFile path r]).

Definition now : T string :=
  λ t, let r := o_now orc t in (Ok r, t ++ [ENow r]).

Definition log (lvl : level) (fmt : string) (args : list logarg) : T unit :=
  λ t, (Ok tt, t ++ [ELog lvl fmt args]).

#[local] Instance T_fs : FileSystem T :=
  {| os_path_isfile p := ask (IsFile p);
     os_path_islink p := ask (IsLink p);
     os_listdir := listdir;
     os_remove p := act (OsRemove p);
     shutil_move src dst := act (ShutilMove src dst);
     logger_debug := log DEBUG |}.

(** subprocess.check_call with logging. *)
Definition check_call (cmd : list string) (cwd : option string)
    (env : option (gmap string string)) : T unit :=
  time <- now ;;
  log INFO "check_call:%s %s" [LStr time; LCmd cmd] ;;
  act (CheckCall cmd cwd env).

(** Proxy for shutil.copy2 with logging and dry-run support. *)
Definition install_file (src dst : string) : T unit :=
  log INFO "copy %s %s" [LStr src; LStr dst] ;;
  act (ShutilCopy2 src dst).

(** The [version_file] path of [extract_clang_version] *)
Definition clang_version_file (clang_install : string) : string :=
  Py.path_join clang_install ["include"; "clang"; "Basic"; "Version.inc"].

Definition extract_clang_version (clang_install : string) : T Version :=
  let version_file := clang_version_file clang_install in
  read_version version_file.

Definition extract_clang_long_version (clang_install : string) : T string :=
  v <- extract_clang_version clang_install ;;
  ret (long_version v).

(** The [profile] path of [pgo_profdata_file] *)
Definition pgo_profile_path (version_str : string) : string :=
  let profdata_file := version_str +:+ ".profdata" in
  android_path hst ["prebuilts"; "clang"; "host"; "linux-x86"; "profiles";
                    profdata_file].

Definition pgo_profdata_file (version_str : string) : T (option string) :=
  let profile := pgo_profile_path version_str in
  found <- ask (Exists profile) ;;
  ret (if found then Some profile else None).

Definition check_create_path (path : string) : T unit :=
  found <- ask (Exists path) ;;
  when (negb found) (act (Makedirs path)).

Definition rm_cmake_cache (dir : string) : T unit :=
  triples <- walk dir ;;
  for_each triples (λ '(dirpath, dirs, files),
    when (bool_decide ("CMakeCache.txt" ∈ files))
         (act (OsRemove (Py.path_join dirpath ["CMakeCache.txt"]))) ;;
    when (bool_decide ("CMakeFiles" ∈ dirs))
         (act (UtilsRmTree (Py.path_join dirpath ["CMakeFiles"])))).

(** The command line of the configure step.  [for key in defines] walks
    the dict in the interpreter's order. *)
Definition cmake_flags (defines : gmap string string) (cmake_path : string)
    : list string :=
  ["-G"; "Ninja"]
  (* Specify CMAKE_PREFIX_PATH so 'cmake -G Ninja ...' can find the ninja
     executable. *)
  ++ ["-DCMAKE_PREFIX_PATH=" +:+ cmake_prebuilt_bin_dir hst]
  ++ map (λ kv, "-D" +:+ kv.1 +:+ "=" +:+ kv.2) (iteritems hst defines)
  ++ [cmake_path].

Definition invoke_cmake (out_path : string) (defines env : gmap string string)
    (cmake_path : string) (target : option string) (install : bool) : T unit :=
  let flags := cmake_flags defines cmake_path in
  check_create_path out_path ;;
  let ninja_target :=
    if Py.truthy target then [default "" target] else [] in
  check_call ([cmake_bin_path hst] ++ flags) (Some out_path) (Some env) ;;
  check_call ([ninja_bin_path hst] ++ ninja_target) (Some out_path) (Some env) ;;
  when install
    (check_call [ninja_bin_path hst; "install"] (Some out_path) (Some env)).

Definition build_asan_test (stage2_install : string) : T unit :=
  (* We can not build asan_test using current CMake building system. Since
     those files are not used to build AOSP, we just simply touch them so
     that we can pass the build checks. *)
  for_each ["aarch64"; "arm"; "i686"; "mips"; "mips64"] (λ arch,
    let asan_test_path := Py.path_join stage2_install ["test"; arch; "bin"] in
    check_create_path asan_test_path ;;
    let asan_test_bin_path := Py.path_join asan_test_path ["asan_test"] in
    act (Touch asan_test_bin_path)).

Definition build_asan_map_files (stage2_install : string)
    (clang_version : Version) : T unit :=
  let lib_dir :=
    Py.path_join stage2_install
      [clang_resource_dir (long_version clang_version) ""] in
  for_each ["aarch64"; "arm"; "i686"; "x86_64"; "mips"; "mips64"] (λ arch,
    let lib_file :=
      Py.path_join lib_dir ["libclang_rt.asan-" +:+ arch +:+ "-android.so"] in
    let map_file :=
      Py.path_join lib_dir ["libclang_rt.asan-" +:+ arch +:+ "-android.map.txt"] in
    act (CreateMapFile lib_file map_file)).

Definition build_libcxx (stage2_install : string) (clang_version : Version)
    : T unit :=
  for_each (cross_compile_configs hst stage2_install false) (λ cfg,
    let arch := cfg_arch cfg in
    let llvm_triple := cfg_llvm_triple cfg in
    let cflags := cfg_cflags cfg in
    log INFO "Building libcxx for %s" [LStr arch] ;;
    let libcxx_path := out_path hst ["lib"; "libcxx-" +:+ arch] in
    let libcxx_defines :=
      Py.assign (cfg_defines cfg)
        [("CMAKE_C_FLAGS", Py.join " " cflags);
         ("CMAKE_CXX_FLAGS", Py.join " " cflags);
         ("CMAKE_BUILD_TYPE", "Release")] in
    let libcxx_env := ORIG_ENV hst in
    let libcxx_cmake_path := llvm_path hst ["projects"; "libcxx"] in
    rm_cmake_cache libcxx_path ;;
    invoke_cmake libcxx_path libcxx_defines libcxx_env libcxx_cmake_path
                 None false ;;
    (* We need to install libcxx manually. *)
    let install_subdir :=
      clang_resource_dir (long_version clang_version)
                         (arch_from_triple llvm_triple) in
    let libcxx_install := Py.path_join stage2_install [install_subdir] in
    let libcxx_libs := Py.path_join libcxx_path ["lib"] in
    check_create_path libcxx_install ;;
    names <- listdir libcxx_libs ;;
    for_each names (λ f,
      when (Py.startswith f "libc++")
           (act (ShutilCopy2 (Py.path_join libcxx_libs [f]) libcxx_install)))).

Definition build_crts (stage2_install : string) (clang_version : Version)
    : T unit :=
  let llvm_config := Py.path_join stage2_install ["bin"; "llvm-config"] in
  (* Now build compiler-rt for each arch *)
  for_each (cross_compile_configs hst stage2_install false) (λ cfg,
    let arch := cfg_arch cfg in
    let llvm_triple := cfg_llvm_triple cfg in
    log INFO "Building compiler-rt for %s" [LStr arch] ;;
    let crt_path := out_path hst ["lib"; "clangrt-" +:+ arch] in
    let crt_install :=
      Py.path_join stage2_install
        ["lib64"; "clang"; long_version clang_version] in
    let cflags := cfg_cflags cfg ++ ["-isystem " +:+ support_headers hst] in
    let crt_defines :=
      Py.assign (cfg_defines cfg)
        [("ANDROID", "1");
         ("LLVM_CONFIG_PATH", llvm_config);
         ("COMPILER_RT_INCLUDE_TESTS", "ON");
         ("CMAKE_C_FLAGS", Py.join " " cflags);
         ("CMAKE_ASM_FLAGS", Py.join " " cflags);
         ("CMAKE_CXX_FLAGS", Py.join " " cflags);
         ("COMPILER_RT_TEST_COMPILER_CFLAGS", Py.join " " cflags);
         ("COMPILER_RT_TEST_TARGET_TRIPLE", llvm_triple);
         ("COMPILER_RT_INCLUDE_TESTS", "OFF");
         ("CMAKE_INSTALL_PREFIX", crt_install);
         (* Build libfuzzer separately. *)
         ("COMPILER_RT_BUILD_LIBFUZZER", "OFF");
         ("SANITIZER_CXX_ABI", "libcxxabi");
         ("SANITIZER_COMMON_LINK_LIBS",
          if String.eqb arch "arm" then "-latomic -landroid_support"
          else "-landroid_support")] in
    let crt_defines := Py.update crt_defines (base_cmake_defines hst) in
    let crt_env := ORIG_ENV hst in
    let crt_cmake_path := llvm_path hst ["projects"; "compiler-rt"] in
    rm_cmake_cache crt_path ;;
    invoke_cmake crt_path crt_defines crt_env crt_cmake_path None true).

(** The name of the fuzzer archive the build leaves behind *)
Definition libfuzzer_static_lib_filename (arch : string) : string :=
  let sarch := if String.eqb arch "i386" then "i686" else arch in
  "libclang_rt.fuzzer-" +:+ sarch +:+ "-android.a".

(** Where [build_libfuzzers] and [build_libomp] install a library *)
Definition runtime_lib_dir (stage2_install : string) (clang_version : Version)
    (ndk_cxx : bool) (llvm_triple : string) : string :=
  let triple_arch := arch_from_triple llvm_triple in
  let lib_subdir :=
    if ndk_cxx then Py.path_join "runtimes_ndk_cxx" [triple_arch]
    else clang_resource_dir (long_version clang_version) triple_arch in
  Py.path_join stage2_install [lib_subdir].

Definition build_libfuzzers (stage2_install : string) (clang_version : Version)
    (ndk_cxx : bool) : T unit :=
  let llvm_config := Py.path_join stage2_install ["bin"; "llvm-config"] in
  for_each (cross_compile_configs hst stage2_install (negb ndk_cxx)) (λ cfg,
    let arch := cfg_arch cfg in
    let llvm_triple := cfg_llvm_triple cfg in
    log INFO "Building libfuzzer for %s (ndk_cxx? %s)" [LStr arch; LBool ndk_cxx] ;;
    let libfuzzer_path := out_path hst ["lib"; "libfuzzer-" +:+ arch] in
    let libfuzzer_path :=
      if ndk_cxx then libfuzzer_path +:+ "-ndk-cxx" else libfuzzer_path in
    let cflags :=
      cfg_cflags cfg
      ++ map (λ d, "-isystem " +:+ d) (libcxx_header_dirs hst ndk_cxx) in
    let libfuzzer_defines :=
      Py.assign (cfg_defines cfg)
        [("ANDROID", "1");
         ("LLVM_CONFIG_PATH", llvm_config);
         ("CMAKE_C_FLAGS", Py.join " " cflags);
         ("CMAKE_CXX_FLAGS", Py.join " " cflags);
         (* lib/Fuzzer/CMakeLists.txt does not call cmake_minimum_required()
            to set a minimum version.  Explicitly request a policy that'll
            pass CMAKE_*_LINKER_FLAGS to the trycompile() step. *)
         ("CMAKE_POLICY_DEFAULT_CMP0056", "NEW")] in
    let libfuzzer_cmake_path := llvm_path hst ["projects"; "compiler-rt"] in
    let libfuzzer_env := ORIG_ENV hst in
    rm_cmake_cache libfuzzer_path ;;
    invoke_cmake libfuzzer_path libfuzzer_defines libfuzzer_env
                 libfuzzer_cmake_path (Some "fuzzer") false ;;
    (* We need to install libfuzzer manually. *)
    let static_lib_filename := libfuzzer_static_lib_filename arch in
    let static_lib :=
      Py.path_join libfuzzer_path ["lib"; "linux"; static_lib_filename] in
    let lib_dir := runtime_lib_dir stage2_install clang_version ndk_cxx llvm_triple in
    check_create_path lib_dir ;;
    act (ShutilCopy2 static_lib (Py.path_join lib_dir ["libFuzzer.a"]))) ;;
  (* Install libfuzzer headers. *)
  let header_src :=
    llvm_path hst ["projects"; "compiler-rt"; "lib"; "fuzzer"] in
  let header_dst :=
    Py.path_join stage2_install ["prebuilt_include"; "llvm"; "lib"; "Fuzzer"] in
  check_create_path header_dst ;;
  names <- listdir header_src ;;
  for_each names (λ f,
    when (Py.endswith f ".h" || Py.endswith f ".def")
         (act (ShutilCopy2 (Py.path_join header_src [f]) header_dst))).

Definition build_libomp (stage2_install : string) (clang_version : Version)
    (ndk_cxx : bool) : T unit :=
  for_each (cross_compile_configs hst stage2_install (negb ndk_cxx)) (λ cfg,
    let arch := cfg_arch cfg in
    let llvm_triple := cfg_llvm_triple cfg in
    log INFO "Building libomp for %s (ndk_cxx? %s)" [LStr arch; LBool ndk_cxx] ;;
    let cflags :=
      cfg_cflags cfg
      ++ map (λ d, "-isystem " +:+ d) (libcxx_header_dirs hst ndk_cxx) in
    let libomp_path := out_path hst ["lib"; "libomp-" +:+ arch] in
    let libomp_path :=
      if ndk_cxx then libomp_path +:+ "-ndk-cxx" else libomp_path in
    let libomp_defines :=
      Py.assign (cfg_defines cfg)
        [("ANDROID", "1");
         ("CMAKE_BUILD_TYPE", "Release");
         ("CMAKE_C_FLAGS", Py.join " " cflags);
         ("CMAKE_CXX_FLAGS", Py.join " " cflags);
         ("LIBOMP_ENABLE_SHARED", "FALSE");
         (* Minimum version for OpenMP's CMake is too low for the CMP0056
            policy to be ON by default. *)
         ("CMAKE_POLICY_DEFAULT_CMP0056", "NEW")] in
    let libomp_cmake_path := llvm_path hst ["projects"; "openmp"; "runtime"] in
    let libomp_env := ORIG_ENV hst in
    rm_cmake_cache libomp_path ;;
    invoke_cmake libomp_path libomp_defines libomp_env libomp_cmake_path
                 None false ;;
    (* We need to install libomp manually. *)
    let static_lib := Py.path_join libomp_path ["src"; "libomp.a"] in
    let lib_dir := runtime_lib_dir stage2_install clang_version ndk_cxx llvm_triple in
    check_create_path lib_dir ;;
    act (ShutilCopy2 static_lib (Py.path_join lib_dir ["libomp.a"]))).

Definition build_crts_host_i686 (stage2_install : string)
    (clang_version : Version) : T unit :=
  let llvm_config := Py.path_join stage2_install ["bin"; "llvm-config"] in
  let crt_install :=
    Py.path_join stage2_install ["lib64"; "clang"; long_version clang_version] in
  let crt_cmake_path := llvm_path hst ["projects"; "compiler-rt"] in
  let cflags := ["--target=i386-linux-gnu"; "-march=i686"] in
  let crt_defines :=
    Py.assign (base_cmake_defines hst)
      [("CMAKE_C_COMPILER", Py.path_join stage2_install ["bin"; "clang"]);
       ("CMAKE_CXX_COMPILER", Py.path_join stage2_install ["bin"; "clang++"]);
       (* Skip building runtimes for i386 *)
       ("COMPILER_RT_DEFAULT_TARGET_ONLY", "ON");
       (* Due to CMake and Clang oddities, we need to explicitly set
          CMAKE_C_COMPILER_TARGET and use march=i686 in cflags below instead
          of relying on auto-detection from the Compiler-rt CMake files. *)
       ("CMAKE_C_COMPILER_TARGET", "i386-linux-gnu");
       ("CMAKE_C_FLAGS", Py.join " " cflags);
       ("CMAKE_CXX_FLAGS", Py.join " " cflags);
       ("LLVM_CONFIG_PATH", llvm_config);
       ("COMPILER_RT_INCLUDE_TESTS", "ON");
       ("COMPILER_RT_ENABLE_WERROR", "ON");
       ("CMAKE_INSTALL_PREFIX", crt_install);
       ("SANITIZER_CXX_ABI", "libstdc++");
       ("COMPILER_RT_BUILD_LIBFUZZER", "OFF")] in
  let crt_env := ORIG_ENV hst in
  let crt_path := out_path hst ["lib"; "clangrt-i386-host"] in
  rm_cmake_cache crt_path ;;
  invoke_cmake crt_path crt_defines crt_env crt_cmake_path None true.

(** The defines [build_llvm] hands to cmake *)
Definition llvm_cmake_defines (targets install_dir build_name : string)
    (extra_defines : option (gmap string string)) : gmap string string :=
  let cmake_defines :=
    Py.assign (base_cmake_defines hst)
      [("CMAKE_INSTALL_PREFIX", install_dir);
       ("LLVM_TARGETS_TO_BUILD", targets);
       ("LLVM_BUILD_LLVM_DYLIB", "ON");
       ("CLANG_VENDOR",
        "Android (" +:+ build_name +:+ " based on " +:+ svn_revision hst +:+ ") ");
       ("LLVM_BINUTILS_INCDIR",
        android_path hst ["toolchain/binutils/binutils-2.27/include"])] in
  match extra_defines with
  | Some extra => Py.update cmake_defines extra
  | None => cmake_defines
  end.

Definition build_llvm (targets build_dir install_dir build_name : string)
    (extra_defines extra_env : option (gmap string string)) : T unit :=
  let cmake_defines :=
    llvm_cmake_defines targets install_dir build_name extra_defines in
  let env :=
    match extra_env with
    | Some extra => Py.update (ORIG_ENV hst) extra
    | None => ORIG_ENV hst
    end in
  invoke_cmake build_dir cmake_defines env (llvm_path hst []) None true.

Definition nl : string := String (ascii_of_nat 10) "".

Definition build_llvm_for_windows (targets : string) (enable_assertions : bool)
    (build_dir install_dir build_name native_clang_install : string)
    (is_32_bit : bool) : T unit :=
  let mingw_path :=
    android_path hst ["prebuilts"; "gcc"; "linux-x86"; "host";
                      "x86_64-w64-mingw32-4.8"] in
  let mingw_cc := Py.path_join mingw_path ["bin"; "x86_64-w64-mingw32-gcc"] in
  let mingw_cxx := Py.path_join mingw_path ["bin"; "x86_64-w64-mingw32-g++"] in
  (* Write a NATIVE.cmake in windows_path that contains the compilers used
     to build native tools such as llvm-tblgen and llvm-config.  This is
     used below via the CMake variable CROSS_TOOLCHAIN_FLAGS_NATIVE. *)
  let native_clang_cc := Py.path_join native_clang_install ["bin"; "clang"] in
  let native_clang_cxx := Py.path_join native_clang_install ["bin"; "clang++"] in
  check_create_path build_dir ;;
  let native_cmake_file_path := Py.path_join build_dir ["NATIVE.cmake"] in
  let native_cmake_text :=
    "set(CMAKE_C_COMPILER " +:+ native_clang_cc +:+ ")" +:+ nl +:+
    "set(CMAKE_CXX_COMPILER " +:+ native_clang_cxx +:+ ")" +:+ nl in
  act (WriteFile native_cmake_file_path native_cmake_text) ;;
  let cflags := ["-D_LARGEFILE_SOURCE"; "-D_FILE_OFFSET_BITS=64"] in
  let cxxflags := cflags in
  (* http://b/62787860 - mingw can't properly de-duplicate some functions
     on 64-bit Windows builds. *)
  let ldflags := ["-Wl,--allow-multiple-definition"] in
  let cflags := if is_32_bit then cflags ++ ["-m32"] else cflags in
  let cxxflags := if is_32_bit then cxxflags ++ ["-m32"] else cxxflags in
  let ldflags := if is_32_bit then ldflags ++ ["-m32"] else ldflags in
  (* Extra cmake defines to use while building for Windows *)
  let windows_extra_defines :=
    Py.assign ∅
      [("CMAKE_C_COMPILER", mingw_cc);
       ("CMAKE_CXX_COMPILER", mingw_cxx);
       ("CMAKE_SYSTEM_NAME", "Windows");
       (* Don't build compiler-rt, libcxx etc. for Windows *)
       ("LLVM_BUILD_RUNTIME", "OFF");
       (* Build clang-tidy/clang-format for Windows. *)
       ("LLVM_TOOL_CLANG_TOOLS_EXTRA_BUILD", "ON");
       ("LLVM_TOOL_OPENMP_BUILD", "OFF");
       ("CROSS_TOOLCHAIN_FLAGS_NATIVE",
        "-DCMAKE_PREFIX_PATH=" +:+ cmake_prebuilt_bin_dir hst +:+ ";" +:+
        "-DCMAKE_TOOLCHAIN_FILE=" +:+ native_cmake_file_path)] in
  let windows_extra_defines :=
    if enable_assertions
    then <["LLVM_ENABLE_ASSERTIONS" := "ON"]> windows_extra_defines
    else windows_extra_defines in
  let windows_extra_defines :=
    (* 32-bit libraries belong in lib/. *)
    if is_32_bit
    then <["LLVM_LIBDIR_SUFFIX" := ""]> windows_extra_defines
    else windows_extra_defines in
  let windows_extra_defines :=
    Py.assign windows_extra_defines
      [("CMAKE_C_FLAGS", Py.join " " cflags);
       ("CMAKE_CXX_FLAGS", Py.join " " cxxflags);
       ("CMAKE_EXE_LINKER_FLAGS", Py.join " " ldflags);
       ("CMAKE_SHARED_LINKER_FLAGS", Py.join " " ldflags);
       ("CMAKE_MODULE_LINKER_FLAGS", Py.join " " ldflags)] in
  build_llvm targets build_dir install_dir build_name
             (Some windows_extra_defines) None.

Definition stage1_extra_defines (build_llvm_tools : bool) : gmap string string :=
  let stage1_extra_defines :=
    Py.assign ∅
      [("LLVM_BUILD_RUNTIME", "ON");
       ("CLANG_ENABLE_ARCMT", "OFF");
       ("CLANG_ENABLE_STATIC_ANALYZER", "OFF");
       ("CMAKE_C_COMPILER", Py.path_join (clang_prebuilt_bin_dir hst) ["clang"]);
       ("CMAKE_CXX_COMPILER", Py.path_join (clang_prebuilt_bin_dir hst) ["clang++"]);
       ("LLVM_TOOL_CLANG_TOOLS_EXTRA_BUILD", "OFF");
       ("LLVM_TOOL_OPENMP_BUILD", "OFF");
       ("LLVM_BUILD_TOOLS", if build_llvm_tools then "ON" else "OFF");
       (* Have clang use libc++, ... *)
       ("LLVM_ENABLE_LIBCXX", "ON")] in
  (* ... and point CMake to the libc++.so from the prebuilts.  Install an
     rpath to prevent linking with the newly-built libc++.so *)
  let ldflags := ["-Wl,-rpath," +:+ clang_prebuilt_lib_dir hst] in
  let stage1_extra_defines :=
    Py.assign stage1_extra_defines
      [("CMAKE_EXE_LINKER_FLAGS", Py.join " " ldflags);
       ("CMAKE_SHARED_LINKER_FLAGS", Py.join " " ldflags);
       ("CMAKE_MODULE_LINKER_FLAGS", Py.join " " ldflags)] in
  (* Make libc++.so a symlink to libc++.so.x instead of a linker script
     that also adds -lc++abi.  This is needed only for Linux. *)
  let stage1_extra_defines :=
    if host_is_linux hst
    then Py.assign stage1_extra_defines
           [("LIBCXX_ENABLE_ABI_LINKER_SCRIPT", "OFF");
            ("LIBCXX_ENABLE_STATIC_ABI_LIBRARY", "ON")]
    else stage1_extra_defines in
  (* Do not build compiler-rt for Darwin. *)
  let stage1_extra_defines :=
    if host_is_darwin hst
    then <["LLVM_BUILD_EXTERNAL_COMPILER_RT" := "ON"]> stage1_extra_defines
    else stage1_extra_defines in
  (* Don't build libfuzzer, since it's broken on Darwin and we don't need
     it anyway. *)
  <["COMPILER_RT_BUILD_LIBFUZZER" := "OFF"]> stage1_extra_defines.

Definition build_stage1 (stage1_install build_name : string)
    (build_llvm_tools : bool) : T unit :=
  (* Build/install the stage 1 toolchain *)
  let stage1_path := out_path hst ["stage1"] in
  let stage1_targets := "X86" in
  build_llvm stage1_targets stage1_path stage1_install build_name
             (Some (stage1_extra_defines build_llvm_tools)) None.

(** [stage2_extra_defines] as it stands when [build_stage2] reaches the
    test on [profdata_file] *)
Definition stage2_defines_before_profdata (stage1_install : string)
    (use_lld enable_assertions debug_build build_instrumented : bool)
    : gmap string string :=
  let stage2_cc := Py.path_join stage1_install ["bin"; "clang"] in
  let stage2_cxx := Py.path_join stage1_install ["bin"; "clang++"] in
  let stage2_extra_defines :=
    Py.assign ∅
      [("CMAKE_C_COMPILER", stage2_cc);
       ("CMAKE_CXX_COMPILER", stage2_cxx);
       ("LLVM_BUILD_RUNTIME", "ON");
       ("LLVM_ENABLE_LIBCXX", "ON");
       ("SANITIZER_ALLOW_CXXABI", "OFF");
       (* Don't build libfuzzer, since it's broken on Darwin and we don't
          need it anyway. *)
       ("COMPILER_RT_BUILD_LIBFUZZER", "OFF")] in
  let stage2_extra_defines :=
    if use_lld then <["LLVM_ENABLE_LLD" := "ON"]> stage2_extra_defines
    else stage2_extra_defines in
  let stage2_extra_defines :=
    if enable_assertions
    then <["LLVM_ENABLE_ASSERTIONS" := "ON"]> stage2_extra_defines
    else stage2_extra_defines in
  let stage2_extra_defines :=
    if debug_build then <["CMAKE_BUILD_TYPE" := "Debug"]> stage2_extra_defines
    else stage2_extra_defines in
  if build_instrumented
  then
    (* llvm-profdata is only needed to finish CMake configuration
       (tools/clang/utils/perf-training/CMakeLists.txt) and not needed for
       build *)
    let llvm_profdata := Py.path_join stage1_install ["bin"; "llvm-profdata"] in
    Py.assign stage2_extra_defines
      [("LLVM_BUILD_INSTRUMENTED", "ON");
       ("LLVM_PROFDATA", llvm_profdata);
       (* libcxx, libcxxabi build with -nodefaultlibs and cannot link with
          -fprofile-instr-generate because libclang_rt.profile depends on
          libc.  Skip building runtimes and use libstdc++. *)
       ("LLVM_ENABLE_LIBCXX", "OFF");
       ("LLVM_BUILD_RUNTIME", "OFF")]
  else stage2_extra_defines.

(** ... and what is added to it after that test *)
Definition stage2_defines_after_profdata (stage2_extra_defines : gmap string string)
    : gmap string string :=
  (* Make libc++.so a symlink to libc++.so.x instead of a linker script
     that also adds -lc++abi.  This is needed only for Linux. *)
  let stage2_extra_defines :=
    if host_is_linux hst
    then Py.assign stage2_extra_defines
           [("LIBCXX_ENABLE_STATIC_ABI_LIBRARY", "ON");
            ("LIBCXX_ENABLE_ABI_LINKER_SCRIPT", "OFF")]
    else stage2_extra_defines in
  (* Do not build compiler-rt for Darwin. *)
  if host_is_darwin hst
  then <["LLVM_BUILD_EXTERNAL_COMPILER_RT" := "ON"]> stage2_extra_defines
  else stage2_extra_defines.

Definition build_stage2 (stage1_install stage2_install stage2_targets
    build_name : string)
    (use_lld enable_assertions debug_build build_instrumented : bool)
    (profdata_file : option string) : T unit :=
  (* Build/install the stage2 toolchain *)
  let stage2_path := out_path hst ["stage2"] in
  let stage2_extra_defines :=
    stage2_defines_before_profdata stage1_install use_lld enable_assertions
                                   debug_build build_instrumented in
  stage2_extra_defines <-
    (if Py.truthy profdata_file
     then
       if build_instrumented
       then raise (RuntimeError "Cannot simultaneously instrument and use profiles")
       else ret (<["LLVM_PROFDATA_FILE" := default "" profdata_file]>
                   stage2_extra_defines)
     else ret stage2_extra_defines) ;;
  let stage2_extra_defines := stage2_defines_after_profdata stage2_extra_defines in
  (* Point CMake to the libc++ from stage1. *)
  let stage2_extra_env : gmap string string :=
    {["LD_LIBRARY_PATH" := Py.path_join stage1_install ["lib64"]]} in
  build_llvm stage2_targets stage2_path stage2_install build_name
             (Some stage2_extra_defines) (Some stage2_extra_env).

Definition build_runtimes (stage2_install : string) : T unit :=
  version <- extract_clang_version stage2_install ;;
  build_crts stage2_install version ;;
  build_crts_host_i686 stage2_install version ;;
  build_libfuzzers stage2_install version false ;;
  build_libfuzzers stage2_install version true ;;
  build_libomp stage2_install version false ;;
  build_libomp stage2_install version true ;;
  (* Bug: http://b/64037266. `strtod_l` is missing in NDK r15. This will
     break libcxx build. *)
  (* build_libcxx(stage2_install, version) *)
  build_asan_test stage2_install ;;
  build_asan_map_files stage2_install version.

Definition install_wrappers (llvm_install_path : string) : T unit :=
  let wrapper_path := llvm_path hst ["android"; "compiler_wrapper.py"] in
  let bisect_path := llvm_path hst ["android"; "bisect_driver.py"] in
  let bin_path := Py.path_join llvm_install_path ["bin"] in
  let clang_path := Py.path_join bin_path ["clang"] in
  let clangxx_path := Py.path_join bin_path ["clang++"] in
  let clang_tidy_path := Py.path_join bin_path ["clang-tidy"] in
  (* Rename clang and clang++ to clang.real and clang++.real.
     clang and clang-tidy may already be moved by this script if we use a
     prebuilt clang. So we only move them if clang.real and clang-tidy.real
     doesn't exist. *)
  found <- ask (Exists (clang_path +:+ ".real")) ;;
  when (negb found) (act (ShutilMove clang_path (clang_path +:+ ".real"))) ;;
  found <- ask (Exists (clang_tidy_path +:+ ".real")) ;;
  when (negb found)
       (act (ShutilMove clang_tidy_path (clang_tidy_path +:+ ".real"))) ;;
  act (UtilsRemove clang_path) ;;
  act (UtilsRemove clangxx_path) ;;
  act (UtilsRemove clang_tidy_path) ;;
  act (UtilsRemove (clangxx_path +:+ ".real")) ;;
  act (OsSymlink "clang.real" (clangxx_path +:+ ".real")) ;;
  act (ShutilCopy2 wrapper_path clang_path) ;;
  act (ShutilCopy2 wrapper_path clangxx_path) ;;
  act (ShutilCopy2 wrapper_path clang_tidy_path) ;;
  install_file bisect_path bin_path.

(** [for x in l: acc += body(x)], the results in order *)
Fixpoint collect {A B} (l : list A) (body : A → T (list B)) : T (list B) :=
  match l with
  | [] => ret []
  | x :: l' => r <- body x ;; rs <- collect l' body ;; ret (r ++ rs)
  end.

Definition install_license_files (install_dir : string) : T unit :=
  let projects :=
    ["llvm";
     "llvm/projects/compiler-rt";
     "llvm/projects/libcxx";
     "llvm/projects/libcxxabi";
     "llvm/projects/openmp";
     "llvm/tools/clang";
     "llvm/tools/clang/tools/extra";
     "llvm/tools/lld"] in
  (* Get generic MODULE_LICENSE_* files from our android subdirectory. *)
  let toolchain_path := android_path hst ["toolchain"] in
  let llvm_android_path := Py.path_join toolchain_path ["llvm"; "android"] in
  let license_pattern := Py.path_join llvm_android_path ["MODULE_LICENSE_*"] in
  license_files <- glob license_pattern ;;
  for_each license_files (λ license_file, install_file license_file install_dir) ;;
  (* Fetch all the LICENSE.* files under our projects and append them into
     a single NOTICE file for the resulting prebuilts. *)
  notices <- collect projects (λ project,
    let project_path := Py.path_join toolchain_path [project] in
    let license_pattern := Py.path_join project_path ["LICENSE.*"] in
    license_files <- glob license_pattern ;;
    collect license_files (λ license_file,
      text <- read_file license_file ;; ret [text])) ;;
  act (WriteFile (Py.path_join install_dir ["NOTICE"]) (Py.join nl notices)).

(** Installs the winpthreads runtime to the Windows bin directory. *)
Definition install_winpthreads (is_windows32 : bool) (install_dir : string)
    : T unit :=
  let lib_name := "libwinpthread-1.dll" in
  let mingw_dir :=
    android_path hst ["prebuilts/gcc/linux-x86/host/x86_64-w64-mingw32-4.8";
                      "x86_64-w64-mingw32"] in
  (* Yes, this indeed may be found in bin/ because the executables are the
     64-bit version by default. *)
  let pthread_dir := if is_windows32 then "lib32" else "bin" in
  let lib_path := Py.path_join mingw_dir [pthread_dir; lib_name] in
  let lib_install := Py.path_join install_dir ["bin"; lib_name] in
  install_file lib_path lib_install.

Definition remove_static_libraries (static_lib_dir : string) : T unit :=
  is_dir <- ask (IsDir static_lib_dir) ;;
  when is_dir
    (lib_files <- listdir static_lib_dir ;;
     for_each lib_files (λ lib_file,
       when (Py.endswith lib_file ".a")
            (let static_library := Py.path_join static_lib_dir [lib_file] in
             remove static_library))).

Definition package_toolchain (build_dir build_name host dist_dir : string)
    (strip : bool) : T unit :=
  let is_windows32 := String.eqb host "windows-i386" in
  let is_windows64 := String.eqb host "windows-x86" in
  let is_windows := is_windows32 || is_windows64 in
  let is_linux := String.eqb host "linux-x86" in
  let package_name := "clang-" +:+ build_name in
  let install_host_dir := out_path hst ["install"; host] in
  let install_dir := Py.path_join install_host_dir [package_name] in
  version <- extract_clang_version build_dir ;;
  (* Remove any previously installed toolchain so it doesn't pollute the
     build. *)
  found <- ask (Exists install_host_dir) ;;
  when found (act (ShutilRmtree install_host_dir)) ;;
  (* First copy over the entire set of output objects. *)
  act (ShutilCopytree build_dir install_dir) ;;
  let ext := if is_windows then ".exe" else "" in
  let shlib_ext :=
    if is_windows then ".dll" else if is_linux then ".so" else ".dylib" in
  (* Next, we remove unnecessary binaries. *)
  let necessary_bin_files :=
    ["clang" +:+ ext;
     "clang++" +:+ ext;
     "clang-" +:+ short_version version +:+ ext;
     "clang-format" +:+ ext;
     "clang-tidy" +:+ ext;
     "git-clang-format";  (* No extension here *)
     "ld.lld" +:+ ext;
     "ld64.lld" +:+ ext;
     "lld" +:+ ext;
     "lld-link" +:+ ext;
     "llvm-ar" +:+ ext;
     "llvm-as" +:+ ext;
     "llvm-cov" +:+ ext;
     "llvm-dis" +:+ ext;
     "llvm-link" +:+ ext;
     "llvm-modextract" +:+ ext;
     "llvm-nm" +:+ ext;
     "llvm-profdata" +:+ ext;
     "llvm-readobj" +:+ ext;
     "llvm-symbolizer" +:+ ext;
     "sancov" +:+ ext;
     "sanstats" +:+ ext;
     "scan-build" +:+ ext;
     "scan-view" +:+ ext;
     "LLVMgold" +:+ shlib_ext] in
  (* scripts that should not be stripped *)
  let script_bins := ["git-clang-format"; "scan-build"; "scan-view"] in
  let bin_dir := Py.path_join install_dir ["bin"] in
  bin_files <- listdir bin_dir ;;
  for_each bin_files (λ bin_filename,
    let binary := Py.path_join bin_dir [bin_filename] in
    is_file <- ask (IsFile binary) ;;
    when is_file
      (if negb (bool_decide (bin_filename ∈ necessary_bin_files))
       then remove binary
       else
         when strip
           (when (negb (bool_decide (bin_filename ∈ script_bins)))
                 (check_call ["strip"; binary] None None)))) ;;
  (* Next, we remove unnecessary static libraries. *)
  let lib_dir := if is_windows32 then "lib" else "lib64" in
  remove_static_libraries (Py.path_join install_dir [lib_dir]) ;;
  (* For Windows, add other relevant libraries. *)
  when is_windows (install_winpthreads is_windows32 install_dir) ;;
  when (negb is_windows)
    (install_wrappers install_dir ;;
     normalize_llvm_host_libs hst install_dir host version) ;;
  (* Next, we copy over stdatomic.h from bionic. *)
  let stdatomic_path :=
    android_path hst ["bionic"; "libc"; "include"; "stdatomic.h"] in
  let resdir_top := Py.path_join install_dir [lib_dir; "clang"] in
  let header_path :=
    Py.path_join resdir_top [long_version version; "include"] in
  install_file stdatomic_path header_path ;;
  (* Install license files as NOTICE in the toolchain install dir. *)
  install_license_files install_dir ;;
  (* Add an AndroidVersion.txt file. *)
  let version_file_path := Py.path_join install_dir ["AndroidVersion.txt"] in
  act (WriteFile version_file_path
         (long_version version +:+ nl +:+
          "based on " +:+ svn_revision hst +:+ nl)) ;;
  (* Package up the resulting trimmed install/ directory. *)
  let tarball_name := package_name +:+ "-" +:+ host in
  let package_path := Py.path_join dist_dir [tarball_name] +:+ ".tar.bz2" in
  log INFO "Packaging %s" [LStr package_path] ;;
  let args := ["tar"; "-cjC"; install_host_dir; "-f"; package_path; package_name] in
  check_call args None None.

(** The namespace [parse_args] returns.  The parser itself rejects
    [--skip-build] together with [--skip-package].  The parsing of the
    command line and the set-up of the logging level are left out. *)
Record Args := {
  verbose : nat;
  build_name : string;
  use_lld : bool;
  enable_assertions : bool;
  debug : bool;
  build_instrumented : bool;
  skip_build : bool;
  skip_package : bool;
  no_strip : bool;
  no_build_windows : bool;
  check_pgo_profile : bool
}.

(** The part of [main] between the two stage builds and the stage-2
    build itself (the last three statements of its [if do_build:]
    block) *)
Definition main_stage2 (args : Args) (stage1_install stage2_install : string)
    (instrumented : bool) : T unit :=
  long_version <- extract_clang_long_version stage1_install ;;
  profdata <- pgo_profdata_file long_version ;;
  (* Do not use PGO profiles if profdata file doesn't exist unless failure
     is explicitly requested via --check-pgo-profile. *)
  (if bool_decide (profdata = None) && check_pgo_profile args
   then raise (RuntimeError ("Profdata file does not exist for " +:+
                             long_version))
   else ret tt) ;;
  build_stage2 stage1_install stage2_install STAGE2_TARGETS
               (build_name args) (use_lld args) (enable_assertions args)
               (debug args) instrumented profdata.

Definition main (args : Args) : T Z :=
  let do_build := negb (skip_build args) in
  let do_package := negb (skip_package args) in
  let do_strip := negb (no_strip args) in
  let do_strip_host_package := do_strip && negb (debug args) in
  let need_windows := host_is_linux hst && negb (no_build_windows args) in
  let stage1_install := out_path hst ["stage1-install"] in
  let stage2_install := out_path hst ["stage2-install"] in
  let windows32_install := out_path hst ["windows-i386-install"] in
  let windows64_install := out_path hst ["windows-x86-install"] in
  when do_build
    (for_each [stage2_install; windows32_install; windows64_install]
       (λ install_dir,
          found <- ask (Exists install_dir) ;;
          when found (act (UtilsRmTree install_dir))) ;;
     let instrumented := host_is_linux hst && build_instrumented args in
     build_stage1 stage1_install (build_name args) instrumented ;;
     main_stage2 args stage1_install stage2_install instrumented) ;;
  when (do_build && host_is_linux hst) (build_runtimes stage2_install) ;;
  when (do_build && need_windows)
    ((* Build single-stage clang for Windows *)
     let windows_targets := STAGE2_TARGETS in
     (* Build 64-bit clang for Windows *)
     let windows64_path := out_path hst ["windows-x86"] in
     build_llvm_for_windows windows_targets (enable_assertions args)
                            windows64_path windows64_install (build_name args)
                            stage2_install false ;;
     (* Build 32-bit clang for Windows *)
     let windows32_path := out_path hst ["windows-i386"] in
     build_llvm_for_windows windows_targets (enable_assertions args)
                            windows32_path windows32_install (build_name args)
                            stage2_install true) ;;
  when do_package
    (let dist_dir := default (out_path hst []) (ORIG_ENV hst !! "DIST_DIR") in
     package_toolchain stage2_install (build_name args) (build_os_type hst)
                       dist_dir do_strip_host_package ;;
     when need_windows
       (package_toolchain windows32_install (build_name args) "windows-i386"
                          dist_dir do_strip ;;
        package_toolchain windows64_install (build_name args) "windows-x86"
                          dist_dir do_strip)) ;;
  ret 0%Z.

(** The exit status of [python build.py]: an uncaught exception ends
    the interpreter with status 1. *)
Definition exit_status (r : outcome Z) : Z :=
  match r with
  | Ok _ => 0
  | Raise _ => 1
  end.

End Pipeline.

(** ** A model of the library directory

    The directory [libdir] as a finite map from entry names to nodes.
    The path [os.path.join(libdir, x)] is the entry [x]; an entry whose
    name holds a slash lies deeper in the tree and is not listed.  A
    symlink names a sibling; any other target dangles. *)

Module Dir.

Inductive node :=
| File                            (* a regular file *)
| Link (target : string)          (* a symbolic link *)
| Subdir (children : list string).

#[global] Instance node_eq_dec : EqDecision node.
Proof. solve_decision. Defined.

(** [stat]: follow symlinks, at most [fuel] of them *)
Fixpoint resolve (fuel : nat) (d : gmap string node) (name : string)
    : option (string * node) :=
  match d !! name with
  | None => None
  | Some (Link target) =>
      match fuel with
      | O => None
      | S fuel' => resolve fuel' d target
      end
  | Some n => Some (name, n)
  end.

(** The kernel gives up after 40 links. *)
Definition stat (d : gmap string node) (name : string) : option (string * node) :=
  resolve 40 d name.

(** [strip_prefix pre p]: [p] without its prefix [pre] *)
Fixpoint strip_prefix (pre p : string) : option string :=
  match pre with
  | EmptyString => Some p
  | String c pre' =>
      match p with
      | EmptyString => None
      | String c' p' => if Ascii.eqb c c' then strip_prefix pre' p' else None
      end
  end.

Fixpoint has_slash (s : string) : bool :=
  match s with
  | EmptyString => false
  | String c s' => Ascii.eqb c "/" || has_slash s'
  end.

(** What [os.listdir(libdir)] returns *)
Definition listing (d : gmap string node) : list string :=
  List.filter (λ n, negb (has_slash n)) (map fst (map_to_list d)).

Definition D (A : Type) : Type := gmap string node → outcome A * gmap string node.

#[global] Instance D_monad : PyMonad D := {|
  ret A a := λ d, (Ok a, d);
  bind A B m k := λ d,
    match m d with
    | (Ok a, d') => k a d'
    | (Raise e, d') => (Raise e, d')
    end;
  raise A e := λ d, (Raise e, d)
|}.

Section Ops.
Context (libdir : string).

(** The entry a path denotes, if the path lies under [libdir] *)
Definition entry (path : string) : option string :=
  strip_prefix (Py.path_join libdir [""]) path.

Definition isfile (path : string) : D bool :=
  λ d, (Ok match entry path with
           | Some n =>
               match stat d n with
               | Some (_, File) => true
               | _ => false
               end
           | None => false
           end, d).

Definition islink (path : string) : D bool :=
  λ d, (Ok match entry path with
           | Some n =>
               match d !! n with
               | Some (Link _) => true
               | _ => false
               end
           | None => false
           end, d).

Definition listdir (path : string) : D (list string) :=
  λ d, (if String.eqb path libdir then Ok (listing d) else Raise (ReadError path), d).

(** [os.path.samefile]: the source resolves to the node named [tn] *)
Definition samefile (d : gmap string node) (s tn : string) : bool :=
  match stat d s with
  | Some (sn, _) => String.eqb sn tn
  | None => false
  end.

(** [os.remove]: unlinks a file or a symlink, fails on a directory *)
Definition unlink (path : string) : D unit :=
  λ d, match entry path with
       | Some n =>
           match d !! n with
           | Some File | Some (Link _) => (Ok tt, delete n d)
           | _ => (Raise (EnvironmentError (OsRemove path)), d)
           end
       | None => (Raise (EnvironmentError (OsRemove path)), d)
       end.

(** [shutil.move(src, dst)] for a source that is not a directory (all
    the caller passes, which tests [isfile] first); a directory source
    is modelled as failing.  If [dst] is a directory, or a link to one,
    the source goes inside it, unless an entry of its name is there;
    otherwise [os.rename] puts the source node in the place of [dst]. *)
Definition move (src dst : string) : D unit :=
  λ d,
    let failed := (Raise (EnvironmentError (ShutilMove src dst)), d) in
    match entry src, entry dst with
    | Some s, Some t =>
        match d !! s with
        | Some (Subdir _) | None => failed
        | Some ns =>
            match stat d t with
            | Some (tn, Subdir children) =>
                if samefile d s tn
                then
                  (* _samefile(src, dst): os.rename(src, dst) *)
                  match d !! t with
                  | Some (Subdir _) => failed
                  | _ => (Ok tt, <[t := ns]> (delete s d))
                  end
                else
                  let real_dst := Py.basename s in
                  if bool_decide (real_dst ∈ children) then failed
                  else (Ok tt, <[tn := Subdir (children ++ [real_dst])]> (delete s d))
            | _ => (Ok tt, <[t := ns]> (delete s d))
            end
        end
    | _, _ => failed
    end.

#[local] Instance D_fs : FileSystem D := {|
  os_path_isfile := isfile;
  os_path_islink := islink;
  os_listdir := listdir;
  os_remove := unlink;
  shutil_move := move;
  logger_debug _ _ := λ d, (Ok tt, d)
|}.

End Ops.

End Dir.

(** ** A concrete world, for examples *)

Definition ex_host : Host := {|
  android_path := λ l, Py.path_join "/src" l;
  out_path := λ l, Py.path_join "/src/out" l;
  llvm_path := λ l, Py.path_join "/src/toolchain/llvm" l;
  build_os_type := "linux-x86";
  host_is_linux := true;
  host_is_darwin := false;
  patch_level := "1";
  svn_revision := "r316199";
  ORIG_ENV := ∅;
  iteritems := map_to_list
|}.

Definition ex_version : Version :=
  {| major := "6"; short_version := "6.0"; long_version := "6.0.1" |}.

(** Everything is a file, a directory and a link, directories are empty,
    the paths of [present] exist and the actions of [fails] fail. *)
Definition ex_oracle_failing (present : string → bool) (fails : action → bool)
    : Oracle := {|
  o_act := λ _ a, negb (fails a);
  o_ask := λ _ q, match q with Exists p => present p | IsFile _ => true | IsDir _ => true | IsLink _ => true end;
  o_listdir := λ _ _, Some [];
  o_glob := λ _ _, [];
  o_walk := λ _ _, [];
  o_version := λ _ _, Some ex_version;
  o_read := λ _ _, Some "";
  o_now := λ _, "12:00:00"
|}.

Definition ex_args : Args := {|
  verbose := 0; build_name := "dev"; use_lld := false; enable_assertions := false;
  debug := false; build_instrumented := true; skip_build := false; skip_package := false;
  no_strip := false; no_build_windows := false; check_pgo_profile := false |}.


Definition ex_oracle (present : string → bool) : Oracle :=
  ex_oracle_failing present (λ _, false).

(** The build step of stage 1: [ninja] without a target *)
Definition is_stage1_ninja (a : action) : bool :=
  match a with
  | CheckCall [_] (Some cwd) _ => String.eqb cwd "/src/out/stage1"
  | _ => false
  end.

(** [--check-pgo-profile], no instrumentation *)
Definition ex_args_check : Args := {|
  verbose := 0; build_name := "dev"; use_lld := false; enable_assertions := false;
  debug := false; build_instrumented := false; skip_build := false; skip_package := false;
  no_strip := false; no_build_windows := false; check_pgo_profile := true |}.

(** A library directory as the build leaves it *)
Definition ex_dir : gmap string Dir.node :=
  list_to_map
    [("libLLVM-6.0svn.so", Dir.File);
     ("libLLVM.so", Dir.Link "libLLVM-6.0svn.so");
     ("libclang.so.6.0", Dir.File);
     ("libclang.so.6", Dir.Link "libclang.so.6.0");
     ("libclang.so", Dir.Link "libclang.so.6");
     ("libc++.so.1.0", Dir.File);
     ("libc++.so.1", Dir.Link "libc++.so.1.0");
     ("libc++.so", Dir.Link "libc++.so.1");
     ("libc++abi.so.1.0", Dir.File);
     ("libc++abi.so.1", Dir.Link "libc++abi.so.1.0");
     ("libc++abi.so", Dir.Link "libc++abi.so.1");
     ("libfoo.a", Dir.File)].

(** The host [ex_host] with a dict walked in the given order *)
Definition ex_host_walking (items : list (string * string)) : Host := {|
  android_path := android_path ex_host;
  out_path := out_path ex_host;
  llvm_path := llvm_path ex_host;
  build_os_type := build_os_type ex_host;
  host_is_linux := host_is_linux ex_host;
  host_is_darwin := host_is_darwin ex_host;
  patch_level := patch_level ex_host;
  svn_revision := svn_revision ex_host;
  ORIG_ENV := ORIG_ENV ex_host;
  iteritems := λ _, items
|}.

(** * Notions used by the properties *)

(** Looking a key up in a dict built by a run of assignments: the last
    assignment to the key wins. *)
Fixpoint assigned {V} (kvs : list (string * V)) (k : string) : option V :=
  match kvs with
  | [] => None
  | (k', v) :: kvs' =>
      match assigned kvs' k with
      | Some v' => Some v'
      | None => if String.eqb k' k then Some v else None
      end
  end.

(** ** What a computation may add to the trace

    [emits E R m]: whatever the trace before, [m] only appends events,
    each of them satisfies [E], and an exception that leaves [m]
    satisfies [R]. *)

Definition emits {A} (E : event → Prop) (R : exn → Prop) (m : T A) : Prop :=
  ∀ t, ∃ s, (m t).2 = t ++ s ∧ Forall E s ∧ ∀ e, (m t).1 = Raise e → R e.


(** ** Observations on a trace *)

(** Every logging call uses one of the given message formats. *)
Definition logs_only (fmts : list string) (e : event) : Prop :=
  match e with
  | ELog _ fmt _ => fmt ∈ fmts
  | _ => True
  end.

(** The message formats of the logging calls of a trace *)
Definition log_formats (t : trace) : list string :=
  omap (λ e, match e with ELog _ fmt _ => Some fmt | _ => None end) t.

(** The notes of the builds: the logging calls other than the echo of
    [check_call] *)
Definition build_notes (t : trace) : list (string * list logarg) :=
  omap (λ e, match e with
             | ELog _ fmt args =>
                 if String.eqb fmt "check_call:%s %s" then None else Some (fmt, args)
             | _ => None
             end) t.

(** The completed copies of a trace, as [(src, dst)] *)
Definition copies (t : trace) : list (string * string) :=
  omap (λ e, match e with
             | EAct (ShutilCopy2 src dst) true => Some (src, dst)
             | _ => None
             end) t.

(** The subprocesses of a trace, as [(argv, cwd, succeeded)] *)
Definition subprocesses (t : trace) : list (list string * option string * bool) :=
  omap (λ e, match e with
             | EAct (CheckCall argv cwd _) ok => Some (argv, cwd, ok)
             | _ => None
             end) t.

(** The message formats [build_runtimes] logs with *)
Definition runtime_log_formats : list string :=
  ["check_call:%s %s"; "Building compiler-rt for %s";
   "Building libfuzzer for %s (ndk_cxx? %s)";
   "Building libomp for %s (ndk_cxx? %s)"].

(** [needle in s] *)
Fixpoint contains (s needle : string) : bool :=
  Py.startswith s needle
  || match s with
     | EmptyString => false
     | String _ s' => contains s' needle
     end.

(** What [build_libfuzzers] may copy: an archive into the directory of
    its architecture, or a header *)
Definition libfuzzer_copy (hst : Host) (stage2_install : string)
    (clang_version : Version) (ndk_cxx : bool) (e : event) : Prop :=
  match e with
  | EAct (ShutilCopy2 src dst) _ =>
      (∃ cfg, cfg ∈ cross_compile_configs hst stage2_install (negb ndk_cxx)
         ∧ (∃ build_dir,
              src = Py.path_join build_dir
                      ["lib"; "linux"; libfuzzer_static_lib_filename (cfg_arch cfg)])
         ∧ dst = Py.path_join
                   (runtime_lib_dir stage2_install clang_version ndk_cxx
                                    (cfg_llvm_triple cfg))
                   ["libFuzzer.a"])
      ∨ dst = Py.path_join stage2_install
                ["prebuilt_include"; "llvm"; "lib"; "Fuzzer"]
  | _ => True
  end.

(** What [build_libomp] may copy *)
Definition libomp_copy (hst : Host) (stage2_install : string)
    (clang_version : Version) (ndk_cxx : bool) (e : event) : Prop :=
  match e with
  | EAct (ShutilCopy2 src dst) _ =>
      ∃ cfg, cfg ∈ cross_compile_configs hst stage2_install (negb ndk_cxx)
        ∧ (∃ build_dir, src = Py.path_join build_dir ["src"; "libomp.a"])
        ∧ dst = Py.path_join
                  (runtime_lib_dir stage2_install clang_version ndk_cxx
                                   (cfg_llvm_triple cfg))
                  ["libomp.a"]
  | _ => True
  end.

(** ** Failures, stages and triples *)

(** [fail_stop m]: [m] only appends events, and an action that fails is
    the last thing [m] does: its exception leaves [m]. *)
Definition fail_stop {A} (m : T A) : Prop :=
  ∀ t, ∃ s, (m t).2 = t ++ s
    ∧ ∀ s1 a s2, s = s1 ++ EAct a false :: s2 →
        s2 = [] ∧ (m t).1 = Raise (exn_of_action a).

(** A subprocess run in the build directory of stage 2 *)
Definition is_stage2_call (hst : Host) (e : event) : Prop :=
  ∃ argv env ok, e = EAct (CheckCall argv (Some (out_path hst ["stage2"])) env) ok.

(** A subprocess run in some build directory: a step of the build engine *)
Definition is_engine_call (e : event) : Prop :=
  ∃ argv cwd env ok, e = EAct (CheckCall argv (Some cwd) env) ok.

(** Stage 1 has reported success: its configure, build and install steps
    have run in its build directory and exited with status 0. *)
Definition stage1_succeeded (hst : Host) (t : trace) : Prop :=
  ∃ defines env,
    let cwd := Some (out_path hst ["stage1"]) in
    EAct (CheckCall ([cmake_bin_path hst] ++ cmake_flags hst defines (llvm_path hst []))
                    cwd (Some env)) true ∈ t
    ∧ EAct (CheckCall [ninja_bin_path hst] cwd (Some env)) true ∈ t
    ∧ EAct (CheckCall [ninja_bin_path hst; "install"] cwd (Some env)) true ∈ t.

(** No step of stage 2 before stage 1 has reported success *)
Definition stage_order (hst : Host) (t : trace) : Prop :=
  ∀ t1 e t2, t = t1 ++ e :: t2 → is_stage2_call hst e → stage1_succeeded hst t1.

Definition hoare {A} (P : trace → Prop) (m : T A)
    (Q : outcome A → trace → Prop) : Prop :=
  ∀ t, P t → Q (m t).1 (m t).2.

(** The error of [build_stage2] *)
Definition both_modes : exn :=
  RuntimeError "Cannot simultaneously instrument and use profiles".

Definition not_stage2 (hst : Host) (e : event) : Prop := ¬ is_stage2_call hst e.

Definition not_both_modes (x : exn) : Prop := x ≠ both_modes.

(** ** Normalization on the model of the library directory *)

Definition normalize_lib_dir (libdir : string) (version : Version)
    (item : string * string) : Dir.D unit :=
  normalize_lib (H0 := Dir.D_fs libdir) libdir version item.

Definition normalize_dir (hst : Host) (install_dir host : string)
    (version : Version) : Dir.D unit :=
  normalize_llvm_host_libs (H0 := Dir.D_fs (Py.path_join install_dir ["lib64"]))
                           hst install_dir host version.

(** The clean-up loop of [normalize_lib] *)
Definition cleanup (libdir soname_lib : string) (all_libs : list string) : Dir.D unit :=
  for_each all_libs (λ lib,
    let lib := Py.path_join libdir [lib] in
    when (negb (String.eqb lib soname_lib)) (remove (H0 := Dir.D_fs libdir) lib)).

(** The rows of the two tables of [normalize_llvm_host_libs] *)
Definition lib_rows : list (string * string) :=
  [("libLLVM", "libLLVM-{version}svn.so");
   ("libclang", "libclang.so.{version}");
   ("libc++", "libc++.so.{version}");
   ("libc++abi", "libc++abi.so.{version}");
   ("libc++", "libc++.{version}.dylib");
   ("libc++abi", "libc++abi.{version}.dylib")].

(** The names [normalize_lib] computes for a row of the table: the
    versioned file and the entry that is kept *)
Definition real_name (version : Version) (item : string * string) : string :=
  Py.format item.2 (getVersions version item.1).1.

Definition soname_name (version : Version) (item : string * string) : string :=
  if String.eqb item.1 "libLLVM" then real_name version item
  else Py.format item.2 (getVersions version item.1).2.

(** What the normalization leaves of a library: no entry of the
    directory has the stem of the library but the one kept, which is there
    unless the library is libLLVM *)
Definition normalized (version : Version) (item : string * string)
    (d : gmap string Dir.node) : Prop :=
  (∀ n, n ∈ Dir.listing d → same_stem item.1 n = true → n = soname_name version item)
  ∧ (item.1 ≠ "libLLVM" → is_Some (d !! soname_name version item)).

(** The versioned file of the library that a walk of the table checks
    last (under the version of the examples) *)
Definition last_checked (items : list (string * string)) : string :=
  match List.filter (λ item, negb (String.eqb item.1 "libLLVM")) (rev items) with
  | item :: _ => real_name ex_version item
  | [] => ""
  end.

(** A run that ends with an error and has changed the directory *)
Definition stopped_halfway (r : outcome unit * gmap string Dir.node)
    (d : gmap string Dir.node) : bool :=
  match r.1 with
  | Raise (RuntimeError _) => negb (bool_decide (r.2 = d))
  | _ => false
  end.

(** The run on the directory of the examples without the versioned file
    of the library checked last stops halfway. *)
Definition no_rollback (items : list (string * string)) : bool :=
  let d := delete (last_checked items) ex_dir in
  stopped_halfway
    (normalize_dir (ex_host_walking items) "/i" "linux-x86" ex_version d) d.

(** * Further notions: the rest of the script *)

(** ** The logging level of [main]

    [log_levels], [verbosity] and [log_level] of [main]; a list index out
    of range raises [IndexError], here [None]. *)

Definition log_levels : list level := [INFO; DEBUG].

Definition verbosity (args : Args) : nat :=
  Nat.min (verbose args) (length log_levels - 1).

Definition log_level (args : Args) : option level := log_levels !! verbosity args.

(** ** More observations on a trace *)

(** The subprocesses of a trace, each with how it ended *)
Definition calls (t : trace) : list (action * bool) :=
  omap (λ e, match e with
             | EAct (CheckCall argv cwd env) ok => Some (CheckCall argv cwd env, ok)
             | _ => None
             end) t.

(** The files a trace has removed with [os.remove], in order *)
Definition removed (t : trace) : list string :=
  omap (λ e, match e with EAct (OsRemove p) true => Some p | _ => None end) t.

(** The files a trace has written, and the texts it has read *)
Definition writes (t : trace) : list (string * string * bool) :=
  omap (λ e, match e with EAct (WriteFile p c) ok => Some (p, c, ok) | _ => None end) t.

Definition texts_read (t : trace) : list string :=
  omap (λ e, match e with EReadFile _ (Some text) => Some text | _ => None end) t.

(** An event that is not a copy *)
Definition no_copy (e : event) : Prop :=
  match e with EAct (ShutilCopy2 _ _) _ => False | _ => True end.

(** ** Each event after the one before it *)

(** [each_after G t]: every event of [t] is allowed by [G] after the
    event just before it. *)
Definition each_after (G : option event → event → Prop) (t : trace) : Prop :=
  ∀ t1 e t2, t = t1 ++ e :: t2 → G (last t1) e.

Fixpoint chained (G : option event → event → Prop) (prev : option event)
    (s : trace) : Prop :=
  match s with
  | [] => True
  | e :: s' => G prev e ∧ chained G (Some e) s'
  end.

(** [follows G m]: what [m] appends is chained, whatever came before, *)
Definition follows {A} (G : option event → event → Prop) (m : T A) : Prop :=
  ∀ t, ∃ s, (m t).2 = t ++ s ∧ ∀ prev, chained G prev s.

(** ... and [follows_after G e m]: when it comes right after the event
    [e]. *)
Definition follows_after {A} (G : option event → event → Prop) (e : event)
    (m : T A) : Prop :=
  ∀ t, ∃ s, (m t).2 = t ++ s ∧ chained G (Some e) s.

(** A step that creates or destroys comes right after the test that
    allows it; [utils.rm_tree] also takes the [CMakeFiles] directories of
    a walk. *)
Definition tested_first (prev : option event) (e : event) : Prop :=
  match e with
  | EAct (Makedirs p) _ => prev = Some (EAsk (Exists p) false)
  | EAct (ShutilRmtree p) _ => prev = Some (EAsk (Exists p) true)
  | EAct (UtilsRmTree p) _ =>
      prev = Some (EAsk (Exists p) true)
      ∨ ∃ dirpath, p = Py.path_join dirpath ["CMakeFiles"]
  | EAct (ShutilMove _ dst) _ =>
      prev = Some (EAsk (Exists dst) false) ∨ prev = Some (EAsk (IsLink dst) true)
  | _ => True
  end.

(** A subprocess comes right after the echo of its command line. *)
Definition echoed_first (prev : option event) (e : event) : Prop :=
  match e with
  | EAct (CheckCall argv _ _) _ =>
      ∃ time, prev = Some (ELog INFO "check_call:%s %s" [LStr time; LCmd argv])
  | _ => True
  end.

(** ** What the parts of the script may do *)

(** What [rm_cmake_cache] may remove, given the triples of the walk *)
Definition cache_removal (triples : list (string * list string * list string))
    (e : event) : Prop :=
  match e with
  | EAct (OsRemove p) _ =>
      ∃ dirpath dirs files, (dirpath, dirs, files) ∈ triples
        ∧ "CMakeCache.txt" ∈ files ∧ p = Py.path_join dirpath ["CMakeCache.txt"]
  | EAct (UtilsRmTree p) _ =>
      ∃ dirpath dirs files, (dirpath, dirs, files) ∈ triples
        ∧ "CMakeFiles" ∈ dirs ∧ p = Py.path_join dirpath ["CMakeFiles"]
  | _ => False
  end.

(** What [remove_static_libraries] does after the listing: it announces
    and removes archives of the listing. *)
Definition static_lib_event (static_lib_dir : string) (lib_files : list string)
    (e : event) : Prop :=
  match e with
  | ELog _ _ [LStr p] | EAct (OsRemove p) _ =>
      ∃ lib_file, lib_file ∈ lib_files ∧ Py.endswith lib_file ".a" = true
        ∧ p = Py.path_join static_lib_dir [lib_file]
  | _ => False
  end.

(** The paths an action creates, changes or deletes (a subprocess aside) *)
Definition touched (a : action) : list string :=
  match a with
  | CheckCall _ _ _ => []
  | Makedirs p | OsRemove p | UtilsRmTree p | UtilsRemove p | ShutilRmtree p
  | Touch p | WriteFile p _ => [p]
  | OsSymlink _ link => [link]
  | ShutilCopy2 _ dst | ShutilCopytree _ dst => [dst]
  | ShutilMove src dst => [src; dst]
  | CreateMapFile _ map_file => [map_file]
  end.

(** [path] is made by joining names onto [dir]. *)
Definition joined_onto (dir path : string) : Prop :=
  ∃ names, path = Py.path_join dir names.

(** An event of the packaging: an action touches only paths joined onto
    the install directory of the host; a subprocess is [strip] on such a
    path, or [tar] on that directory. *)
Definition inside_install (install_host_dir : string) (e : event) : Prop :=
  match e with
  | EAct (CheckCall argv cwd env) _ =>
      cwd = None ∧ env = None
      ∧ ((∃ binary, argv = ["strip"; binary] ∧ joined_onto install_host_dir binary)
         ∨ ∃ package_path package_name,
             argv = ["tar"; "-cjC"; install_host_dir; "-f"; package_path; package_name])
  | EAct a _ => Forall (joined_onto install_host_dir) (touched a)
  | _ => True
  end.

(** ** The options of [main] *)

(** The arguments with [--build-instrumented] set or not *)
Definition set_build_instrumented (b : bool) (args : Args) : Args := {|
  verbose := verbose args; build_name := build_name args; use_lld := use_lld args;
  enable_assertions := enable_assertions args; debug := debug args;
  build_instrumented := b; skip_build := skip_build args;
  skip_package := skip_package args; no_strip := no_strip args;
  no_build_windows := no_build_windows args;
  check_pgo_profile := check_pgo_profile args |}.

(** All a run does on a host that is not Linux: subprocesses in the
    build directories of the two stages, the copy of the stage-2 install
    tree, the two files of the packaging and its logging *)
Definition two_stage_only (hst : Host) (e : event) : Prop :=
  match e with
  | EAct (CheckCall _ (Some cwd) _) _ =>
      cwd ∈ [out_path hst ["stage1"]; out_path hst ["stage2"]]
  | EAct (ShutilCopytree src _) _ => src = out_path hst ["stage2-install"]
  | EAct (WriteFile path _) _ =>
      ∃ install_dir name, name ∈ ["NOTICE"; "AndroidVersion.txt"]
        ∧ path = Py.path_join install_dir [name]
  | ELog _ fmt _ => fmt ∈ ["check_call:%s %s"; "copy %s %s"; "remove %s"; "Packaging %s"]
  | _ => True
  end.

(** An event only the packaging has *)
Definition is_packaging (e : event) : Prop :=
  match e with
  | EAct (ShutilCopytree _ _) _ | EAct (ShutilRmtree _) _ | EAct (OsSymlink _ _) _
  | EAct (CheckCall _ None _) _ | EGlob _ _ => True
  | ELog _ fmt _ => fmt ∈ ["copy %s %s"; "remove %s"; "Packaging %s"]
  | _ => False
  end.

(** The hosts a run of [main] may package for *)
Definition package_hosts (hst : Host) : list string :=
  [build_os_type hst; "windows-i386"; "windows-x86"].

(** The [dist_dir] of [main] *)
Definition dist_dir (hst : Host) : string :=
  default (out_path hst []) (ORIG_ENV hst !! "DIST_DIR").

(** A [tar] subprocess of [main] packs the install directory of a host
    into the archive of that host. *)
Definition archive_of (hst : Host) (args : Args) (e : event) : Prop :=
  ∀ argv ok, e = EAct (CheckCall ("tar" :: argv) None None) ok →
    ∃ host, host ∈ package_hosts hst
      ∧ argv = ["-cjC"; out_path hst ["install"; host]; "-f";
                Py.path_join (dist_dir hst)
                  ["clang-" +:+ build_name args +:+ "-" +:+ host] +:+ ".tar.bz2";
                "clang-" +:+ build_name args].

(** A [strip] subprocess of [main] is allowed by the options, and is on
    a binary of a package that is not a script. *)
Definition strip_of (hst : Host) (args : Args) (e : event) : Prop :=
  ∀ binary ok, e = EAct (CheckCall ["strip"; binary] None None) ok →
    no_strip args = false
    ∧ ∃ host name,
        host ∈ package_hosts hst
        ∧ (name ∉ ["git-clang-format"; "scan-build"; "scan-view"])
        ∧ binary = Py.path_join
                     (Py.path_join
                        (Py.path_join (out_path hst ["install"; host])
                                      ["clang-" +:+ build_name args]) ["bin"])
                     [name]
        ∧ (debug args = true → host ∈ ["windows-i386"; "windows-x86"]).

(** ** The two stages, and what comes after them *)

(** The build engine has configured, built and installed in [dir], each
    step with exit status 0. *)
Definition built_in (hst : Host) (dir : string) (t : trace) : Prop :=
  ∃ flags env,
    EAct (CheckCall ([cmake_bin_path hst] ++ flags) (Some dir) env) true ∈ t
    ∧ EAct (CheckCall [ninja_bin_path hst] (Some dir) env) true ∈ t
    ∧ EAct (CheckCall [ninja_bin_path hst; "install"] (Some dir) env) true ∈ t.

(** What [main] does only once the two stages are built: the notes of
    the runtime builds and of the packaging, every file it writes or
    copies, the copy of an install tree and the subprocesses of the
    packaging *)
Definition after_stages (e : event) : Prop :=
  match e with
  | ELog _ fmt _ => fmt ≠ "check_call:%s %s"
  | EAct (WriteFile _ _) _ | EAct (ShutilCopytree _ _) _
  | EAct (ShutilCopy2 _ _) _ | EAct (CheckCall _ None _) _ => True
  | _ => False
  end.

(** ** More of the concrete world *)

(** A host that is not Linux *)
Definition ex_host_darwin : Host := {|
  android_path := android_path ex_host;
  out_path := out_path ex_host;
  llvm_path := llvm_path ex_host;
  build_os_type := "darwin-x86";
  host_is_linux := false;
  host_is_darwin := true;
  patch_level := patch_level ex_host;
  svn_revision := svn_revision ex_host;
  ORIG_ENV := ORIG_ENV ex_host;
  iteritems := map_to_list
|}.

(** No option given *)
Definition ex_args_plain : Args := {|
  verbose := 0; build_name := "dev"; use_lld := false; enable_assertions := false;
  debug := false; build_instrumented := false; skip_build := false;
  skip_package := false; no_strip := false; no_build_windows := false;
  check_pgo_profile := false |}.

(** [--skip-package] *)
Definition ex_args_skip_package : Args := {|
  verbose := 0; build_name := "dev"; use_lld := false; enable_assertions := false;
  debug := false; build_instrumented := false; skip_build := false;
  skip_package := true; no_strip := false; no_build_windows := false;
  check_pgo_profile := false |}.

(** A world in which every action succeeds, no path exists yet and every
    directory lists the given names *)
Definition ex_oracle_listing (names : list string) : Oracle := {|
  o_act := λ _ _, true;
  o_ask := λ _ q, match q with Exists _ => false | _ => true end;
  o_listdir := λ _ _, Some names;
  o_glob := λ _ _, [];
  o_walk := λ _ _, [];
  o_version := λ _ _, Some ex_version;
  o_read := λ _ _, Some "";
  o_now := λ _, "12:00:00"
|}.

(** * Reasoning about traces *)

Lemma append_String c s1 s2 : String c s1 +:+ s2 = String c (s1 +:+ s2).
Proof. reflexivity. Qed.

Lemma append_empty s : "" +:+ s = s.
Proof. reflexivity. Qed.


Section EmitsRules.
Context (orc : Oracle) (E : event → Prop) (R : exn → Prop).

Lemma emits_ret {A} (a : A) : emits E R (ret a).
Proof. intros t. exists []. rewrite app_nil_r. by split_and!. Qed.

Lemma emits_raise {A} (e : exn) : R e → emits E R (raise (A:=A) e).
Proof.
  intros He t. exists []. rewrite app_nil_r. split_and!; [done..|].
  intros e' [= <-]. exact He.
Qed.

Lemma emits_bind {A B} (m : T A) (k : A → T B) :
  emits E R m → (∀ a, emits E R (k a)) → emits E R (bind m k).
Proof.
  intros Hm Hk t. destruct (Hm t) as (s1 & Ht & Hs1 & Hr1).
  cbn. unfold T_bind. destruct (m t) as [[a|e] t1] eqn:Hmt; cbn in *; subst t1.
  - destruct (Hk a (t ++ s1)) as (s2 & Ht2 & Hs2 & Hr2).
    exists (s1 ++ s2). rewrite Ht2, app_assoc. split_and!; [done| |done].
    by apply Forall_app.
  - exists s1. cbn. split_and!; [done..|]. intros e' [= <-]. by apply Hr1.
Qed.

Lemma emits_act (a : action) :
  (∀ ok, E (EAct a ok)) → R (exn_of_action a) → emits E R (act orc a).
Proof.
  intros HE HR t. exists [EAct a (o_act orc t a)]. unfold act. cbn.
  split_and!; [done|by constructor|]. destruct (o_act orc t a); [done|].
  intros e [= <-]. exact HR.
Qed.

Lemma emits_ask (q : query) : (∀ b, E (EAsk q b)) → emits E R (ask orc q).
Proof.
  intros HE t. exists [EAsk q (o_ask orc t q)]. unfold ask. cbn.
  split_and!; [done|by constructor|done].
Qed.

Lemma emits_listdir (p : string) :
  (∀ r, E (EListdir p r)) → R (ReadError p) → emits E R (listdir orc p).
Proof.
  intros HE HR t. exists [EListdir p (o_listdir orc t p)]. unfold listdir. cbn.
  split_and!; [done|by constructor|]. destruct (o_listdir orc t p); [done|].
  intros e [= <-]. exact HR.
Qed.

Lemma emits_glob (p : string) : (∀ r, E (EGlob p r)) → emits E R (glob orc p).
Proof.
  intros HE t. exists [EGlob p (o_glob orc t p)]. unfold glob. cbn.
  split_and!; [done|by constructor|done].
Qed.

Lemma emits_walk (p : string) : (∀ r, E (EWalk p r)) → emits E R (walk orc p).
Proof.
  intros HE t. exists [EWalk p (o_walk orc t p)]. unfold walk. cbn.
  split_and!; [done|by constructor|done].
Qed.

Lemma emits_read_version (p : string) :
  (∀ r, E (EVersion p r)) → R (ReadError p) → emits E R (read_version orc p).
Proof.
  intros HE HR t. exists [EVersion p (o_version orc t p)]. unfold read_version. cbn.
  split_and!; [done|by constructor|]. destruct (o_version orc t p); [done|].
  intros e [= <-]. exact HR.
Qed.

Lemma emits_read_file (p : string) :
  (∀ r, E (EReadFile p r)) → R (ReadError p) → emits E R (read_file orc p).
Proof.
  intros HE HR t. exists [EReadFile p (o_read orc t p)]. unfold read_file. cbn.
  split_and!; [done|by constructor|]. destruct (o_read orc t p); [done|].
  intros e [= <-]. exact HR.
Qed.

Lemma emits_now : (∀ r, E (ENow r)) → emits E R (now orc).
Proof.
  intros HE t. exists [ENow (o_now orc t)]. unfold now. cbn.
  split_and!; [done|by constructor|done].
Qed.

Lemma emits_log lvl fmt args : E (ELog lvl fmt args) → emits E R (log lvl fmt args).
Proof.
  intros HE t. exists [ELog lvl fmt args]. unfold log. cbn.
  split_and!; [done|by constructor|done].
Qed.

Lemma emits_when (c : bool) (body : T unit) :
  (c = true → emits E R body) → emits E R (when c body).
Proof. destruct c; cbn; [auto|intros _; apply emits_ret]. Qed.

Lemma emits_for_each {A} (l : list A) (body : A → T unit) :
  (∀ x, x ∈ l → emits E R (body x)) → emits E R (for_each l body).
Proof.
  induction l as [|x l IH]; intros Hb; cbn [for_each]; [apply emits_ret|].
  apply emits_bind; [apply Hb; left|intros _].
  apply IH. intros y Hy. apply Hb. by right.
Qed.

Lemma emits_collect {A B} (l : list A) (body : A → T (list B)) :
  (∀ x, x ∈ l → emits E R (body x)) → emits E R (collect l body).
Proof.
  induction l as [|x l IH]; intros Hb; cbn [collect]; [apply emits_ret|].
  apply emits_bind; [apply Hb; left|intros r].
  apply emits_bind; [|intros rs; apply emits_ret].
  apply IH. intros y Hy. apply Hb. by right.
Qed.

End EmitsRules.

Lemma emits_mono {A} (E E' : event → Prop) (R R' : exn → Prop) (m : T A) :
  (∀ e, E e → E' e) → (∀ x, R x → R' x) → emits E R m → emits E' R' m.
Proof.
  intros HE HR Hm t. destruct (Hm t) as (s & Ht & Hs & Hr).
  exists s. split_and!; [done| |by auto].
  eapply Forall_impl; eauto.
Qed.

(** ** Walking a program *)

Ltac in_list := solve [repeat first [apply list_elem_of_here | apply list_elem_of_further]].

(** One step of the syntax-directed proof of [emits E R m]; [unf] unfolds
    the program's own functions. *)
Ltac emits_step unf :=
  cbv beta zeta;
  lazymatch goal with
  | |- emits _ _ (bind _ _) => apply emits_bind; [|intros ?]
  | |- emits _ _ (ret _) => apply emits_ret
  | |- emits _ _ (raise _) => apply emits_raise
  | |- emits _ _ (when _ _) =>
      apply emits_when;
      let Hc := fresh "Hc" in
      intros Hc; cbn [negb andb orb] in Hc; try discriminate Hc
  | |- emits _ _ (for_each _ _) => apply emits_for_each; intros ? ?
  | |- emits _ _ (collect _ _) => apply emits_collect; intros ? ?
  | |- emits _ _ (act _ _) => apply emits_act; [intros ?|]
  | |- emits _ _ (ask _ _) => apply emits_ask; intros ?
  | |- emits _ _ (listdir _ _) => apply emits_listdir; [intros ?|]
  | |- emits _ _ (glob _ _) => apply emits_glob; intros ?
  | |- emits _ _ (walk _ _) => apply emits_walk; intros ?
  | |- emits _ _ (read_version _ _) => apply emits_read_version; [intros ?|]
  | |- emits _ _ (read_file _ _) => apply emits_read_file; [intros ?|]
  | |- emits _ _ (now _) => apply emits_now; intros ?
  | |- emits _ _ (log _ _ _) => apply emits_log
  | |- emits _ _ (os_path_isfile _) => apply emits_ask; intros ?
  | |- emits _ _ (os_path_islink _) => apply emits_ask; intros ?
  | |- emits _ _ (os_listdir _) => apply emits_listdir; [intros ?|]
  | |- emits _ _ (os_remove _) => apply emits_act; [intros ?|]
  | |- emits _ _ (shutil_move _ _) => apply emits_act; [intros ?|]
  | |- emits _ _ (logger_debug _ _) => apply emits_log
  | |- emits _ _ (match ?x with _ => _ end) => destruct x
  | |- emits _ _ _ => progress unf
  end.

Ltac unfold_build :=
  unfold main, main_stage2, package_toolchain, remove_static_libraries,
    install_winpthreads, install_license_files, install_wrappers,
    build_runtimes, build_stage2, build_stage1, build_llvm_for_windows,
    build_llvm, build_crts_host_i686, build_libomp, build_libfuzzers,
    build_crts, build_libcxx, build_asan_map_files, build_asan_test,
    invoke_cmake, rm_cmake_cache, check_create_path, pgo_profdata_file,
    extract_clang_long_version, extract_clang_version, install_file,
    check_call, normalize_llvm_host_libs, normalize_lib, remove.

Ltac emits_walk_with leaf :=
  repeat (emits_step unfold_build);
  try (match goal with |- emits _ _ _ => fail 1 | |- _ => idtac end; leaf).


Lemma emits_appends {A} (E : event → Prop) (R : exn → Prop) (m : T A) t :
  emits E R m → ∃ s, (m t).2 = t ++ s ∧ Forall E s.
Proof. intros Hm. destruct (Hm t) as (s & ? & ? & _). eauto. Qed.

(** An event of the first part of a sequence stays in the trace. *)
Lemma trace_bind_elem {A B} (m : T A) (k : A → T B) (e : event) t :
  e ∈ (m t).2 → (∀ a, emits (λ _, True) (λ _, True) (k a)) → e ∈ (bind m k t).2.
Proof.
  intros He Hk. cbn. unfold T_bind. destruct (m t) as [[a|x] t1]; [|done].
  destruct (emits_appends _ _ (k a) t1 (Hk a)) as (s & -> & _).
  apply elem_of_app. by left.
Qed.

Lemma trace_bind_log {B} lvl fmt args (k : unit → T B) t :
  emits (λ _, True) (λ _, True) (k tt) →
  ELog lvl fmt args ∈ (bind (log lvl fmt args) k t).2.
Proof.
  intros Hk. cbn. unfold T_bind, log.
  destruct (emits_appends _ _ (k tt) (t ++ [ELog lvl fmt args]) Hk) as (s & -> & _).
  rewrite !elem_of_app, list_elem_of_singleton. auto.
Qed.

(** ** Fail-stop *)

Section FailStopRules.
Context (orc : Oracle).

Lemma fail_stop_ret {A} (a : A) : fail_stop (ret a).
Proof.
  intros t. exists []. rewrite app_nil_r. split; [done|].
  intros [|] ? ? [=].
Qed.

Lemma fail_stop_raise {A} (e : exn) : fail_stop (raise (A:=A) e).
Proof.
  intros t. exists []. rewrite app_nil_r. split; [done|].
  intros [|] ? ? [=].
Qed.

Lemma fail_stop_bind {A B} (m : T A) (k : A → T B) :
  fail_stop m → (∀ a, fail_stop (k a)) → fail_stop (bind m k).
Proof.
  intros Hm Hk t. destruct (Hm t) as (s1 & Ht1 & Hf1).
  cbn. unfold T_bind. destruct (m t) as [[a|e] t1] eqn:Hmt; cbn in *; subst t1.
  - destruct (Hk a (t ++ s1)) as (s2 & Ht2 & Hf2).
    exists (s1 ++ s2). rewrite Ht2, app_assoc. split; [done|].
    intros u1 x u2 Hs. apply app_eq_app in Hs as [l [[Hs1 Hl]|[Hu1 Hs2]]].
    + destruct l as [|y l]; cbn in Hl.
      * apply (Hf2 [] x u2). by symmetry.
      * injection Hl as <- ->. by destruct (Hf1 u1 x l Hs1) as [_ [=]].
    + apply (Hf2 l x u2 Hs2).
  - exists s1. split; [done|]. intros u1 x u2 Hs.
    destruct (Hf1 u1 x u2 Hs) as [-> [= ->]]. done.
Qed.

Lemma fail_stop_act (a : action) : fail_stop (act orc a).
Proof.
  intros t. exists [EAct a (o_act orc t a)]. split; [done|].
  intros s1 a' s2 Hs. symmetry in Hs. apply elt_eq_unit in Hs as ([= -> Hok] & -> & ->).
  split; [done|]. unfold act. cbn. by rewrite <- Hok.
Qed.

Lemma fail_stop_ask (q : query) : fail_stop (ask orc q).
Proof.
  intros t; exists [EAsk q (o_ask orc t q)]; split; [done|].
  intros s1 a s2 Hs; symmetry in Hs; by apply elt_eq_unit in Hs as ([=] & _).
Qed.

Lemma fail_stop_listdir (p : string) : fail_stop (listdir orc p).
Proof.
  intros t; exists [EListdir p (o_listdir orc t p)]; split; [done|].
  intros s1 a s2 Hs; symmetry in Hs; by apply elt_eq_unit in Hs as ([=] & _).
Qed.

Lemma fail_stop_glob (p : string) : fail_stop (glob orc p).
Proof.
  intros t; exists [EGlob p (o_glob orc t p)]; split; [done|].
  intros s1 a s2 Hs; symmetry in Hs; by apply elt_eq_unit in Hs as ([=] & _).
Qed.

Lemma fail_stop_walk (p : string) : fail_stop (walk orc p).
Proof.
  intros t; exists [EWalk p (o_walk orc t p)]; split; [done|].
  intros s1 a s2 Hs; symmetry in Hs; by apply elt_eq_unit in Hs as ([=] & _).
Qed.

Lemma fail_stop_read_version (p : string) : fail_stop (read_version orc p).
Proof.
  intros t; exists [EVersion p (o_version orc t p)]; split; [done|].
  intros s1 a s2 Hs; symmetry in Hs; by apply elt_eq_unit in Hs as ([=] & _).
Qed.

Lemma fail_stop_read_file (p : string) : fail_stop (read_file orc p).
Proof.
  intros t; exists [EReadFile p (o_read orc t p)]; split; [done|].
  intros s1 a s2 Hs; symmetry in Hs; by apply elt_eq_unit in Hs as ([=] & _).
Qed.

Lemma fail_stop_now : fail_stop (now orc).
Proof.
  intros t; exists [ENow (o_now orc t)]; split; [done|].
  intros s1 a s2 Hs; symmetry in Hs; by apply elt_eq_unit in Hs as ([=] & _).
Qed.

Lemma fail_stop_log lvl fmt args : fail_stop (log lvl fmt args).
Proof.
  intros t; exists [ELog lvl fmt args]; split; [done|].
  intros s1 a s2 Hs; symmetry in Hs; by apply elt_eq_unit in Hs as ([=] & _).
Qed.

Lemma fail_stop_when (c : bool) (body : T unit) :
  fail_stop body → fail_stop (when c body).
Proof. destruct c; cbn; [auto|intros _; apply fail_stop_ret]. Qed.

Lemma fail_stop_for_each {A} (l : list A) (body : A → T unit) :
  (∀ x, fail_stop (body x)) → fail_stop (for_each l body).
Proof.
  intros Hb. induction l as [|x l IH]; cbn [for_each]; [apply fail_stop_ret|].
  apply fail_stop_bind; [apply Hb|intros _; apply IH].
Qed.

Lemma fail_stop_collect {A B} (l : list A) (body : A → T (list B)) :
  (∀ x, fail_stop (body x)) → fail_stop (collect l body).
Proof.
  intros Hb. induction l as [|x l IH]; cbn [collect]; [apply fail_stop_ret|].
  apply fail_stop_bind; [apply Hb|intros r].
  apply fail_stop_bind; [apply IH|intros rs; apply fail_stop_ret].
Qed.

End FailStopRules.

Ltac fail_stop_step unf :=
  cbv beta zeta;
  lazymatch goal with
  | |- fail_stop (bind _ _) => apply fail_stop_bind; [|intros ?]
  | |- fail_stop (ret _) => apply fail_stop_ret
  | |- fail_stop (raise _) => apply fail_stop_raise
  | |- fail_stop (when _ _) => apply fail_stop_when
  | |- fail_stop (for_each _ _) => apply fail_stop_for_each; intros ?
  | |- fail_stop (collect _ _) => apply fail_stop_collect; intros ?
  | |- fail_stop (act _ _) => apply fail_stop_act
  | |- fail_stop (ask _ _) => apply fail_stop_ask
  | |- fail_stop (listdir _ _) => apply fail_stop_listdir
  | |- fail_stop (glob _ _) => apply fail_stop_glob
  | |- fail_stop (walk _ _) => apply fail_stop_walk
  | |- fail_stop (read_version _ _) => apply fail_stop_read_version
  | |- fail_stop (read_file _ _) => apply fail_stop_read_file
  | |- fail_stop (now _) => apply fail_stop_now
  | |- fail_stop (log _ _ _) => apply fail_stop_log
  | |- fail_stop (os_path_isfile _) => apply fail_stop_ask
  | |- fail_stop (os_path_islink _) => apply fail_stop_ask
  | |- fail_stop (os_listdir _) => apply fail_stop_listdir
  | |- fail_stop (os_remove _) => apply fail_stop_act
  | |- fail_stop (shutil_move _ _) => apply fail_stop_act
  | |- fail_stop (logger_debug _ _) => apply fail_stop_log
  | |- fail_stop (match ?x with _ => _ end) => destruct x
  | |- fail_stop _ => progress unf
  end.


(** ** Triples *)

Section HoareRules.

Lemma hoare_bind {A B} (P : trace → Prop) (m : T A) (Q1 : outcome A → trace → Prop)
    (k : A → T B) (Q : outcome B → trace → Prop) :
  hoare P m Q1 →
  (∀ a, hoare (Q1 (Ok a)) (k a) Q) →
  (∀ e t, Q1 (Raise e) t → Q (Raise e) t) →
  hoare P (bind m k) Q.
Proof.
  intros Hm Hk Hr t Ht. specialize (Hm t Ht).
  cbn. unfold T_bind. destruct (m t) as [[a|e] t1]; cbn in *.
  - by apply Hk.
  - by apply Hr.
Qed.

Lemma hoare_conseq {A} (P P' : trace → Prop) (m : T A)
    (Q Q' : outcome A → trace → Prop) :
  hoare P m Q → (∀ t, P' t → P t) → (∀ r t, Q r t → Q' r t) → hoare P' m Q'.
Proof. intros Hm HP HQ t Ht. apply HQ, Hm, HP, Ht. Qed.

Lemma hoare_emits {A} (E : event → Prop) (R : exn → Prop) (m : T A) :
  emits E R m →
  hoare (Forall E) m (λ r t, Forall E t ∧ ∀ e, r = Raise e → R e).
Proof.
  intros Hm t Ht. destruct (Hm t) as (s & -> & Hs & Hr).
  split; [by apply Forall_app|done].
Qed.

Lemma hoare_frame {A} (P : trace → Prop) (R : exn → Prop) (m : T A) :
  emits (λ _, True) R m → (∀ t s, P t → P (t ++ s)) →
  hoare P m (λ r t, P t ∧ ∀ e, r = Raise e → R e).
Proof.
  intros Hm HP t Ht. destruct (Hm t) as (s & -> & _ & Hr). split; [by apply HP|done].
Qed.

(** Sequencing after a part of which only the events matter *)
Lemma hoare_bind_emits {A B} (E : event → Prop) (R : exn → Prop) (m : T A)
    (k : A → T B) (Q : outcome B → trace → Prop) :
  emits E R m →
  (∀ a, hoare (Forall E) (k a) Q) →
  (∀ e t, Forall E t → R e → Q (Raise e) t) →
  hoare (Forall E) (bind m k) Q.
Proof.
  intros Hm Hk Hr. eapply hoare_bind; [by apply hoare_emits| |].
  - intros a t [Ht _]. by apply Hk.
  - intros e t [Ht He]. apply Hr; [done|]. by apply He.
Qed.

End HoareRules.

(** ** Stage order *)

Lemma bind_Ok_inv {A B} (m : T A) (k : A → T B) t b t' :
  bind m k t = (Ok b, t') → ∃ a t1, m t = (Ok a, t1) ∧ k a t1 = (Ok b, t').
Proof.
  cbn. unfold T_bind. destruct (m t) as [[a|e] t1]; [eauto|discriminate].
Qed.

Section StageOrder.
Context (hst : Host).

Lemma stage1_succeeded_app t s :
  stage1_succeeded hst t → stage1_succeeded hst (t ++ s).
Proof.
  intros (defines & env & H1 & H2 & H3). exists defines, env.
  cbv zeta. rewrite !elem_of_app. auto.
Qed.

Lemma stage_order_no_stage2 t :
  Forall (λ e, ¬ is_stage2_call hst e) t → stage_order hst t.
Proof.
  intros Hall t1 e t2 -> He. apply Forall_app in Hall as [_ Hall].
  apply Forall_cons in Hall as [Hne _]. by destruct Hne.
Qed.

Lemma stage_order_app t s :
  stage_order hst t → stage1_succeeded hst t → stage_order hst (t ++ s).
Proof.
  intros Hord Hsucc t1 e t2 Heq He.
  apply app_eq_app in Heq as [l [[-> Hl]|[-> Hl]]].
  - destruct l as [|y l]; cbn in Hl.
    + by rewrite app_nil_r in Hsucc.
    + injection Hl as <- ->. eapply Hord; [reflexivity|done].
  - by apply stage1_succeeded_app.
Qed.

End StageOrder.
Lemma regular_file_not_both s :
  RuntimeError (s +:+ " must be a regular file") ≠ both_modes.
Proof.
  unfold both_modes. intros [= Heq].
  do 50 (destruct s as [|? s];
    [rewrite append_empty in Heq; discriminate Heq
    |rewrite append_String in Heq; try discriminate Heq; injection Heq as _ Heq]).
Qed.

Lemma symlink_not_both s :
  RuntimeError (s +:+ " must be a symlink") ≠ both_modes.
Proof.
  unfold both_modes. intros [= Heq].
  do 50 (destruct s as [|? s];
    [rewrite append_empty in Heq; discriminate Heq
    |rewrite append_String in Heq; try discriminate Heq; injection Heq as _ Heq]).
Qed.

Lemma profdata_missing_not_both s :
  RuntimeError ("Profdata file does not exist for " +:+ s) ≠ both_modes.
Proof. unfold both_modes. intros [= Heq]. Qed.

Ltac not_both_leaf :=
  lazymatch goal with
  | |- not_both_modes (RuntimeError (_ +:+ " must be a regular file")) =>
      apply regular_file_not_both
  | |- not_both_modes (RuntimeError (_ +:+ " must be a symlink")) =>
      apply symlink_not_both
  | |- not_both_modes (RuntimeError ("Profdata file does not exist for " +:+ _)) =>
      apply profdata_missing_not_both
  | |- not_both_modes _ => discriminate
  end.

Ltac not_stage2_leaf :=
  lazymatch goal with
  | |- not_stage2 _ _ =>
      let Heq := fresh in
      intros (? & ? & ? & Heq); first [discriminate Heq | injection Heq; intros; congruence]
  end.


(** * The helpers on examples *)

Example path_join_ex :
  Py.path_join "/a" ["b"; "c/"; "d"; "/e"; "f"] = "/e/f".
Proof. reflexivity. Qed.

Example basename_ex :
  Py.basename "arm/arm-linux-androideabi-4.9/arm-linux-androideabi" = "arm-linux-androideabi".
Proof. reflexivity. Qed.

Example format_ex : Py.format "libLLVM-{version}svn.so" "6.0" = "libLLVM-6.0svn.so".
Proof. reflexivity. Qed.

Example arch_from_triple_ex :
  map arch_from_triple ["i686-linux-android"; "mipsel-linux-android"; "x86_64-linux-android"]
  = ["i386"; "mipsel"; "x86_64"].
Proof. reflexivity. Qed.

Example endswith_ex :
  map (λ f, Py.endswith f ".h" || Py.endswith f ".def")
      ["FuzzerDefs.h"; "FuzzerFlags.def"; "FuzzerMain.cpp"; "h"]
  = [true; true; false; false].
Proof. reflexivity. Qed.

(** * The configuration matrix *)


Section Matrix.
Context (hst : Host).

Lemma cross_compile_configs_archs stage2_install platform :
  map cfg_arch (cross_compile_configs hst stage2_install platform)
  = ["arm"; "aarch64"; "x86_64"; "i386"; "mips"; "mips64"].
Proof. reflexivity. Qed.

Lemma cross_compile_configs_triples stage2_install platform :
  map cfg_llvm_triple (cross_compile_configs hst stage2_install platform)
  = ["arm-linux-android"; "aarch64-linux-android"; "x86_64-linux-android";
     "i686-linux-android"; "mipsel-linux-android"; "mips64el-linux-android"].
Proof. reflexivity. Qed.

Lemma ldflags_linker_defines stage2_install platform row :
  let cfg := cross_compile_config hst stage2_install platform row in
  let flags := Some (Py.join " " (ldflags_of hst platform row)) in
  cfg_defines cfg !! "CMAKE_EXE_LINKER_FLAGS" = flags
  ∧ cfg_defines cfg !! "CMAKE_SHARED_LINKER_FLAGS" = flags
  ∧ cfg_defines cfg !! "CMAKE_MODULE_LINKER_FLAGS" = flags.
Proof.
  destruct row as [[[[arch ndk_arch] toolchain_path] llvm_triple] extra_flags].
  cbn -[ldflags_of]. unfold Py.assign. cbn -[ldflags_of].
  split_and!; by simplify_map_eq.
Qed.

End Matrix.

Ltac string_discriminate Heq :=
  rewrite ?append_String, ?append_empty in Heq; discriminate Heq.

Ltac not_in_flags Hin :=
  rewrite ?elem_of_cons, elem_of_nil in Hin;
  repeat (destruct Hin as [Hin|Hin]; [string_discriminate Hin|]);
  exact Hin.

(** C6: the hash-style flag is among the linker flags of a configuration
    exactly when its architecture is neither mips nor mips64; the three
    linker-flag defines carry these flags. *)
Theorem hash_style_flag_iff (hst : Host) (stage2_install : string) (platform : bool) :
  Forall (λ row,
    let cfg := cross_compile_config hst stage2_install platform row in
    let ldflags := ldflags_of hst platform row in
    ("-Wl,--hash-style=both" ∈ ldflags
     ↔ cfg_arch cfg ≠ "mips" ∧ cfg_arch cfg ≠ "mips64")
    ∧ cfg_defines cfg !! "CMAKE_EXE_LINKER_FLAGS" = Some (Py.join " " ldflags)
    ∧ cfg_defines cfg !! "CMAKE_SHARED_LINKER_FLAGS" = Some (Py.join " " ldflags)
    ∧ cfg_defines cfg !! "CMAKE_MODULE_LINKER_FLAGS" = Some (Py.join " " ldflags))
    configs.
Proof.
  unfold configs.
  repeat apply Forall_cons_2; [..|apply Forall_nil_2];
    (split; [|apply ldflags_linker_defines]);
    unfold ldflags_of;
    cbn [String.eqb Ascii.eqb Bool.eqb negb andb orb cross_compile_config cfg_arch].
  1-4: split; [intros _; split; discriminate|];
       intros _; apply elem_of_app; right; apply list_elem_of_singleton; reflexivity.
  all: split; [|intros [Hm Hm64]; congruence].
  all: intros Hin; exfalso; not_in_flags Hin.
Qed.

(** * Stage configurations *)

Section Defines.
Context (hst : Host) (orc : Oracle).

Lemma T_bind_ret {A B} (a : A) (k : A → T B) : bind (ret a) k = k a.
Proof. reflexivity. Qed.

Lemma lookup_assign_nil {V} (d : gmap string V) k : Py.assign d [] !! k = d !! k.
Proof. reflexivity. Qed.

Lemma lookup_assign_snoc {V} (d : gmap string V) kvs k' v k :
  Py.assign d (kvs ++ [(k', v)]) !! k
  = if decide (k' = k) then Some v else Py.assign d kvs !! k.
Proof.
  unfold Py.assign. rewrite foldl_app. cbn. apply lookup_insert.
Qed.

Lemma lookup_assign {V} (d : gmap string V) kvs k :
  Py.assign d kvs !! k = match assigned kvs k with Some v => Some v | None => d !! k end.
Proof.
  revert d. induction kvs as [|[k' v] kvs IH]; intros d; [done|].
  cbn [assigned]. change (Py.assign d ((k', v) :: kvs)) with (Py.assign (<[k' := v]> d) kvs).
  rewrite IH. destruct (assigned kvs k); [done|].
  destruct (String.eqb_spec k' k) as [->|Hne].
  - apply lookup_insert_eq.
  - by apply lookup_insert_ne.
Qed.

Lemma lookup_if_insert {V} (b : bool) (d : gmap string V) k' v k :
  (if b then <[k' := v]> d else d) !! k
  = if String.eqb k' k && b then Some v else d !! k.
Proof.
  destruct b; [|by rewrite andb_false_r]. rewrite andb_true_r.
  destruct (String.eqb_spec k' k) as [->|Hne].
  - apply lookup_insert_eq.
  - by apply lookup_insert_ne.
Qed.

Lemma lookup_insert_eqb {V} (d : gmap string V) k' v k :
  <[k' := v]> d !! k = if String.eqb k' k then Some v else d !! k.
Proof. rewrite <- (andb_true_r (String.eqb k' k)). apply (lookup_if_insert true). Qed.

Lemma lookup_if_assign {V} (b : bool) (d : gmap string V) kvs k :
  (if b then Py.assign d kvs else d) !! k
  = match (if b then assigned kvs k else None) with Some v => Some v | None => d !! k end.
Proof. destruct b; [apply lookup_assign|done]. Qed.

Lemma lookup_update {V} (d e : gmap string V) k :
  Py.update d e !! k = match e !! k with Some v => Some v | None => d !! k end.
Proof.
  unfold Py.update. rewrite lookup_union. by destruct (e !! k), (d !! k).
Qed.

End Defines.

Ltac lookup_defines :=
  repeat first
    [ rewrite lookup_update
    | rewrite lookup_assign
    | rewrite lookup_if_assign
    | rewrite lookup_if_insert
    | rewrite lookup_insert_eqb
    | rewrite lookup_empty ];
  cbn [assigned String.eqb Ascii.eqb Bool.eqb andb].

Ltac case_ifs :=
  repeat match goal with
         | |- context [if ?b then _ else _] => destruct b
         end.

Section Stage2.
Context (hst : Host) (orc : Oracle).

Lemma base_cmake_defines_build_type :
  base_cmake_defines hst !! "CMAKE_BUILD_TYPE" = Some "Release".
Proof. unfold base_cmake_defines. lookup_defines. reflexivity. Qed.

(** The five keys [build_llvm] sets are not keys of the base defines. *)
Lemma llvm_cmake_defines_base targets install_dir build_name k v :
  base_cmake_defines hst !! k = Some v →
  llvm_cmake_defines hst targets install_dir build_name None !! k = Some v.
Proof.
  unfold llvm_cmake_defines. rewrite lookup_assign. intros Hk.
  destruct (assigned _ k) as [v'|] eqn:Hv'; [|done]. exfalso.
  revert Hk. unfold base_cmake_defines. rewrite lookup_assign, lookup_empty.
  cbn [assigned] in *.
  repeat match type of Hv' with
         | context [String.eqb ?a k] =>
             destruct (String.eqb_spec a k) as [<-|?]; [by cbn|]
         end.
  discriminate.
Qed.

(** C10: [build_llvm] is the build-engine invocation on the base defines
    overridden by [extra_defines]: a key of [extra_defines] maps to its
    value there, any other key keeps the value of the base defines (a
    debug build of stage 2 passes [Debug], where the base defines say
    [Release]). *)
Theorem build_llvm_extra_defines_override
    (targets build_dir install_dir build_name : string)
    (extra_defines extra_env : option (gmap string string)) (k : string) :
  let cmake_defines :=
    llvm_cmake_defines hst targets install_dir build_name extra_defines in
  (∃ env,
     build_llvm hst orc targets build_dir install_dir build_name
                extra_defines extra_env
     = invoke_cmake hst orc build_dir cmake_defines env (llvm_path hst []) None true)
  ∧ cmake_defines !! k
    = match default ∅ extra_defines !! k with
      | Some v => Some v
      | None =>
          match base_cmake_defines hst !! k with
          | Some v => Some v
          | None => llvm_cmake_defines hst targets install_dir build_name None !! k
          end
      end
  ∧ base_cmake_defines hst !! "CMAKE_BUILD_TYPE" = Some "Release"
  ∧ ∀ stage1_install stage2_install use_lld enable_assertions build_instrumented,
      ∃ stage2_defines env,
        build_stage2 hst orc stage1_install stage2_install targets build_name
                     use_lld enable_assertions true build_instrumented None
        = invoke_cmake hst orc (out_path hst ["stage2"]) stage2_defines env
                       (llvm_path hst []) None true
        ∧ stage2_defines !! "CMAKE_BUILD_TYPE" = Some "Debug".
Proof.
  intros cmake_defines. split_and!.
  - eexists. reflexivity.
  - unfold cmake_defines. destruct extra_defines as [extra|].
    + change (default ∅ (Some extra)) with extra.
      change (llvm_cmake_defines hst targets install_dir build_name (Some extra))
        with (Py.update (llvm_cmake_defines hst targets install_dir build_name None)
                        extra).
      rewrite lookup_update. destruct (extra !! k); [reflexivity|].
      destruct (base_cmake_defines hst !! k) eqn:Hb; [|reflexivity].
      by apply llvm_cmake_defines_base.
    + change (default ∅ None) with (∅ : gmap string string).
      rewrite lookup_empty.
      destruct (base_cmake_defines hst !! k) eqn:Hb; [|reflexivity].
      by apply llvm_cmake_defines_base.
  - apply base_cmake_defines_build_type.
  - intros. do 2 eexists. split; [reflexivity|].
    cbn [llvm_cmake_defines].
    unfold stage2_defines_after_profdata, stage2_defines_before_profdata,
      base_cmake_defines.
    lookup_defines. case_ifs; reflexivity.
Qed.

(** C8: an instrumented stage 2 is configured with instrumentation on and
    with libc++ and the runtimes off; otherwise the last two are on. *)
Theorem stage2_instrumented_defines
    (stage1_install stage2_install stage2_targets build_name : string)
    (use_lld enable_assertions debug_build : bool) :
  (∃ cmake_defines env,
     build_stage2 hst orc stage1_install stage2_install stage2_targets
                  build_name use_lld enable_assertions debug_build true None
     = invoke_cmake hst orc (out_path hst ["stage2"]) cmake_defines env
                    (llvm_path hst []) None true
     ∧ cmake_defines !! "LLVM_BUILD_INSTRUMENTED" = Some "ON"
     ∧ cmake_defines !! "LLVM_ENABLE_LIBCXX" = Some "OFF"
     ∧ cmake_defines !! "LLVM_BUILD_RUNTIME" = Some "OFF")
  ∧ (∃ cmake_defines env,
     build_stage2 hst orc stage1_install stage2_install stage2_targets
                  build_name use_lld enable_assertions debug_build false None
     = invoke_cmake hst orc (out_path hst ["stage2"]) cmake_defines env
                    (llvm_path hst []) None true
     ∧ cmake_defines !! "LLVM_BUILD_INSTRUMENTED" = None
     ∧ cmake_defines !! "LLVM_ENABLE_LIBCXX" = Some "ON"
     ∧ cmake_defines !! "LLVM_BUILD_RUNTIME" = Some "ON").
Proof.
  split; do 2 eexists; (split; [reflexivity|]);
    cbn [llvm_cmake_defines];
    unfold stage2_defines_after_profdata, stage2_defines_before_profdata,
      base_cmake_defines;
    (split_and!; lookup_defines; case_ifs; reflexivity).
Qed.

End Stage2.

(** * The runtime fan-out *)

Section Fanout.
Context (hst : Host) (orc : Oracle).

Lemma build_libfuzzers_copies s v ndk :
  emits (libfuzzer_copy hst s v ndk) (λ _, True) (build_libfuzzers hst orc s v ndk).
Proof.
  emits_walk_with ltac:(try exact I).
  - left. eexists. split_and!; [eassumption|eexists; reflexivity|reflexivity].
  - right. reflexivity.
Qed.

Lemma build_libomp_copies s v ndk :
  emits (libomp_copy hst s v ndk) (λ _, True) (build_libomp hst orc s v ndk).
Proof.
  emits_walk_with ltac:(try exact I).
  eexists. split_and!; [eassumption|eexists; reflexivity|reflexivity].
Qed.

Lemma fanout_subdirs stage2_install platform :
  map (λ cfg, (cfg_arch cfg, arch_from_triple (cfg_llvm_triple cfg)))
      (cross_compile_configs hst stage2_install platform)
  = [("arm", "arm"); ("aarch64", "aarch64"); ("x86_64", "x86_64");
     ("i386", "i386"); ("mips", "mipsel"); ("mips64", "mips64el")].
Proof. reflexivity. Qed.

Lemma fanout_fuzzer_archives stage2_install platform :
  map (λ cfg, libfuzzer_static_lib_filename (cfg_arch cfg))
      (cross_compile_configs hst stage2_install platform)
  = ["libclang_rt.fuzzer-arm-android.a";
     "libclang_rt.fuzzer-aarch64-android.a";
     "libclang_rt.fuzzer-x86_64-android.a";
     "libclang_rt.fuzzer-i686-android.a";
     "libclang_rt.fuzzer-mips-android.a";
     "libclang_rt.fuzzer-mips64-android.a"].
Proof. reflexivity. Qed.


End Fanout.

Section Libcxx.
Context (hst : Host) (orc : Oracle).

Lemma build_runtimes_logs stage2_install :
  emits (logs_only runtime_log_formats) (λ _, True)
        (build_runtimes hst orc stage2_install).
Proof. emits_walk_with ltac:(first [exact I | in_list]). Qed.

Lemma build_libcxx_note stage2_install clang_version t :
  ELog INFO "Building libcxx for %s" [LStr "arm"]
  ∈ (build_libcxx hst orc stage2_install clang_version t).2.
Proof.
  unfold build_libcxx, cross_compile_configs, configs.
  cbn [map for_each].
  apply trace_bind_elem; [|intros _; emits_walk_with ltac:(exact I)].
  cbn [cross_compile_config cfg_arch].
  apply trace_bind_log.
  emits_walk_with ltac:(exact I).
Qed.


End Libcxx.

(** The fan-out of a run in which every step succeeds: six compiler-rt
    builds, then libfuzzer and libomp, each for the platform and for the
    NDK C++ library. *)
Example build_runtimes_notes :
  let r := build_runtimes ex_host (ex_oracle (λ _, true)) "/src/out/stage2-install" [] in
  r.1 = Ok tt
  ∧ map fst (build_notes r.2)
    = replicate 6 "Building compiler-rt for %s"
      ++ replicate 12 "Building libfuzzer for %s (ndk_cxx? %s)"
      ++ replicate 12 "Building libomp for %s (ndk_cxx? %s)".
Proof. vm_compute. split; reflexivity. Qed.



(** C5 as stated fails: the generator is not given architecture ids, and
    what takes one falls back to the 64-bit defaults for an id it does
    not know. *)
Lemma unknown_arch_falls_back :
  ("riscv64" ∉ map cfg_arch (cross_compile_configs ex_host "/src/out/stage2-install" false))
  ∧ android_api "riscv64" false = "21"
  ∧ cfg_cflags
      (cross_compile_config ex_host "/src/out/stage2-install" false
         ("riscv64", "riscv64",
          "riscv64/riscv64-linux-android-4.9/riscv64-linux-android",
          "riscv64-linux-android", ""))
    = ["--target=riscv64-linux-android";
       "-B/src/prebuilts/gcc/linux-x86/riscv64/riscv64-linux-android-4.9/riscv64-linux-android/bin";
       "-isystem /src/toolchain/prebuilts/ndk/r16/sysroot/usr/include/riscv64-linux-android";
       "-D__ANDROID_API__=21"; ""].
Proof.
  split_and!.
  - apply (bool_decide_unpack _). vm_compute. reflexivity.
  - reflexivity.
  - vm_compute. reflexivity.
Qed.

(** C5, as the code has it: whatever it is called with, the generator
    yields the six configurations of its table, in the order of the
    table; an architecture id outside the 32-bit ones gets API level 21
    and the [lib64] tool-chain directory. *)
Theorem cross_compile_configs_fixed (hst : Host) (stage2_install : string)
    (platform : bool) (arch toolchain_root host_tag : string) :
  arch ∉ ["arm"; "i386"; "mips"] →
  map cfg_arch (cross_compile_configs hst stage2_install platform)
  = ["arm"; "aarch64"; "x86_64"; "i386"; "mips"; "mips64"]
  ∧ android_api arch false = "21"
  ∧ ndk_toolchain_lib hst arch toolchain_root host_tag
    = Py.path_join (ndk_base hst)
        ["toolchains"; toolchain_root; "prebuilt"; "linux-x86_64"; host_tag; "lib64"].
Proof.
  intros Harch. split_and!.
  - reflexivity.
  - unfold android_api. by rewrite bool_decide_eq_false_2.
  - unfold ndk_toolchain_lib. rewrite bool_decide_eq_false_2 by done.
    unfold Py.path_join. by rewrite <- foldl_app.
Qed.

Lemma cross_compile_configs_fixed_witness :
  map cfg_arch (cross_compile_configs ex_host "/src/out/stage2-install" true)
  = ["arm"; "aarch64"; "x86_64"; "i386"; "mips"; "mips64"]
  ∧ android_api "riscv64" false = "21"
  ∧ ndk_toolchain_lib ex_host "riscv64" "riscv64-linux-android-4.9" "riscv64-linux-android"
    = Py.path_join (ndk_base ex_host)
        ["toolchains"; "riscv64-linux-android-4.9"; "prebuilt"; "linux-x86_64";
         "riscv64-linux-android"; "lib64"].
Proof.
  apply (cross_compile_configs_fixed ex_host "/src/out/stage2-install" true).
  apply (bool_decide_unpack _). vm_compute. reflexivity.
Defined.

(** Where the platform build of libfuzzer puts its archives, when every
    step succeeds *)
Example libfuzzer_platform_install :
  let r := build_libfuzzers ex_host (ex_oracle (λ _, true))
             "/src/out/stage2-install" ex_version false [] in
  r.1 = Ok tt
  ∧ copies r.2
    = [("/src/out/lib/libfuzzer-arm/lib/linux/libclang_rt.fuzzer-arm-android.a",
        "/src/out/stage2-install/lib64/clang/6.0.1/lib/linux/arm/libFuzzer.a");
       ("/src/out/lib/libfuzzer-aarch64/lib/linux/libclang_rt.fuzzer-aarch64-android.a",
        "/src/out/stage2-install/lib64/clang/6.0.1/lib/linux/aarch64/libFuzzer.a");
       ("/src/out/lib/libfuzzer-x86_64/lib/linux/libclang_rt.fuzzer-x86_64-android.a",
        "/src/out/stage2-install/lib64/clang/6.0.1/lib/linux/x86_64/libFuzzer.a");
       ("/src/out/lib/libfuzzer-i386/lib/linux/libclang_rt.fuzzer-i686-android.a",
        "/src/out/stage2-install/lib64/clang/6.0.1/lib/linux/i386/libFuzzer.a");
       ("/src/out/lib/libfuzzer-mips/lib/linux/libclang_rt.fuzzer-mips-android.a",
        "/src/out/stage2-install/lib64/clang/6.0.1/lib/linux/mipsel/libFuzzer.a");
       ("/src/out/lib/libfuzzer-mips64/lib/linux/libclang_rt.fuzzer-mips64-android.a",
        "/src/out/stage2-install/lib64/clang/6.0.1/lib/linux/mips64el/libFuzzer.a")].
Proof. vm_compute. split; reflexivity. Qed.

(** * The pipeline *)

Section Pipeline.
Context (hst : Host) (orc : Oracle).

Lemma main_fail_stop args : fail_stop (main hst orc args).
Proof. repeat fail_stop_step unfold_build. Qed.


Lemma check_call_ok cmd cwd env t t' :
  check_call orc cmd cwd env t = (Ok tt, t') →
  ∃ s, t' = t ++ s ∧ EAct (CheckCall cmd cwd env) true ∈ s.
Proof.
  unfold check_call. cbn. unfold T_bind, now, log, act. cbn.
  destruct (o_act orc _ _) eqn:Hok; [|discriminate].
  intros [= <-]. eexists. rewrite <- !app_assoc. split; [reflexivity|].
  cbn. do 2 right. left.
Qed.

Lemma build_stage1_ok stage1_install bn tools t t' :
  build_stage1 hst orc stage1_install bn tools t = (Ok tt, t') →
  stage1_succeeded hst t'.
Proof.
  unfold build_stage1, build_llvm, invoke_cmake. cbv zeta.
  intros Hrun.
  apply bind_Ok_inv in Hrun as ([] & t1 & _ & Hrun).
  apply bind_Ok_inv in Hrun as ([] & t2 & (s2 & -> & H2)%check_call_ok & Hrun).
  apply bind_Ok_inv in Hrun as ([] & t3 & (s3 & -> & H3)%check_call_ok & Hrun).
  cbn [when] in Hrun. apply check_call_ok in Hrun as (s4 & -> & H4).
  eexists _, _. cbv zeta. rewrite !elem_of_app. split_and!; eauto.
Qed.

Lemma build_runtimes_not_both s :
  emits (λ _, True) not_both_modes (build_runtimes hst orc s).
Proof. emits_walk_with ltac:(first [exact I | not_both_leaf]). Qed.

Lemma package_toolchain_quiet build_dir bn host dist strip :
  emits (not_stage2 hst) not_both_modes
        (package_toolchain hst orc build_dir bn host dist strip).
Proof. emits_walk_with ltac:(first [not_stage2_leaf | not_both_leaf]). Qed.

Lemma build_llvm_not_both targets build_dir install_dir bn extra extra_env :
  emits (λ _, True) not_both_modes
        (build_llvm hst orc targets build_dir install_dir bn extra extra_env).
Proof. emits_walk_with ltac:(first [exact I | not_both_leaf]). Qed.

Lemma build_stage2_both s1 s2 targets bn lld ea dbg instr profdata t t' :
  build_stage2 hst orc s1 s2 targets bn lld ea dbg instr profdata t
  = (Raise both_modes, t') →
  t' = t ∧ instr = true ∧ Py.truthy profdata = true.
Proof.
  unfold build_stage2. cbv zeta.
  destruct (Py.truthy profdata); [destruct instr|].
  - by intros [= <-].
  - rewrite T_bind_ret. intros Hrun.
    destruct (build_llvm_not_both targets (out_path hst ["stage2"]) s2 bn
      (Some (stage2_defines_after_profdata hst
        (<["LLVM_PROFDATA_FILE" := default "" profdata]>
          (stage2_defines_before_profdata s1 lld ea dbg false))))
      (Some {["LD_LIBRARY_PATH" := Py.path_join s1 ["lib64"]]}) t)
      as (s & _ & _ & Hr).
    rewrite Hrun in Hr. by destruct (Hr _ eq_refl).
  - rewrite T_bind_ret. intros Hrun.
    destruct (build_llvm_not_both targets (out_path hst ["stage2"]) s2 bn
      (Some (stage2_defines_after_profdata hst
          (stage2_defines_before_profdata s1 lld ea dbg instr)))
      (Some {["LD_LIBRARY_PATH" := Py.path_join s1 ["lib64"]]}) t)
      as (s & _ & _ & Hr).
    rewrite Hrun in Hr. by destruct (Hr _ eq_refl).
Qed.



Lemma build_stage1_quiet stage1_install bn tools :
  out_path hst ["stage1"] ≠ out_path hst ["stage2"] →
  emits (not_stage2 hst) not_both_modes (build_stage1 hst orc stage1_install bn tools).
Proof.
  intros Hpaths. emits_walk_with ltac:(first [not_stage2_leaf | not_both_leaf]).
Qed.

Lemma main_stage2_both args s1 s2 instr :
  hoare (Forall (not_stage2 hst)) (main_stage2 hst orc args s1 s2 instr)
        (λ r t, r = Raise both_modes → Forall (not_stage2 hst) t).
Proof.
  unfold main_stage2.
  do 3 (eapply (hoare_bind_emits _ not_both_modes);
    [emits_walk_with ltac:(first [not_stage2_leaf | not_both_leaf])
    |intros ?|by intros e t Ht _ _]).
  intros t Ht Hr.
  destruct (build_stage2 _ _ _ _ _ _ _ _ _ _ _ t) as [r t'] eqn:Hrun.
  cbn [fst snd] in Hr. subst r. by apply build_stage2_both in Hrun as (-> & _).
Qed.

Lemma main_stage2_appends args s1 s2 instr :
  emits (λ _, True) (λ _, True) (main_stage2 hst orc args s1 s2 instr).
Proof. emits_walk_with ltac:(exact I). Qed.

Lemma main_phases args :
  out_path hst ["stage1"] ≠ out_path hst ["stage2"] →
  hoare (λ t, t = []) (main hst orc args)
    (λ r t, stage_order hst t
            ∧ (r = Raise both_modes →
               stage1_succeeded hst t ∧ Forall (not_stage2 hst) t)).
Proof.
  intros Hpaths. destruct (skip_build args) eqn:Hskip.
  - assert (emits (not_stage2 hst) not_both_modes (main hst orc args)) as Hem.
    { unfold main. rewrite Hskip. cbn [negb andb].
      emits_walk_with ltac:(first [not_stage2_leaf | not_both_leaf]). }
    intros t ->. destruct (Hem []) as (s & Hs & Hall & Hr). change ([] ++ s) with s in Hs.
    rewrite Hs. split; [by apply stage_order_no_stage2|].
    intros Hboth. by destruct (Hr _ Hboth).
  - unfold main. rewrite Hskip. cbn [negb andb when]. cbv zeta.
    eapply hoare_bind with
      (Q1 := λ r t, stage_order hst t
                    ∧ match r with
                      | Ok _ => stage1_succeeded hst t
                      | Raise e => e = both_modes →
                                   stage1_succeeded hst t ∧ Forall (not_stage2 hst) t
                      end).
    + eapply hoare_conseq with (P := Forall (not_stage2 hst)) (Q := λ r t, _);
        [|by intros t ->|intros r t Hq; exact Hq].
      eapply (hoare_bind_emits _ not_both_modes);
        [emits_walk_with ltac:(first [not_stage2_leaf | not_both_leaf])
        |intros []|].
      2:{ intros e t Ht Hr. split; [by apply stage_order_no_stage2|].
          intros ->. by destruct Hr. }
      eapply hoare_bind with
        (Q1 := λ r t, Forall (not_stage2 hst) t
                      ∧ match r with
                        | Ok _ => stage1_succeeded hst t
                        | Raise e => not_both_modes e
                        end).
      * intros t Ht.
        pose proof (hoare_emits _ _ _ (build_stage1_quiet (out_path hst ["stage1-install"])
                      (build_name args) (host_is_linux hst && build_instrumented args)
                      Hpaths) t Ht) as [Hns Hr].
        split; [done|].
        destruct (build_stage1 _ _ _ _ _ t) as [[[]|e] t'] eqn:Hrun; cbn [fst snd] in *.
        -- by eapply build_stage1_ok.
        -- by apply Hr.
      * intros [] t [Ht Hsucc].
        destruct (main_stage2_appends args (out_path hst ["stage1-install"])
                    (out_path hst ["stage2-install"])
                    (host_is_linux hst && build_instrumented args) t)
          as (s & Hs & _).
        pose proof (main_stage2_both args (out_path hst ["stage1-install"])
                    (out_path hst ["stage2-install"])
                    (host_is_linux hst && build_instrumented args) t Ht) as Hboth.
        rewrite Hs in *.
        split; [apply stage_order_app; [by apply stage_order_no_stage2|done]|].
        destruct (main_stage2 _ _ _ _ _ _ t).1 as [[]|e].
        -- by apply stage1_succeeded_app.
        -- intros ->. split; [by apply stage1_succeeded_app|by apply Hboth].
      * intros e t [Ht Hr]. split; [by apply stage_order_no_stage2|].
        intros ->. by destruct Hr.
    + intros [].
      eapply hoare_conseq with
        (P := λ t, stage_order hst t ∧ stage1_succeeded hst t).
      * apply (hoare_frame _ not_both_modes).
        -- emits_walk_with ltac:(first [exact I | not_both_leaf]).
        -- intros t s [Hord Hsucc]. split; [by apply stage_order_app|by apply stage1_succeeded_app].
      * done.
      * intros r t [[Hord _] Hr]. split; [done|]. intros ->. by destruct (Hr _ eq_refl).
    + intros e t [Hord Hr]. split; [done|]. intros [= ->]. by apply Hr.
Qed.


End Pipeline.
Ltac not_engine_leaf :=
  lazymatch goal with
  | |- ¬ is_engine_call _ =>
      let Heq := fresh in
      intros (? & ? & ? & ? & Heq); discriminate Heq
  end.

Section Main.
Context (hst : Host) (orc : Oracle).

Lemma main_skip_build_no_engine args :
  skip_build args = true →
  emits (λ e, ¬ is_engine_call e) (λ _, True) (main hst orc args).
Proof.
  intros Hskip. unfold main. rewrite Hskip. cbn [negb andb].
  emits_walk_with ltac:(first [exact I | not_engine_leaf]).
Qed.

(** C4: no subprocess of stage 2 runs before the three steps of stage 1
    have succeeded; an action that fails, a step of the build engine in
    particular, is the last event of the run, its exception leaves [main]
    and the exit status is not 0; with [--skip-build] no step of the build
    engine is run at all, the run is the packaging alone. *)
Theorem pipeline_fail_fast (args : Args) :
  out_path hst ["stage1"] ≠ out_path hst ["stage2"] →
  let r := main hst orc args [] in
  stage_order hst r.2
  ∧ (∀ t1 a t2, r.2 = t1 ++ EAct a false :: t2 →
       t2 = [] ∧ r.1 = Raise (exn_of_action a) ∧ exit_status r.1 ≠ 0%Z)
  ∧ (skip_build args = true → Forall (λ e, ¬ is_engine_call e) r.2).
Proof.
  intros Hpaths r. split_and!.
  - by apply (main_phases hst orc args Hpaths []).
  - intros t1 a t2 Hr2.
    destruct (main_fail_stop hst orc args []) as (s & Hs & Hfail).
    change ([] ++ s) with s in Hs. fold r in Hs, Hfail.
    rewrite Hs in Hr2. destruct (Hfail t1 a t2 Hr2) as [-> Hr1].
    split_and!; [done|done|]. by rewrite Hr1.
  - intros Hskip.
    destruct (main_skip_build_no_engine args Hskip []) as (s & Hs & Hall & _).
    change ([] ++ s) with s in Hs. fold r in Hs. by rewrite Hs.
Qed.

(** C1, as the code has it: [build_stage2] raises before it does
    anything, but [main] comes to it only after stage 1 has been built:
    when [main] ends with this error, the three steps of stage 1 have
    succeeded and no step of stage 2 has run. *)
Theorem both_modes_after_stage1 (args : Args)
    (stage1_install stage2_install stage2_targets build_name : string)
    (use_lld enable_assertions debug_build : bool) (profdata_file : option string)
    (t : trace) :
  out_path hst ["stage1"] ≠ out_path hst ["stage2"] →
  Py.truthy profdata_file = true →
  build_stage2 hst orc stage1_install stage2_install stage2_targets build_name
               use_lld enable_assertions debug_build true profdata_file t
  = (Raise both_modes, t)
  ∧ let r := main hst orc args [] in
    (r.1 = Raise both_modes →
     stage1_succeeded hst r.2 ∧ Forall (not_stage2 hst) r.2).
Proof.
  intros Hpaths Htruthy. split.
  - unfold build_stage2. cbv zeta. by rewrite Htruthy.
  - intros r. by apply (main_phases hst orc args Hpaths []).
Qed.

Lemma main_stage2_missing_profile args s1 s2 instr t v :
  o_version orc t (clang_version_file s1) = Some v →
  o_ask orc (t ++ [EVersion (clang_version_file s1) (Some v)])
        (Exists (pgo_profile_path hst (long_version v))) = false →
  let t' := t ++ [EVersion (clang_version_file s1) (Some v);
                  EAsk (Exists (pgo_profile_path hst (long_version v))) false] in
  main_stage2 hst orc args s1 s2 instr t
  = if check_pgo_profile args
    then (Raise (RuntimeError ("Profdata file does not exist for " +:+
                               long_version v)), t')
    else build_stage2 hst orc s1 s2 STAGE2_TARGETS (build_name args)
                      (use_lld args) (enable_assertions args) (debug args)
                      instr None t'.
Proof.
  intros Hv Hp t'.
  unfold main_stage2, extract_clang_long_version, extract_clang_version,
    pgo_profdata_file.
  cbn [bind ret raise T_monad]. unfold T_bind, T_ret, T_raise, read_version, ask.
  rewrite Hv. cbn [fst snd]. rewrite Hp.
  replace ((t ++ [EVersion (clang_version_file s1) (Some v)]) ++
           [EAsk (Exists (pgo_profile_path hst (long_version v))) false])
    with t' by (unfold t'; by rewrite <- app_assoc).
  rewrite bool_decide_eq_true_2 by done. cbn [andb].
  by destruct (check_pgo_profile args).
Qed.


Lemma main_missing_profile_fatal args :
  out_path hst ["stage1"] ≠ out_path hst ["stage2"] →
  skip_build args = false →
  check_pgo_profile args = true →
  (∀ t v, o_ask orc t (Exists (pgo_profile_path hst v)) = false) →
  let r := main hst orc args [] in
  (∃ e, r.1 = Raise e) ∧ Forall (not_stage2 hst) r.2.
Proof.
  intros Hpaths Hskip Hcheck Habsent.
  apply (hoare_conseq (Forall (not_stage2 hst)) (λ t, t = []) (main hst orc args)
           (λ r t, (∃ e, r = Raise e) ∧ Forall (not_stage2 hst) t)
           (λ r t, (∃ e, r = Raise e) ∧ Forall (not_stage2 hst) t));
    [|by intros t ->|done|done].
  unfold main. rewrite Hskip. cbn [negb andb when]. cbv zeta.
  eapply hoare_bind with
    (Q1 := λ r t, (∃ e, r = Raise e) ∧ Forall (not_stage2 hst) t);
    [|by intros a t [[e [=]] _]|by intros e t [_ Ht]; eauto].
  eapply (hoare_bind_emits _ not_both_modes);
    [emits_walk_with ltac:(first [not_stage2_leaf | not_both_leaf])
    |intros []|by eauto].
  eapply (hoare_bind_emits _ not_both_modes);
    [by apply build_stage1_quiet|intros []|by eauto].
  unfold main_stage2.
  eapply (hoare_bind_emits _ not_both_modes);
    [emits_walk_with ltac:(first [not_stage2_leaf | not_both_leaf])
    |intros long_version|by eauto].
  eapply hoare_bind with (Q1 := λ r t, r = Ok None ∧ Forall (not_stage2 hst) t).
  - intros t Ht. unfold pgo_profdata_file.
    cbn [bind ret T_monad]. unfold T_bind, T_ret, ask. cbn [fst snd].
    rewrite Habsent. split; [done|].
    apply Forall_app. split; [done|]. constructor; [|done]. not_stage2_leaf.
  - intros profdata t [[= ->] Ht]. rewrite Hcheck.
    rewrite bool_decide_eq_true_2 by done. cbn [andb bind raise T_monad].
    unfold T_bind, T_raise. cbn [fst snd]. eauto.
  - by intros e t [[=] _].
Qed.

(** C2: once stage 1 is installed and its version read, [main] asks for
    the file [<long version>.profdata]; if it is not there, then with
    [--check-pgo-profile] the run ends at once with the error of the
    missing profile, and without it stage 2 is built with no profile.  A
    run of [main] with that option in which the file is never there ends
    with an exception before any step of stage 2. *)
Theorem missing_profile (args : Args) (stage1_install stage2_install : string)
    (instrumented : bool) (t : trace) (v : Version) :
  o_version orc t (clang_version_file stage1_install) = Some v →
  o_ask orc (t ++ [EVersion (clang_version_file stage1_install) (Some v)])
        (Exists (pgo_profile_path hst (long_version v))) = false →
  let t' := t ++ [EVersion (clang_version_file stage1_install) (Some v);
                  EAsk (Exists (pgo_profile_path hst (long_version v))) false] in
  pgo_profile_path hst (long_version v)
  = android_path hst ["prebuilts"; "clang"; "host"; "linux-x86"; "profiles";
                      long_version v +:+ ".profdata"]
  ∧ main_stage2 hst orc args stage1_install stage2_install instrumented t
    = (if check_pgo_profile args
       then (Raise (RuntimeError ("Profdata file does not exist for " +:+
                                  long_version v)), t')
       else build_stage2 hst orc stage1_install stage2_install STAGE2_TARGETS
                         (build_name args) (use_lld args) (enable_assertions args)
                         (debug args) instrumented None t')
  ∧ (out_path hst ["stage1"] ≠ out_path hst ["stage2"] →
     skip_build args = false →
     check_pgo_profile args = true →
     (∀ t v, o_ask orc t (Exists (pgo_profile_path hst v)) = false) →
     let r := main hst orc args [] in
     (∃ e, r.1 = Raise e) ∧ Forall (not_stage2 hst) r.2).
Proof.
  intros Hv Hp t'. split_and!.
  - reflexivity.
  - by apply main_stage2_missing_profile.
  - apply main_missing_profile_fatal.
Qed.

End Main.

Lemma ex_host_stage_paths : out_path ex_host ["stage1"] ≠ out_path ex_host ["stage2"].
Proof. vm_compute. discriminate. Qed.

Lemma pipeline_fail_fast_witness :
  let r := main ex_host (ex_oracle_failing (λ _, true) is_stage1_ninja) ex_args [] in
  r.1 = Raise (CalledProcessError ["/src/prebuilts/cmake/linux-x86/bin/ninja"])
  ∧ exit_status r.1 ≠ 0%Z
  ∧ stage_order ex_host r.2.
Proof.
  intros r.
  destruct (pipeline_fail_fast ex_host (ex_oracle_failing (λ _, true) is_stage1_ninja)
              ex_args) as (Hord & Hfail & _).
  { vm_compute. discriminate. }
  destruct (Hfail (removelast r.2)
              (CheckCall ["/src/prebuilts/cmake/linux-x86/bin/ninja"]
                         (Some "/src/out/stage1") (Some ∅)) [])
    as (_ & Hr & Hexit).
  { vm_compute. reflexivity. }
  split_and!; [exact Hr|exact Hexit|exact Hord].
Defined.

Lemma both_modes_after_stage1_witness :
  let r := main ex_host (ex_oracle (λ _, true)) ex_args [] in
  build_stage2 ex_host (ex_oracle (λ _, true)) "/src/out/stage1-install"
               "/src/out/stage2-install" STAGE2_TARGETS "dev" false false false
               true (Some "/src/prebuilts/clang/host/linux-x86/profiles/6.0.1.profdata") []
  = (Raise both_modes, [])
  ∧ stage1_succeeded ex_host r.2
  ∧ Forall (not_stage2 ex_host) r.2.
Proof.
  intros r.
  destruct (both_modes_after_stage1 ex_host (ex_oracle (λ _, true)) ex_args
              "/src/out/stage1-install" "/src/out/stage2-install" STAGE2_TARGETS
              "dev" false false false
              (Some "/src/prebuilts/clang/host/linux-x86/profiles/6.0.1.profdata") [])
    as [Hraise Hmain].
  { vm_compute. discriminate. }
  { reflexivity. }
  split; [exact Hraise|]. apply Hmain. vm_compute. reflexivity.
Defined.

(** C1 as stated fails: when the two modes are asked for together, the
    error comes after the three steps of stage 1 have been run by the
    build engine. *)
Lemma both_modes_raised_after_stage1 :
  let r := main ex_host (ex_oracle (λ _, true)) ex_args [] in
  build_instrumented ex_args = true
  ∧ r.1 = Raise both_modes
  ∧ map (λ p, (p.1.2, p.2)) (subprocesses r.2)
    = [(Some "/src/out/stage1", true); (Some "/src/out/stage1", true);
       (Some "/src/out/stage1", true)].
Proof. vm_compute. split_and!; reflexivity. Qed.

Lemma missing_profile_witness :
  let r := main ex_host (ex_oracle (λ _, false)) ex_args_check [] in
  main_stage2 ex_host (ex_oracle (λ _, false)) ex_args_check
              "/src/out/stage1-install" "/src/out/stage2-install" false []
  = (Raise (RuntimeError "Profdata file does not exist for 6.0.1"),
     [EVersion "/src/out/stage1-install/include/clang/Basic/Version.inc" (Some ex_version);
      EAsk (Exists "/src/prebuilts/clang/host/linux-x86/profiles/6.0.1.profdata") false])
  ∧ (∃ e, r.1 = Raise e)
  ∧ Forall (not_stage2 ex_host) r.2.
Proof.
  intros r.
  destruct (missing_profile ex_host (ex_oracle (λ _, false)) ex_args_check
              "/src/out/stage1-install" "/src/out/stage2-install" false [] ex_version)
    as (_ & Hstage2 & Hmain).
  { reflexivity. }
  { reflexivity. }
  split; [exact Hstage2|].
  apply Hmain.
  - vm_compute. discriminate.
  - reflexivity.
  - reflexivity.
  - intros t v. reflexivity.
Defined.

(** Without [--check-pgo-profile] the same run builds stage 2 and goes on
    to the packaging. *)
Example missing_profile_tolerated :
  let r := main ex_host (ex_oracle (λ _, false))
             {| verbose := 0; build_name := "dev"; use_lld := false;
                enable_assertions := false; debug := false;
                build_instrumented := false; skip_build := false;
                skip_package := false; no_strip := false;
                no_build_windows := false; check_pgo_profile := false |} [] in
  r.1 = Ok 0%Z
  ∧ (Some "/src/out/stage2", true) ∈ map (λ p, (p.1.2, p.2)) (subprocesses r.2)
  ∧ last (subprocesses r.2)
    = Some (["tar"; "-cjC"; "/src/out/install/windows-x86"; "-f";
             "/src/out/clang-dev-windows-x86.tar.bz2"; "clang-dev"], None, true).
Proof.
  split_and!.
  - vm_compute. reflexivity.
  - apply (bool_decide_unpack _). vm_compute. reflexivity.
  - vm_compute. reflexivity.
Qed.

(** * Normalization of the host libraries *)

Lemma string_app_nil_r s : s +:+ "" = s.
Proof. induction s as [|c s IH]; [done|]. by rewrite append_String, IH. Qed.

Lemma string_app_assoc s1 s2 s3 : (s1 +:+ s2) +:+ s3 = s1 +:+ (s2 +:+ s3).
Proof. induction s1 as [|c s1 IH]; [done|]. by rewrite !append_String, IH. Qed.

Lemma strip_prefix_app pre s : Dir.strip_prefix pre (pre +:+ s) = Some s.
Proof.
  induction pre as [|c pre IH]; [done|].
  rewrite append_String. cbn. by rewrite Ascii.eqb_refl.
Qed.

Lemma path_join_child libdir n :
  Py.startswith n "/" = false →
  Py.path_join libdir [n] = Py.path_join libdir [""] +:+ n.
Proof.
  intros Hn. unfold Py.path_join. cbn [foldl]. unfold Py.path_join2.
  rewrite Hn. change (Py.startswith "" "/") with false. cbv iota.
  destruct (String.eqb libdir "" || Py.endswith libdir "/").
  - by rewrite string_app_nil_r.
  - by rewrite !string_app_assoc.
Qed.

Lemma entry_child libdir n :
  Py.startswith n "/" = false →
  Dir.entry libdir (Py.path_join libdir [n]) = Some n.
Proof.
  intros Hn. unfold Dir.entry. rewrite (path_join_child _ n Hn).
  apply strip_prefix_app.
Qed.

Lemma path_join_child_inj libdir n1 n2 :
  Py.startswith n1 "/" = false → Py.startswith n2 "/" = false →
  Py.path_join libdir [n1] = Py.path_join libdir [n2] → n1 = n2.
Proof.
  intros H1 H2 Heq. apply (f_equal (Dir.entry libdir)) in Heq.
  rewrite !entry_child in Heq by done. by injection Heq.
Qed.

Lemma elem_of_listing (d : gmap string Dir.node) n :
  n ∈ Dir.listing d ↔ is_Some (d !! n) ∧ Dir.has_slash n = false.
Proof.
  unfold Dir.listing. rewrite list_elem_of_In, filter_In, <- list_elem_of_In.
  rewrite negb_true_iff.
  change (map fst (map_to_list d)) with ((map_to_list d).*1).
  rewrite list_elem_of_fmap. split.
  - intros [([k x] & -> & Hk%elem_of_map_to_list) Hs]. cbn in *. eauto.
  - intros [[x Hx] Hs]. split; [|done]. exists (n, x). split; [done|].
    by apply elem_of_map_to_list.
Qed.

(** Two prefixes of a string: one is a prefix of the other. *)
Lemma prefix_comparable p q s :
  Py.startswith s p = true → Py.startswith s q = true →
  Py.startswith q p = true ∨ Py.startswith p q = true.
Proof.
  revert q s. induction p as [|c p IH]; intros q s; [intros _ _; by left|].
  destruct q as [|c' q]; [intros _ _; by right|].
  destruct s as [|c'' s]; [done|]. cbn.
  intros [Hc Hp]%andb_true_iff [Hc' Hq]%andb_true_iff.
  apply Ascii.eqb_eq in Hc as ->. apply Ascii.eqb_eq in Hc' as ->.
  rewrite !Ascii.eqb_refl. cbn. by apply (IH q s).
Qed.

Lemma prefix_incomparable p q s :
  Py.startswith s p = true →
  Py.startswith q p = false → Py.startswith p q = false →
  Py.startswith s q = false.
Proof.
  intros Hp Hpq Hqp. destruct (Py.startswith s q) eqn:Hq; [|done].
  destruct (prefix_comparable p q s Hp Hq); congruence.
Qed.

Lemma host_libs_rows host item :
  item ∈ map_to_list (host_libs host) → item ∈ lib_rows.
Proof.
  destruct item as [k v]. rewrite elem_of_map_to_list. unfold host_libs, lib_rows.
  destruct (String.eqb host "linux-x86");
    intros Hk%elem_of_list_to_map_2; revert Hk; rewrite !elem_of_cons; tauto.
Qed.

Lemma host_libs_functional host k v1 v2 :
  (k, v1) ∈ map_to_list (host_libs host) → (k, v2) ∈ map_to_list (host_libs host) →
  v1 = v2.
Proof. rewrite !elem_of_map_to_list. congruence. Qed.

Ltac lib_rows_cases H :=
  unfold lib_rows in H; rewrite ?elem_of_cons, elem_of_nil in H;
  repeat (destruct H as [H|H]; [injection H as -> ->|]); [..|destruct H].

Lemma stems_disjoint item1 item2 n :
  item1 ∈ lib_rows → item2 ∈ lib_rows → item1.1 ≠ item2.1 →
  same_stem item1.1 n = true → same_stem item2.1 n = false.
Proof.
  intros H1 H2. destruct item1 as [k1 v1], item2 as [k2 v2].
  lib_rows_cases H1; lib_rows_cases H2; cbn [fst]; intros Hne; try done;
    unfold same_stem;
    intros [Hp|Hp]%orb_true_iff; apply orb_false_iff; split;
      apply (prefix_incomparable _ _ _ Hp); reflexivity.
Qed.

Lemma row_names version item :
  item ∈ lib_rows →
  same_stem item.1 (real_name version item) = true
  ∧ same_stem item.1 (soname_name version item) = true
  ∧ Py.startswith (real_name version item) "/" = false
  ∧ Py.startswith (soname_name version item) "/" = false.
Proof.
  intros H. destruct item as [k v]. lib_rows_cases H; by split_and!.
Qed.

Lemma stem_no_slash_start item n :
  item ∈ lib_rows → same_stem item.1 n = true → Py.startswith n "/" = false.
Proof.
  intros H. destruct item as [k v].
  lib_rows_cases H; cbn [fst]; unfold same_stem;
    intros [Hp|Hp]%orb_true_iff;
    apply (prefix_incomparable _ _ _ Hp); reflexivity.
Qed.
Section Step.
Context (libdir : string).

Lemma resolve_lookup fuel (d : gmap string Dir.node) n m x :
  Dir.resolve fuel d n = Some (m, x) → d !! m = Some x ∧ ∀ target, x ≠ Dir.Link target.
Proof.
  revert n. induction fuel as [|fuel IH]; intros n; cbn.
  - destruct (d !! n) as [[|target|children]|] eqn:Hn; try done;
      intros [= <- <-]; by split.
  - destruct (d !! n) as [[|target|children]|] eqn:Hn; try done;
      [intros [= <- <-]; by split|apply IH|intros [= <- <-]; by split].
Qed.

Lemma resolve_start fuel (d : gmap string Dir.node) n m x :
  Dir.resolve fuel d n = Some (m, x) → is_Some (d !! n).
Proof. destruct fuel; cbn; destruct (d !! n); eauto; done. Qed.

Lemma unlink_ok n (d d' : gmap string Dir.node) :
  Py.startswith n "/" = false →
  Dir.unlink libdir (Py.path_join libdir [n]) d = (Ok tt, d') →
  d' = delete n d.
Proof.
  intros Hn. unfold Dir.unlink. rewrite (entry_child _ _ Hn).
  destruct (d !! n) as [[| |]|]; by intros [= <-].
Qed.

Lemma cleanup_ok soname l (d d' : gmap string Dir.node) :
  Forall (λ n, Py.startswith n "/" = false) l →
  Py.startswith soname "/" = false →
  cleanup libdir (Py.path_join libdir [soname]) l d = (Ok tt, d') →
  ∀ k, d' !! k = if bool_decide (k ∈ l ∧ k ≠ soname) then None else d !! k.
Proof.
  intros Hl Hs. revert d. induction Hl as [|x l Hx Hl IH]; intros d.
  - intros [= <-] k. rewrite bool_decide_eq_false_2; [done|].
    intros [[]%elem_of_nil _].
  - unfold cleanup. cbn [for_each]. cbn [bind Dir.D_monad].
    destruct (String.eqb_spec (Py.path_join libdir [x]) (Py.path_join libdir [soname]))
      as [Heq|Hne]; cbn [negb when].
    + apply path_join_child_inj in Heq as ->; [|done..].
      cbn [ret Dir.D_monad]. intros Hrun k. rewrite (IH d Hrun).
      destruct (decide (k ∈ l ∧ k ≠ soname)) as [Hin|Hnin].
      * rewrite !bool_decide_eq_true_2; [done|rewrite elem_of_cons; tauto|done].
      * rewrite !bool_decide_eq_false_2; [done|rewrite elem_of_cons; tauto|done].
    + change (remove (H0 := Dir.D_fs libdir) (Py.path_join libdir [x]) d)
        with (Dir.unlink libdir (Py.path_join libdir [x]) d).
      destruct (Dir.unlink libdir (Py.path_join libdir [x]) d) as [[[]|e] d1] eqn:Hrm;
        [|done].
      apply unlink_ok in Hrm as ->; [|done].
      intros Hrun k. rewrite (IH _ Hrun).
      assert (x ≠ soname) by congruence.
      destruct (decide (k = x)) as [->|Hk].
      * rewrite lookup_delete_eq.
        rewrite (bool_decide_eq_true_2 (x ∈ x :: l ∧ x ≠ soname));
          [by case_bool_decide|split; [left|done]].
      * rewrite lookup_delete_ne by done.
        destruct (decide (k ∈ l ∧ k ≠ soname)) as [Hin|Hnin].
        -- rewrite !bool_decide_eq_true_2; [done|rewrite elem_of_cons; tauto|done].
        -- rewrite !bool_decide_eq_false_2; [done|rewrite elem_of_cons; tauto|done].
Qed.
End Step.
Section Step2.
Context (libdir : string).

Lemma move_ok s t (d d1 : gmap string Dir.node) :
  Py.startswith s "/" = false → Py.startswith t "/" = false →
  (∃ m, Dir.stat d s = Some (m, Dir.File)) →
  Dir.move libdir (Py.path_join libdir [s]) (Py.path_join libdir [t]) d = (Ok tt, d1) →
  is_Some (d1 !! t)
  ∧ ∀ n, n ≠ s → n ≠ t → (is_Some (d1 !! n) ↔ is_Some (d !! n)).
Proof.
  intros Hs Ht [m Hfile]. unfold Dir.move. rewrite !entry_child by done.
  destruct (d !! s) as [ns|] eqn:Hds; [|by destruct (d !! s)].
  assert (∀ ns', (Ok tt, <[t := ns']> (delete s d)) = (Ok tt, d1) →
            is_Some (d1 !! t)
            ∧ ∀ n, n ≠ s → n ≠ t → (is_Some (d1 !! n) ↔ is_Some (d !! n))) as Hreplace.
  { intros ns' [= <-]. split; [rewrite lookup_insert_eq; eauto|].
    intros n Hns Hnt. by rewrite lookup_insert_ne, lookup_delete_ne. }
  destruct ns as [|target|children]; [| |done].
  all: destruct (Dir.stat d t) as [[tn [|target'|children']]|] eqn:Hstat;
    try (by apply Hreplace).
  all: destruct (Dir.samefile d s tn);
    [destruct (d !! t) as [[| |]|]; try done; by apply Hreplace|].
  all: case_bool_decide; [done|]; intros [= <-].
  all: pose proof (resolve_lookup _ _ _ _ _ Hstat) as [Htn _];
    pose proof (resolve_start _ _ _ _ _ Hstat) as Hdt.
  all: assert (tn ≠ s) by (intros ->; congruence).
  all: assert (t ≠ s) by (intros ->; unfold Dir.stat in *; congruence).
  all: split;
    [destruct (decide (tn = t)) as [->|];
       [rewrite lookup_insert_eq; eauto
       |by rewrite lookup_insert_ne, lookup_delete_ne]
    |intros n Hns Hnt; destruct (decide (tn = n)) as [->|];
       [rewrite lookup_insert_eq, Htn; split; eauto
       |by rewrite lookup_insert_ne, lookup_delete_ne]].
Qed.

End Step2.
Section Step3.
Context (libdir : string) (version : Version).

Lemma cleaned_up libname soname (d1 d' : gmap string Dir.node) :
  (∀ k, d' !! k
        = if bool_decide (k ∈ List.filter (same_stem libname) (Dir.listing d1)
                          ∧ k ≠ soname)
          then None else d1 !! k) →
  (∀ n, n ∈ Dir.listing d' → same_stem libname n = true → n = soname)
  ∧ d' !! soname = d1 !! soname
  ∧ ∀ n, same_stem libname n = false → d' !! n = d1 !! n.
Proof.
  intros Hd'. split_and!.
  - intros n [Hn Hslash]%elem_of_listing Hstem.
    destruct (decide (n = soname)) as [|Hne]; [done|exfalso].
    rewrite Hd' in Hn. case_bool_decide as Hin; [by destruct Hn as [? [=]]|].
    apply Hin. split; [|done].
    rewrite list_elem_of_In, filter_In, <- list_elem_of_In.
    split; [|done]. by apply elem_of_listing.
  - rewrite Hd'. rewrite bool_decide_eq_false_2; [done|]. by intros [_ []].
  - intros n Hstem. rewrite Hd'. rewrite bool_decide_eq_false_2; [done|].
    rewrite list_elem_of_In, filter_In. intros [[_ Hn] _]. congruence.
Qed.

Lemma list_and_cleanup item soname (d1 d' : gmap string Dir.node) :
  item ∈ lib_rows →
  Py.startswith soname "/" = false →
  (names <- os_listdir (FileSystem := Dir.D_fs libdir) libdir ;;
   cleanup libdir (Py.path_join libdir [soname])
           (List.filter (same_stem item.1) names)) d1 = (Ok tt, d') →
  ∀ k, d' !! k
       = if bool_decide (k ∈ List.filter (same_stem item.1) (Dir.listing d1)
                         ∧ k ≠ soname)
         then None else d1 !! k.
Proof.
  intros Hrow Hso. cbn [bind Dir.D_monad os_listdir Dir.D_fs]. unfold Dir.listdir.
  rewrite String.eqb_refl. apply cleanup_ok; [|done].
  apply Forall_forall. intros n Hn. apply list_elem_of_In, filter_In in Hn as [_ Hstem].
  by eapply stem_no_slash_start.
Qed.

Lemma normalize_lib_ok item (d d' : gmap string Dir.node) :
  item ∈ lib_rows →
  normalize_lib_dir libdir version item d = (Ok tt, d') →
  normalized version item d'
  ∧ ∀ n, same_stem item.1 n = false → (is_Some (d' !! n) ↔ is_Some (d !! n)).
Proof.
  intros Hrow.
  destruct (row_names version item Hrow) as (Hreal_stem & Hso_stem & Hreal & Hso).
  pose proof (list_and_cleanup item) as Htail.
  revert Hreal_stem Hso_stem Hreal Hso Htail.
  unfold normalized, soname_name, real_name, normalize_lib_dir, normalize_lib.
  destruct item as [libname libformat]. cbn [fst snd].
  destruct (getVersions version libname) as [short_version major]. cbn [fst snd].
  destruct (String.eqb_spec libname "libLLVM") as [HLL|HLL].
  - intros Hreal_stem _ Hreal _ Htail Hrun.
    pose proof (Htail _ d d' Hrow Hreal Hrun) as Hd'.
    apply cleaned_up in Hd' as (Hone & Hkeep & Hframe).
    split_and!; [done|done|]. intros n Hn. by rewrite Hframe.
  - intros Hreal_stem Hso_stem Hreal Hso Htail.
    cbn [bind ret raise Dir.D_monad os_path_isfile os_path_islink shutil_move Dir.D_fs].
    unfold Dir.isfile, Dir.islink. rewrite !entry_child by done.
    destruct (Dir.stat d (Py.format libformat short_version))
      as [[m [|target|children]]|] eqn:Hstat; cbn [negb]; try done.
    destruct (d !! Py.format libformat major) as [[|target|children]|] eqn:Hlink;
      cbn [negb]; try done.
    destruct (Dir.move libdir _ _ d) as [[[]|e] d1] eqn:Hmove; [|done].
    apply move_ok in Hmove as [Hthere Hmoved]; [|done|done|by eauto].
    intros Hrun. pose proof (Htail _ d1 d' Hrow Hso Hrun) as Hd'.
    apply cleaned_up in Hd' as (Hone & Hkeep & Hframe).
    split_and!; [done|intros _; by rewrite Hkeep|].
    intros n Hn. rewrite Hframe by done. apply Hmoved; intros ->; congruence.
Qed.

End Step3.
Section Run.
Context (libdir : string) (version : Version).

Lemma normalize_lib_checks item (d : gmap string Dir.node) :
  item ∈ lib_rows → item.1 ≠ "libLLVM" →
  let real_lib := Py.path_join libdir [real_name version item] in
  let soname_lib := Py.path_join libdir [soname_name version item] in
  ((Dir.isfile libdir real_lib d).1 = Ok false →
   normalize_lib_dir libdir version item d
   = (Raise (RuntimeError (real_lib +:+ " must be a regular file")), d))
  ∧ ((Dir.isfile libdir real_lib d).1 = Ok true →
     (Dir.islink libdir soname_lib d).1 = Ok false →
     normalize_lib_dir libdir version item d
     = (Raise (RuntimeError (soname_lib +:+ " must be a symlink")), d)).
Proof.
  intros Hrow HLL.
  unfold soname_name, real_name, normalize_lib_dir, normalize_lib.
  destruct item as [libname libformat]. cbn [fst snd] in *.
  destruct (getVersions version libname) as [short_version major]. cbn [fst snd].
  destruct (String.eqb_spec libname "libLLVM") as [|_]; [done|].
  cbn [bind ret raise Dir.D_monad os_path_isfile os_path_islink shutil_move Dir.D_fs].
  cbv zeta. unfold Dir.isfile, Dir.islink.
  cbv beta iota delta [fst]. split.
  - match goal with |- Ok ?b = Ok false → _ => by destruct b end.
  - match goal with |- Ok ?b = Ok true → _ => destruct b; [|done] end.
    cbv beta iota delta [negb].
    match goal with |- _ → Ok ?b = Ok false → _ => by destruct b end.
Qed.

Lemma normalized_step x y (d d' : gmap string Dir.node) :
  x ∈ lib_rows → y ∈ lib_rows → y.1 ≠ x.1 →
  normalize_lib_dir libdir version y d = (Ok tt, d') →
  normalized version x d → normalized version x d'.
Proof.
  intros Hx Hy Hne Hrun [Hone Hthere].
  apply normalize_lib_ok in Hrun as [_ Hframe]; [|done].
  destruct (row_names version x Hx) as (_ & Hso_stem & _ & _).
  split.
  - intros n [Hn Hslash]%elem_of_listing Hstem. apply Hone; [|done].
    apply elem_of_listing. split; [|done]. apply Hframe; [|done].
    by apply (stems_disjoint x y).
  - intros HLL. apply Hframe; [|by apply Hthere].
    by apply (stems_disjoint x y).
Qed.

Lemma normalized_preserved x items (d d' : gmap string Dir.node) :
  x ∈ lib_rows →
  (∀ y, y ∈ items → y ∈ lib_rows ∧ y.1 ≠ x.1) →
  for_each items (normalize_lib_dir libdir version) d = (Ok tt, d') →
  normalized version x d → normalized version x d'.
Proof.
  intros Hx. revert d. induction items as [|y items IH]; intros d Hitems.
  - by intros [= <-].
  - cbn [for_each bind Dir.D_monad].
    destruct (normalize_lib_dir libdir version y d) as [[[]|e] d1] eqn:Hstep; [|done].
    intros Hrun Hnorm. apply (IH d1); [|done|].
    + intros z Hz. apply Hitems. by right.
    + destruct (Hitems y) as [Hy Hne]; [left|]. by eapply normalized_step.
Qed.

Lemma normalize_items_ok items (d d' : gmap string Dir.node) :
  (∀ item, item ∈ items → item ∈ lib_rows) →
  (∀ k v1 v2, (k, v1) ∈ items → (k, v2) ∈ items → v1 = v2) →
  for_each items (normalize_lib_dir libdir version) d = (Ok tt, d') →
  ∀ item, item ∈ items → normalized version item d'.
Proof.
  revert d. induction items as [|x items IH]; intros d Hrows Hfun.
  - intros _ item []%elem_of_nil.
  - cbn [for_each bind Dir.D_monad].
    destruct (normalize_lib_dir libdir version x d) as [[[]|e] d1] eqn:Hstep; [|done].
    intros Hrun item Hitem.
    destruct (decide (item ∈ items)) as [Hin|Hnotin].
    + apply (IH d1); [| |done..].
      * intros z Hz. apply Hrows. by right.
      * intros k v1 v2 H1 H2. apply (Hfun k); by right.
    + apply elem_of_cons in Hitem as [->|]; [|done].
      apply (normalized_preserved x items d1); [apply Hrows; left| |done|].
      * intros y Hy. split; [apply Hrows; by right|].
        intros Heq. apply Hnotin. destruct x as [k v], y as [k' v'].
        cbn in Heq. subst k'.
        rewrite (Hfun k v v'); [done|left|by right].
      * apply normalize_lib_ok in Hstep as [Hnorm _]; [done|]. apply Hrows. left.
Qed.

End Run.




(** The same in whatever order the table is walked: when the versioned
    file of the library checked last is missing, the run ends with an
    error and the directory has changed. *)
Lemma normalize_no_rollback_any_order (items : list (string * string)) :
  items ≡ₚ map_to_list (host_libs "linux-x86") → no_rollback items = true.
Proof.
  intros Hperm. symmetry in Hperm.
  apply permutations_Permutation, list_elem_of_In in Hperm. revert items Hperm.
  apply (proj1 (forallb_forall no_rollback _)). vm_compute. reflexivity.
Qed.

(** * The steps of a build *)

Ltac trace_eq :=
  rewrite <- ?app_assoc; cbn [app]; rewrite <- ?app_assoc; reflexivity.

Lemma bind_run {A B} (m : T A) (k : A → T B) t :
  bind m k t = match m t with
               | (Ok a, t1) => k a t1
               | (Raise e, t1) => (Raise e, t1)
               end.
Proof. reflexivity. Qed.

Lemma calls_app t s : calls (t ++ s) = calls t ++ calls s.
Proof. apply omap_app. Qed.

Lemma copies_app t s : copies (t ++ s) = copies t ++ copies s.
Proof. apply omap_app. Qed.

Lemma removed_app t s : removed (t ++ s) = removed t ++ removed s.
Proof. apply omap_app. Qed.

Lemma writes_app t s : writes (t ++ s) = writes t ++ writes s.
Proof. apply omap_app. Qed.

Lemma texts_read_app t s : texts_read (t ++ s) = texts_read t ++ texts_read s.
Proof. apply omap_app. Qed.

Lemma calls_check_call time cmd cwd env ok :
  calls [ENow time; ELog INFO "check_call:%s %s" [LStr time; LCmd cmd];
         EAct (CheckCall cmd cwd env) ok]
  = [(CheckCall cmd cwd env, ok)].
Proof. reflexivity. Qed.

Section Steps.
Context (hst : Host) (orc : Oracle).

Lemma bind_listdir {B} p (k : list string → T B) t :
  bind (listdir orc p) k t
  = match o_listdir orc t p with
    | Some l => k l (t ++ [EListdir p (Some l)])
    | None => (Raise (ReadError p), t ++ [EListdir p None])
    end.
Proof. cbn. unfold T_bind, listdir. by destruct (o_listdir orc t p). Qed.

Lemma act_Ok (a : action) t t' :
  act orc a t = (Ok tt, t') → t' = t ++ [EAct a true].
Proof. unfold act. destruct (o_act orc t a); [|discriminate]. by intros [= <-]. Qed.

Lemma when_act_Ok (c : bool) (a : action) t t' :
  when c (act orc a) t = (Ok tt, t') → t' = t ++ (if c then [EAct a true] else []).
Proof.
  destruct c; cbn.
  - apply act_Ok.
  - intros [= <-]. by rewrite app_nil_r.
Qed.

(** One subprocess: the echo, then the call *)
Lemma check_call_run cmd cwd env t :
  ∃ (time : string) (ok : bool),
    check_call orc cmd cwd env t
    = (if ok then Ok tt else Raise (CalledProcessError cmd),
       t ++ [ENow time; ELog INFO "check_call:%s %s" [LStr time; LCmd cmd];
             EAct (CheckCall cmd cwd env) ok]).
Proof.
  unfold check_call. cbn. unfold T_bind, now, log, act. cbn.
  do 2 eexists. rewrite <- !app_assoc. cbn. reflexivity.
Qed.

Lemma check_create_path_run path t :
  ∃ r s, check_create_path orc path t = (r, t ++ s) ∧ calls s = []
    ∧ (r = Ok tt
       ∨ (∃ a, r = Raise (exn_of_action a) ∧ last s = Some (EAct a false))).
Proof.
  unfold check_create_path. cbn. unfold T_bind, ask, act. cbn.
  destruct (o_ask orc t (Exists path)); cbn.
  - exists (Ok tt), [EAsk (Exists path) true]. split_and!; [reflexivity|reflexivity|by left].
  - destruct (o_act orc _ _); cbn; rewrite <- app_assoc; cbn.
    + do 2 eexists. split_and!; [reflexivity|reflexivity|by left].
    + do 2 eexists. split_and!; [reflexivity|reflexivity|right].
      exists (Makedirs path). split; reflexivity.
Qed.

(** X1: [invoke_cmake] runs, in the build directory and with the given
    environment, the configure step, then the build step (of the target,
    if one is given), then the install step if [install] is set, and
    nothing else; a step that fails is the last thing it does, and its
    error is raised; when it returns, every step has run with exit status
    0. *)
Theorem invoke_cmake_steps (out_path : string) (defines env : gmap string string)
    (cmake_path : string) (target : option string) (install : bool) (t : trace) :
  let r := invoke_cmake hst orc out_path defines env cmake_path target install t in
  let step argv := CheckCall argv (Some out_path) (Some env) in
  let steps :=
    [step ([cmake_bin_path hst] ++ cmake_flags hst defines cmake_path);
     step ([ninja_bin_path hst]
           ++ match target with
              | Some tg => if String.eqb tg "" then [] else [tg]
              | None => []
              end)]
    ++ (if install then [step [ninja_bin_path hst; "install"]] else []) in
  ∃ s, r.2 = t ++ s
    ∧ (∃ n, (calls s).*1 = take n steps)
    ∧ (r.1 = Ok tt → calls s = map (λ a, (a, true)) steps)
    ∧ (∀ a, (a, false) ∈ calls s →
         r.1 = Raise (exn_of_action a) ∧ last s = Some (EAct a false)).
Proof.
  intros r step steps.
  assert ((if Py.truthy target then [default "" target] else [])
          = match target with
            | Some tg => if String.eqb tg "" then [] else [tg]
            | None => []
            end) as Htarget.
  { destruct target as [tg|]; [|done]. cbn. by destruct (String.eqb tg ""). }
  set (tgt := match target with Some _ => _ | None => _ end) in *.
  subst r. destruct (invoke_cmake _ _ _ _ _ _ _ _ _) as [res t'] eqn:Hrun.
  cbn [fst snd].
  unfold invoke_cmake in Hrun. cbv zeta in Hrun. rewrite Htarget in Hrun.
  cbn [bind T_monad] in Hrun. unfold T_bind at 1 in Hrun.
  destruct (check_create_path_run out_path t) as (r0 & s0 & Hrun0 & Hc0 & Hr0).
  rewrite Hrun0 in Hrun.
  destruct Hr0 as [->|(a & -> & Hlast)].
  2:{ injection Hrun as <- <-. exists s0. rewrite Hc0.
      split_and!; [done|by exists 0|done|]. intros a' []%elem_of_nil. }
  unfold T_bind at 1 in Hrun.
  destruct (check_call_run ([cmake_bin_path hst] ++ cmake_flags hst defines cmake_path)
              (Some out_path) (Some env) (t ++ s0)) as (time1 & ok1 & Hrun1).
  rewrite Hrun1 in Hrun. clear Hrun1.
  destruct ok1.
  2:{ injection Hrun as <- <-. eexists. rewrite <- app_assoc. split; [reflexivity|].
      rewrite calls_app, Hc0, calls_check_call. cbn [app fmap list_fmap fst].
      split_and!.
      - by exists 1.
      - done.
      - intros a [= ->]%list_elem_of_singleton. split; [reflexivity|].
        cbn [app]. by rewrite last_app_cons. }
  unfold T_bind at 1 in Hrun.
  match type of Hrun with context [check_call orc ?c ?w ?e ?t0] =>
    destruct (check_call_run c w e t0) as (time2 & ok2 & Hrun2) end.
  rewrite Hrun2 in Hrun. clear Hrun2.
  destruct ok2.
  2:{ injection Hrun as <- <-. eexists. rewrite <- !app_assoc. split; [reflexivity|].
      rewrite !calls_app, Hc0, !calls_check_call. cbn [app fmap list_fmap fst].
      split_and!.
      - by exists 2.
      - done.
      - intros a. rewrite elem_of_cons, list_elem_of_singleton. intros [[=]|[= ->]].
        split; [reflexivity|]. cbn [app]. by rewrite last_app_cons. }
  destruct install; cbn [when] in Hrun.
  - match type of Hrun with context [check_call orc ?c ?w ?e ?t0] =>
      destruct (check_call_run c w e t0) as (time3 & ok3 & Hrun3) end.
    rewrite Hrun3 in Hrun. clear Hrun3. injection Hrun as <- <-.
    eexists. rewrite <- !app_assoc. split; [reflexivity|].
    rewrite !calls_app, Hc0, !calls_check_call. cbn [app fmap list_fmap fst].
    split_and!.
    + by exists 3.
    + by destruct ok3.
    + intros a. rewrite !elem_of_cons, elem_of_nil. intros [[=]|[[=]|[[= -> <-]|[]]]].
      split; [reflexivity|]. cbn [app]. by rewrite last_app_cons.
  - injection Hrun as <- <-.
    eexists. rewrite <- !app_assoc. split; [reflexivity|].
    rewrite !calls_app, Hc0, !calls_check_call. cbn [app fmap list_fmap fst].
    split_and!.
    + by exists 2.
    + done.
    + intros a. rewrite !elem_of_cons, elem_of_nil. intros [[=]|[[=]|[]]].
Qed.

(** X2: the command line of the configure step starts with the generator
    and the prefix path and ends with the source directory; between them
    it has one [-D<key>=<value>] for each define, and nothing more. *)
Theorem cmake_flags_defines (defines : gmap string string) (cmake_path : string) :
  iteritems hst defines ≡ₚ map_to_list defines →
  let flags := cmake_flags hst defines cmake_path in
  (∀ key value, defines !! key = Some value →
     "-D" +:+ key +:+ "=" +:+ value ∈ flags)
  ∧ length flags = size defines + 4
  ∧ take 3 flags = ["-G"; "Ninja"; "-DCMAKE_PREFIX_PATH=" +:+ cmake_prebuilt_bin_dir hst]
  ∧ last flags = Some cmake_path
  ∧ (defines = ∅ →
     flags = ["-G"; "Ninja"; "-DCMAKE_PREFIX_PATH=" +:+ cmake_prebuilt_bin_dir hst;
              cmake_path]).
Proof.
  intros Hperm flags. unfold flags, cmake_flags. split_and!.
  - intros key value Hkv. rewrite !elem_of_app. right. right. left.
    apply (list_elem_of_fmap_2' _ _ (key, value)); [|done].
    rewrite Hperm. by apply elem_of_map_to_list.
  - rewrite !length_app, length_map, Hperm, length_map_to_list. cbn. lia.
  - reflexivity.
  - rewrite !app_assoc. apply last_snoc.
  - intros ->. apply Permutation_length in Hperm.
    rewrite map_to_list_empty in Hperm. destruct (iteritems hst ∅); [done|discriminate].
Qed.

Lemma rm_cmake_cache_loop (l : list (string * list string * list string)) :
  emits (cache_removal l) (λ _, True)
    (for_each l (λ '(dirpath, dirs, files),
       when (bool_decide ("CMakeCache.txt" ∈ files))
            (act orc (OsRemove (Py.path_join dirpath ["CMakeCache.txt"]))) ;;
       when (bool_decide ("CMakeFiles" ∈ dirs))
            (act orc (UtilsRmTree (Py.path_join dirpath ["CMakeFiles"]))))).
Proof.
  apply emits_for_each. intros [[dirpath dirs] files] Hin.
  apply emits_bind; [|intros _]; apply emits_when; intros Hc%bool_decide_eq_true;
    (apply emits_act; [intros ok|exact I]); cbn; by exists dirpath, dirs, files.
Qed.

Lemma rm_cmake_cache_loop_ok (l : list (string * list string * list string)) t t' :
  for_each l (λ '(dirpath, dirs, files),
       when (bool_decide ("CMakeCache.txt" ∈ files))
            (act orc (OsRemove (Py.path_join dirpath ["CMakeCache.txt"]))) ;;
       when (bool_decide ("CMakeFiles" ∈ dirs))
            (act orc (UtilsRmTree (Py.path_join dirpath ["CMakeFiles"])))) t
  = (Ok tt, t') →
  ∃ s, t' = t ++ s
    ∧ ∀ dirpath dirs files, (dirpath, dirs, files) ∈ l →
        ("CMakeCache.txt" ∈ files →
         EAct (OsRemove (Py.path_join dirpath ["CMakeCache.txt"])) true ∈ s)
        ∧ ("CMakeFiles" ∈ dirs →
           EAct (UtilsRmTree (Py.path_join dirpath ["CMakeFiles"])) true ∈ s).
Proof.
  revert t. induction l as [|[[dirpath dirs] files] l IH]; intros t; cbn [for_each].
  - intros [= <-]. exists []. rewrite app_nil_r. split; [done|].
    intros ? ? ? []%elem_of_nil.
  - intros Hrun. apply bind_Ok_inv in Hrun as ([] & t1 & Hx & Hrun).
    apply bind_Ok_inv in Hx as ([] & t0 & Hx1 & Hx2).
    apply when_act_Ok in Hx1, Hx2. subst t0 t1.
    destruct (IH _ Hrun) as (s & -> & Hs).
    eexists. rewrite <- !app_assoc. split; [reflexivity|].
    intros dirpath' dirs' files' [[= -> -> ->]|Hin]%elem_of_cons.
    + split; intros Hc.
      * rewrite bool_decide_eq_true_2 by done. rewrite !elem_of_app.
        left. by apply list_elem_of_singleton.
      * rewrite (bool_decide_eq_true_2 ("CMakeFiles" ∈ dirs)) by done.
        rewrite !elem_of_app. right. left. by apply list_elem_of_singleton.
    + destruct (Hs _ _ _ Hin) as [H1 H2].
      split; intros Hc; rewrite !elem_of_app; right; right; auto.
Qed.

(** X3: [rm_cmake_cache] removes nothing but the [CMakeCache.txt] files
    and the [CMakeFiles] directories that the walk of the directory
    yields; when it returns, it has removed every one of them; a walk that
    yields nothing (the directory is not there) is no error. *)
Theorem rm_cmake_cache_removes (dir : string) (t : trace) :
  let triples := o_walk orc t dir in
  let r := rm_cmake_cache orc dir t in
  ∃ s, r.2 = t ++ EWalk dir triples :: s
    ∧ Forall (cache_removal triples) s
    ∧ (r.1 = Ok tt →
       ∀ dirpath dirs files, (dirpath, dirs, files) ∈ triples →
         ("CMakeCache.txt" ∈ files →
          EAct (OsRemove (Py.path_join dirpath ["CMakeCache.txt"])) true ∈ s)
         ∧ ("CMakeFiles" ∈ dirs →
            EAct (UtilsRmTree (Py.path_join dirpath ["CMakeFiles"])) true ∈ s))
    ∧ (triples = [] → s = [] ∧ r.1 = Ok tt).
Proof.
  intros triples r. subst r.
  destruct (rm_cmake_cache orc dir t) as [res t'] eqn:Hrun. cbn [fst snd].
  unfold rm_cmake_cache in Hrun.
  lazymatch type of Hrun with
  | bind (walk _ _) ?k _ = _ =>
      change (k triples (t ++ [EWalk dir triples]) = (res, t')) in Hrun
  end.
  cbv beta in Hrun.
  destruct (rm_cmake_cache_loop triples (t ++ [EWalk dir triples])) as (s & Hs & Hall & _).
  rewrite Hrun in Hs. cbn [snd] in Hs. subst t'.
  exists s. rewrite <- app_assoc. split_and!; [done|done| |].
  - intros ->.
    apply rm_cmake_cache_loop_ok in Hrun as (s' & Heq & Hs').
    apply app_inv_head in Heq. by subst s'.
  - intros Hnil. rewrite Hnil in Hrun. cbn [for_each ret T_monad T_ret] in Hrun.
    injection Hrun as <- Heq. split; [|done].
    rewrite <- (app_nil_r (t ++ [EWalk dir []])) in Heq at 1.
    apply app_inv_head in Heq. done.
Qed.

End Steps.

Lemma cmake_flags_defines_witness :
  let defines : gmap string string := {["CMAKE_BUILD_TYPE" := "Debug"]} in
  "-DCMAKE_BUILD_TYPE=Debug" ∈ cmake_flags ex_host defines "/src/toolchain/llvm"
  ∧ length (cmake_flags ex_host defines "/src/toolchain/llvm") = 5.
Proof.
  intros defines.
  destruct (cmake_flags_defines ex_host defines "/src/toolchain/llvm") as (Hin & Hlen & _).
  { reflexivity. }
  split.
  - apply (Hin "CMAKE_BUILD_TYPE" "Debug"). reflexivity.
  - exact Hlen.
Defined.

(** * What comes right before a step *)


Section Chained.
Context (orc : Oracle) (G : option event → event → Prop).

Lemma chained_app prev s1 s2 :
  chained G prev s1 → (∀ prev', chained G prev' s2) → chained G prev (s1 ++ s2).
Proof.
  revert prev. induction s1 as [|e s1 IH]; intros prev; cbn; [auto|].
  intros [He Hs1] Hs2. split; [done|]. by apply IH.
Qed.

Lemma chained_each_after s : chained G None s → each_after G s.
Proof.
  assert (∀ prev, chained G prev s → ∀ t1 e t2, s = t1 ++ e :: t2 →
            G (match last t1 with Some x => Some x | None => prev end) e) as Hgen.
  { induction s as [|x s IH]; intros prev Hs t1 e t2 Heq.
    - by destruct t1.
    - destruct Hs as [Hx Hs]. destruct t1 as [|y t1]; cbn in Heq.
      + injection Heq as <- <-. exact Hx.
      + injection Heq as <- ->. specialize (IH (Some x) Hs t1 e t2 eq_refl).
        destruct t1 as [|z t1]; [exact IH|].
        rewrite last_cons_cons.
        destruct (proj2 (last_is_Some (z :: t1))) as [w Hw]; [done|].
        rewrite Hw in *. exact IH. }
  intros Hs t1 e t2 Heq. specialize (Hgen None Hs t1 e t2 Heq).
  by destruct (last t1).
Qed.

Lemma follows_each_after {A} (m : T A) :
  follows G m → each_after G (m []).2.
Proof.
  intros Hm. destruct (Hm []) as (s & Hs & Hch). change ([] ++ s) with s in Hs.
  rewrite Hs. by apply chained_each_after.
Qed.

Lemma follows_weaken {A} e (m : T A) : follows G m → follows_after G e m.
Proof. intros Hm t. destruct (Hm t) as (s & ? & ?). eauto. Qed.

Lemma follows_ret {A} (a : A) : follows G (ret a).
Proof. intros t. exists []. by rewrite app_nil_r. Qed.

Lemma follows_raise {A} (e : exn) : follows G (raise (A:=A) e).
Proof. intros t. exists []. by rewrite app_nil_r. Qed.

Lemma follows_bind {A B} (m : T A) (k : A → T B) :
  follows G m → (∀ a, follows G (k a)) → follows G (bind m k).
Proof.
  intros Hm Hk t. destruct (Hm t) as (s1 & Ht & Hs1).
  cbn. unfold T_bind. destruct (m t) as [[a|e] t1]; cbn in *; subst t1.
  - destruct (Hk a (t ++ s1)) as (s2 & Ht2 & Hs2).
    exists (s1 ++ s2). rewrite Ht2, app_assoc. split; [done|].
    intros prev. by apply chained_app.
  - by exists s1.
Qed.

Lemma follows_after_bind {A B} e (m : T A) (k : A → T B) :
  follows_after G e m → (∀ a, follows G (k a)) → follows_after G e (bind m k).
Proof.
  intros Hm Hk t. destruct (Hm t) as (s1 & Ht & Hs1).
  cbn. unfold T_bind. destruct (m t) as [[a|x] t1]; cbn in *; subst t1.
  - destruct (Hk a (t ++ s1)) as (s2 & Ht2 & Hs2).
    exists (s1 ++ s2). rewrite Ht2, app_assoc. split; [done|].
    by apply chained_app.
  - by exists s1.
Qed.

(** A single event, and what may come right after it *)
Lemma follows_event_bind {A B} (m : T A) (k : A → T B) (ev : trace → event) :
  (∀ t, (m t).2 = t ++ [ev t]) →
  (∀ prev t, G prev (ev t)) →
  (∀ a t, (m t).1 = Ok a → follows_after G (ev t) (k a)) →
  follows G (bind m k).
Proof.
  intros Hm Hev Hk t. cbn. unfold T_bind.
  specialize (Hm t). destruct (m t) as [[a|x] t1] eqn:Hmt; cbn in *; subst t1.
  - assert ((m t).1 = Ok a) as Hok by (by rewrite Hmt).
    destruct (Hk a t Hok (t ++ [ev t])) as (s2 & Hs2 & Hch2).
    exists (ev t :: s2). rewrite Hs2, <- app_assoc. split; [done|].
    intros prev. cbn. split; [apply Hev|done].
  - exists [ev t]. split; [done|]. intros prev. cbn. split; [apply Hev|done].
Qed.

Lemma follows_ask_bind {B} (q : query) (k : bool → T B) :
  (∀ prev b, G prev (EAsk q b)) →
  (∀ b, follows_after G (EAsk q b) (k b)) →
  follows G (bind (ask orc q) k).
Proof.
  intros HG Hk. apply (follows_event_bind _ _ (λ t, EAsk q (o_ask orc t q))).
  - done.
  - intros; apply HG.
  - intros a t [= <-]. apply Hk.
Qed.

Lemma follows_log_bind {B} lvl fmt args (k : unit → T B) :
  (∀ prev, G prev (ELog lvl fmt args)) →
  follows_after G (ELog lvl fmt args) (k tt) →
  follows G (bind (log lvl fmt args) k).
Proof.
  intros HG Hk. apply (follows_event_bind _ _ (λ t, ELog lvl fmt args)).
  - done.
  - intros; apply HG.
  - intros [] t _. apply Hk.
Qed.

Lemma follows_single {A} (m : T A) (ev : trace → event) :
  (∀ t, (m t).2 = t ++ [ev t]) → (∀ prev t, G prev (ev t)) → follows G m.
Proof.
  intros Hm Hev t. exists [ev t]. split; [apply Hm|]. intros prev. cbn. auto.
Qed.

Lemma follows_act (a : action) : (∀ prev ok, G prev (EAct a ok)) → follows G (act orc a).
Proof. intros HG. by apply (follows_single _ (λ t, EAct a (o_act orc t a))). Qed.

Lemma follows_ask (q : query) : (∀ prev b, G prev (EAsk q b)) → follows G (ask orc q).
Proof. intros HG. by apply (follows_single _ (λ t, EAsk q (o_ask orc t q))). Qed.

Lemma follows_listdir p : (∀ prev r, G prev (EListdir p r)) → follows G (listdir orc p).
Proof. intros HG. by apply (follows_single _ (λ t, EListdir p (o_listdir orc t p))). Qed.

Lemma follows_glob p : (∀ prev r, G prev (EGlob p r)) → follows G (glob orc p).
Proof. intros HG. by apply (follows_single _ (λ t, EGlob p (o_glob orc t p))). Qed.

Lemma follows_walk p : (∀ prev r, G prev (EWalk p r)) → follows G (walk orc p).
Proof. intros HG. by apply (follows_single _ (λ t, EWalk p (o_walk orc t p))). Qed.

Lemma follows_read_version p :
  (∀ prev r, G prev (EVersion p r)) → follows G (read_version orc p).
Proof. intros HG. by apply (follows_single _ (λ t, EVersion p (o_version orc t p))). Qed.

Lemma follows_read_file p :
  (∀ prev r, G prev (EReadFile p r)) → follows G (read_file orc p).
Proof. intros HG. by apply (follows_single _ (λ t, EReadFile p (o_read orc t p))). Qed.

Lemma follows_now : (∀ prev r, G prev (ENow r)) → follows G (now orc).
Proof. intros HG. by apply (follows_single _ (λ t, ENow (o_now orc t))). Qed.

Lemma follows_log lvl fmt args :
  (∀ prev, G prev (ELog lvl fmt args)) → follows G (log lvl fmt args).
Proof. intros HG. by apply (follows_single _ (λ t, ELog lvl fmt args)). Qed.

Lemma follows_after_act e (a : action) :
  (∀ ok, G (Some e) (EAct a ok)) → follows_after G e (act orc a).
Proof.
  intros HG t. exists [EAct a (o_act orc t a)]. split; [done|]. cbn. auto.
Qed.

Lemma follows_when (c : bool) (body : T unit) :
  (c = true → follows G body) → follows G (when c body).
Proof. destruct c; cbn; [auto|intros _; apply follows_ret]. Qed.

Lemma follows_after_when e (c : bool) (body : T unit) :
  (c = true → follows_after G e body) → follows_after G e (when c body).
Proof.
  destruct c; cbn; [auto|intros _; apply follows_weaken, follows_ret].
Qed.

Lemma follows_for_each {A} (l : list A) (body : A → T unit) :
  (∀ x, x ∈ l → follows G (body x)) → follows G (for_each l body).
Proof.
  induction l as [|x l IH]; intros Hb; cbn [for_each]; [apply follows_ret|].
  apply follows_bind; [apply Hb; left|intros _].
  apply IH. intros y Hy. apply Hb. by right.
Qed.

Lemma follows_collect {A B} (l : list A) (body : A → T (list B)) :
  (∀ x, x ∈ l → follows G (body x)) → follows G (collect l body).
Proof.
  induction l as [|x l IH]; intros Hb; cbn [collect]; [apply follows_ret|].
  apply follows_bind; [apply Hb; left|intros r].
  apply follows_bind; [|intros rs; apply follows_ret].
  apply IH. intros y Hy. apply Hb. by right.
Qed.

End Chained.

Ltac follows_step unf :=
  cbv beta zeta;
  lazymatch goal with
  | |- follows _ (bind (ask _ _) _) => apply follows_ask_bind; [intros ? ?|intros ?]
  | |- follows _ (bind (os_path_isfile _) _) => apply follows_ask_bind; [intros ? ?|intros ?]
  | |- follows _ (bind (os_path_islink _) _) => apply follows_ask_bind; [intros ? ?|intros ?]
  | |- follows _ (bind (log _ _ _) _) => apply follows_log_bind; [intros ?|]
  | |- follows _ (bind (logger_debug _ _) _) => apply follows_log_bind; [intros ?|]
  | |- follows _ (bind _ _) => apply follows_bind; [|intros ?]
  | |- follows _ (ret _) => apply follows_ret
  | |- follows _ (raise _) => apply follows_raise
  | |- follows _ (when _ _) =>
      apply follows_when;
      let Hc := fresh "Hc" in
      intros Hc; cbn [negb andb orb] in Hc; try discriminate Hc
  | |- follows _ (for_each _ _) => apply follows_for_each; intros ? ?
  | |- follows _ (collect _ _) => apply follows_collect; intros ? ?
  | |- follows _ (act _ _) => apply follows_act; intros ? ?
  | |- follows _ (ask _ _) => apply follows_ask; intros ? ?
  | |- follows _ (listdir _ _) => apply follows_listdir; intros ? ?
  | |- follows _ (glob _ _) => apply follows_glob; intros ? ?
  | |- follows _ (walk _ _) => apply follows_walk; intros ? ?
  | |- follows _ (read_version _ _) => apply follows_read_version; intros ? ?
  | |- follows _ (read_file _ _) => apply follows_read_file; intros ? ?
  | |- follows _ (now _) => apply follows_now; intros ? ?
  | |- follows _ (log _ _ _) => apply follows_log; intros ?
  | |- follows _ (os_listdir _) => apply follows_listdir; intros ? ?
  | |- follows _ (os_remove _) => apply follows_act; intros ? ?
  | |- follows _ (shutil_move _ _) => apply follows_act; intros ? ?
  | |- follows _ (logger_debug _ _) => apply follows_log; intros ?
  | |- follows _ (match ?x with _ => _ end) => destruct x
  | |- follows_after _ _ (bind (ask _ _) _) => apply follows_weaken
  | |- follows_after _ _ (bind (os_path_isfile _) _) => apply follows_weaken
  | |- follows_after _ _ (bind (os_path_islink _) _) => apply follows_weaken
  | |- follows_after _ _ (bind (log _ _ _) _) => apply follows_weaken
  | |- follows_after _ _ (bind (logger_debug _ _) _) => apply follows_weaken
  | |- follows_after _ _ (bind _ _) => apply follows_after_bind; [|intros ?]
  | |- follows_after _ _ (when _ _) =>
      apply follows_after_when;
      let Hc := fresh "Hc" in
      intros Hc; cbn [negb andb orb] in Hc; try discriminate Hc
  | |- follows_after _ _ (act _ _) => apply follows_after_act; intros ?
  | |- follows_after _ _ (os_remove _) => apply follows_after_act; intros ?
  | |- follows_after _ _ (shutil_move _ _) => apply follows_after_act; intros ?
  | |- follows_after _ _ (match ?x with _ => _ end) => destruct x eqn:?
  | |- follows_after _ _ _ => apply follows_weaken
  | |- follows _ _ => progress unf
  end.

Ltac follows_walk_with leaf :=
  repeat (follows_step unfold_build);
  try (match goal with
       | |- follows _ _ => fail 1
       | |- follows_after _ _ _ => fail 1
       | |- _ => idtac
       end; leaf).

Ltac answer_known :=
  repeat match goal with
         | H : negb ?b = true |- _ => is_var b; destruct b; [discriminate H|clear H]
         | H : negb ?b = false |- _ => is_var b; destruct b; [clear H|discriminate H]
         | H : ?b = true |- _ => is_var b; subst b
         end.

Section Guards.
Context (hst : Host) (orc : Oracle).

(** X4: in a run of [main], a directory is created only right after a
    test has found that its path does not exist, an install tree is
    removed only right after a test has found it, and a file is renamed
    only right after a test has found that the new name is free (the
    wrappers) or is a symlink (the host libraries); the only other trees
    removed are the [CMakeFiles] directories of a walk. *)
Theorem main_tests_first (args : Args) :
  each_after tested_first (main hst orc args []).2.
Proof.
  apply follows_each_after.
  follows_walk_with ltac:(answer_known;
    first [exact I | reflexivity | by left | by right | right; by eexists]).
Qed.

(** X5: in a run of [main], every subprocess comes right after a log
    record, at level INFO, of the time and of the same command line. *)
Theorem main_echoes_first (args : Args) :
  each_after echoed_first (main hst orc args []).2.
Proof.
  apply follows_each_after.
  follows_walk_with ltac:(first [exact I | by eexists]).
Qed.

End Guards.

(** * Architectures, options and defines *)

Lemma eqb_dash_sym c : Ascii.eqb "-" c = Ascii.eqb c "-".
Proof. apply Ascii.eqb_sym. Qed.

Lemma contains_dash_cons c s :
  contains (String c s) "-" = Ascii.eqb c "-" || contains s "-".
Proof.
  cbn [contains Py.startswith]. rewrite eqb_dash_sym.
  destruct s; by rewrite andb_true_r.
Qed.

Lemma split_dash_head_no_dash s : contains (Py.split_dash_head s) "-" = false.
Proof.
  induction s as [|c s IH]; [done|]. cbn [Py.split_dash_head].
  destruct (Ascii.eqb c "-") eqn:Hc; [done|].
  by rewrite contains_dash_cons, Hc, IH.
Qed.

Lemma split_dash_head_id s : contains s "-" = false → Py.split_dash_head s = s.
Proof.
  induction s as [|c s IH]; [done|]. rewrite contains_dash_cons.
  intros [Hc Hs]%orb_false_iff. cbn [Py.split_dash_head]. rewrite Hc. by rewrite IH.
Qed.

Lemma split_dash_head_app arch rest :
  contains arch "-" = false → Py.split_dash_head (arch +:+ "-" +:+ rest) = arch.
Proof.
  induction arch as [|c s IH]; [done|]. rewrite contains_dash_cons.
  intros [Hc Hs]%orb_false_iff. rewrite append_String. cbn [Py.split_dash_head].
  rewrite Hc. by rewrite IH.
Qed.

Lemma arch_of_head head :
  contains head "-" = false →
  let arch := if String.eqb head "i686" then "i386" else head in
  contains arch "-" = false ∧ arch ≠ "i686".
Proof.
  intros Hh. cbv zeta. destruct (String.eqb_spec head "i686") as [->|Hne]; by split.
Qed.

(** X6: the architecture of a triple is what comes before its first
    dash, with [i686] turned into [i386]: it holds no dash and is never
    [i686], so that taking the architecture of an architecture changes
    nothing; a triple without a dash is its own architecture. *)
Theorem arch_from_triple_idempotent (triple : string) :
  arch_from_triple (arch_from_triple triple) = arch_from_triple triple
  ∧ arch_from_triple triple ≠ "i686"
  ∧ contains (arch_from_triple triple) "-" = false
  ∧ (∀ arch rest, contains arch "-" = false →
       arch_from_triple (arch +:+ "-" +:+ rest)
       = if String.eqb arch "i686" then "i386" else arch)
  ∧ (contains triple "-" = false →
       arch_from_triple triple = if String.eqb triple "i686" then "i386" else triple).
Proof.
  pose proof (arch_of_head _ (split_dash_head_no_dash triple)) as [Hdash Hne].
  cbv zeta in *. fold (arch_from_triple triple) in Hdash, Hne.
  split_and!; [|done|done| |].
  - unfold arch_from_triple at 1. rewrite (split_dash_head_id _ Hdash).
    by rewrite (proj2 (String.eqb_neq _ _) Hne).
  - intros arch rest Ha. unfold arch_from_triple. by rewrite split_dash_head_app.
  - intros Ht. unfold arch_from_triple. by rewrite split_dash_head_id.
Qed.

Ltac lookup_step :=
  lazymatch goal with
  | |- context [Py.update _ _ !! _] => rewrite lookup_update
  | |- context [(if _ then Py.assign _ _ else _) !! _] => rewrite lookup_if_assign
  | |- context [(if _ then <[_ := _]> _ else _) !! _] => rewrite lookup_if_insert
  | |- context [Py.assign _ _ !! _] => rewrite lookup_assign
  | |- context [<[_ := _]> _ !! _] => rewrite lookup_insert_eqb
  | |- context [@lookup _ _ (gmap _ _) _ _ ∅] => rewrite lookup_empty
  end;
  lazy beta iota delta [assigned String.eqb Ascii.eqb Bool.eqb andb].

Ltac lookup_fast := repeat lookup_step.

Section Configs.
Context (hst : Host) (orc : Oracle).

(** X7: in every configuration of the matrix the API level of the
    compiler flags is the one of the sysroot of the linker flags: 26 for
    a platform build, otherwise 14 for arm, i386 and mips and 21 for
    aarch64, x86_64 and mips64. *)
Theorem cross_compile_api_levels (stage2_install : string) (platform : bool) :
  Forall (λ row : config_row,
    let '(arch, ndk_arch, _, _, _) := row in
    let cfg := cross_compile_config hst stage2_install platform row in
    let api := android_api arch platform in
    "-D__ANDROID_API__=" +:+ api ∈ cfg_cflags cfg
    ∧ "--sysroot=" +:+ Py.path_join (ndk_base hst)
                         ["platforms"; "android-" +:+ api; "arch-" +:+ ndk_arch]
      ∈ ldflags_of hst platform row
    ∧ cfg_defines cfg !! "CMAKE_SYSROOT" = Some (Py.path_join (ndk_base hst) ["sysroot"])
    ∧ api = if platform then "26"
            else if bool_decide (arch ∈ ["arm"; "i386"; "mips"]) then "14" else "21")
    configs
  ∧ map (λ row : config_row, android_api row.1.1.1.1 false) configs
    = ["14"; "21"; "21"; "14"; "14"; "21"].
Proof.
  split; [|reflexivity].
  unfold configs.
  repeat apply Forall_cons_2; [..|apply Forall_nil_2]; cbv zeta; split_and!.
  all: try reflexivity.
  all: try (cbn [cross_compile_config cfg_cflags]; in_list).
  all: try (unfold ldflags_of, ndk_path; cbn [String.eqb Ascii.eqb Bool.eqb negb andb orb];
            rewrite ?elem_of_app, !elem_of_cons; tauto).
  all: cbn [cross_compile_config cfg_defines]; lookup_defines; reflexivity.
Qed.
(** X8: each compiler-rt build for Android is configured with the
    defines of its configuration (compilers, linker flags, sysroot), with
    the flags of the configuration and the support headers as C, C++ and
    assembler flags, with the tests off (the earlier [ON] is overwritten)
    and libfuzzer off, with no [-Werror], with [-latomic] for arm alone,
    and with every base define. *)
Theorem build_crts_defines (stage2_install : string) (clang_version : Version) :
  ∃ crt_defines : config → gmap string string,
    build_crts hst orc stage2_install clang_version
    = for_each (cross_compile_configs hst stage2_install false) (λ cfg,
        log INFO "Building compiler-rt for %s" [LStr (cfg_arch cfg)] ;;
        rm_cmake_cache orc (out_path hst ["lib"; "clangrt-" +:+ cfg_arch cfg]) ;;
        invoke_cmake hst orc (out_path hst ["lib"; "clangrt-" +:+ cfg_arch cfg])
                     (crt_defines cfg) (ORIG_ENV hst)
                     (llvm_path hst ["projects"; "compiler-rt"]) None true)
    ∧ ∀ cfg,
        let cflags := cfg_cflags cfg ++ ["-isystem " +:+ support_headers hst] in
        crt_defines cfg !! "COMPILER_RT_INCLUDE_TESTS" = Some "OFF"
        ∧ crt_defines cfg !! "COMPILER_RT_BUILD_LIBFUZZER" = Some "OFF"
        ∧ (cfg ∈ cross_compile_configs hst stage2_install false →
           crt_defines cfg !! "COMPILER_RT_ENABLE_WERROR" = None)
        ∧ crt_defines cfg !! "CMAKE_INSTALL_PREFIX"
          = Some (Py.path_join stage2_install
                    ["lib64"; "clang"; long_version clang_version])
        ∧ crt_defines cfg !! "SANITIZER_COMMON_LINK_LIBS"
          = Some (if String.eqb (cfg_arch cfg) "arm"
                  then "-latomic -landroid_support" else "-landroid_support")
        ∧ crt_defines cfg !! "COMPILER_RT_TEST_TARGET_TRIPLE"
          = Some (cfg_llvm_triple cfg)
        ∧ Forall (λ k, crt_defines cfg !! k = Some (Py.join " " cflags))
            ["CMAKE_C_FLAGS"; "CMAKE_ASM_FLAGS"; "CMAKE_CXX_FLAGS";
             "COMPILER_RT_TEST_COMPILER_CFLAGS"]
        ∧ Forall (λ k, crt_defines cfg !! k = cfg_defines cfg !! k)
            ["CMAKE_C_COMPILER"; "CMAKE_CXX_COMPILER"; "CMAKE_EXE_LINKER_FLAGS";
             "CMAKE_SHARED_LINKER_FLAGS"; "CMAKE_MODULE_LINKER_FLAGS";
             "CMAKE_SYSROOT"; "CMAKE_SYSROOT_COMPILE"]
        ∧ ∀ k v, base_cmake_defines hst !! k = Some v → crt_defines cfg !! k = Some v.
Proof.
  eexists. split; [reflexivity|]. intros cfg. cbv beta zeta.
  split_and!.
  1-2,4-6: unfold base_cmake_defines; lookup_fast; reflexivity.
  - intros Hcfg. unfold base_cmake_defines; lookup_fast.
    unfold cross_compile_configs, configs in Hcfg. cbn [map] in Hcfg.
    rewrite ?elem_of_cons, elem_of_nil in Hcfg.
    repeat (destruct Hcfg as [->|Hcfg];
            [cbn [cross_compile_config cfg_defines]; lookup_fast; reflexivity|]).
    destruct Hcfg.
  - repeat apply Forall_cons_2; [..|apply Forall_nil_2];
      unfold base_cmake_defines; lookup_fast; reflexivity.
  - repeat apply Forall_cons_2; [..|apply Forall_nil_2];
      unfold base_cmake_defines; lookup_fast; reflexivity.
  - intros k v Hk. rewrite lookup_update. by rewrite Hk.
Qed.

(** X9: stage 1 is configured the same whatever the options of the
    run: a release build without assertions, without lld and without a
    profile, of the X86 target alone, compiled by the prebuilt clang; its
    tools are built if and only if asked for. *)
Theorem build_stage1_defines (stage1_install build_name : string)
    (build_llvm_tools : bool) :
  ∃ cmake_defines,
    build_stage1 hst orc stage1_install build_name build_llvm_tools
    = invoke_cmake hst orc (out_path hst ["stage1"]) cmake_defines (ORIG_ENV hst)
                   (llvm_path hst []) None true
    ∧ cmake_defines !! "CMAKE_BUILD_TYPE" = Some "Release"
    ∧ cmake_defines !! "LLVM_ENABLE_ASSERTIONS" = Some "OFF"
    ∧ cmake_defines !! "LLVM_ENABLE_LLD" = None
    ∧ cmake_defines !! "LLVM_PROFDATA_FILE" = None
    ∧ cmake_defines !! "LLVM_BUILD_INSTRUMENTED" = None
    ∧ cmake_defines !! "LLVM_TARGETS_TO_BUILD" = Some "X86"
    ∧ cmake_defines !! "CMAKE_INSTALL_PREFIX" = Some stage1_install
    ∧ cmake_defines !! "CMAKE_C_COMPILER"
      = Some (Py.path_join (clang_prebuilt_bin_dir hst) ["clang"])
    ∧ cmake_defines !! "CMAKE_CXX_COMPILER"
      = Some (Py.path_join (clang_prebuilt_bin_dir hst) ["clang++"])
    ∧ cmake_defines !! "LLVM_BUILD_TOOLS"
      = Some (if build_llvm_tools then "ON" else "OFF")
    ∧ cmake_defines !! "LIBCXX_ENABLE_STATIC_ABI_LIBRARY"
      = (if host_is_linux hst then Some "ON" else None)
    ∧ cmake_defines !! "LLVM_BUILD_EXTERNAL_COMPILER_RT"
      = (if host_is_darwin hst then Some "ON" else None).
Proof.
  eexists. split; [reflexivity|].
  split_and!.
  all: cbn [llvm_cmake_defines]; unfold stage1_extra_defines, base_cmake_defines.
  all: lookup_fast; case_ifs; reflexivity.
Qed.

(** X10: unless a profile comes with the instrumentation, stage 2 is
    configured with the profile if there is one that is not the empty
    string, and with each option as given; its environment is the
    original one with [LD_LIBRARY_PATH] set to the libraries of stage 1. *)
Theorem build_stage2_profile_and_env
    (stage1_install stage2_install stage2_targets build_name : string)
    (use_lld enable_assertions debug_build build_instrumented : bool)
    (profdata_file : option string) :
  let usable := Py.truthy profdata_file in
  usable && build_instrumented = false →
  ∃ cmake_defines env,
    build_stage2 hst orc stage1_install stage2_install stage2_targets build_name
                 use_lld enable_assertions debug_build build_instrumented
                 profdata_file
    = invoke_cmake hst orc (out_path hst ["stage2"]) cmake_defines env
                   (llvm_path hst []) None true
    ∧ cmake_defines !! "LLVM_PROFDATA_FILE"
      = (if usable then profdata_file else None)
    ∧ cmake_defines !! "LLVM_PROFDATA"
      = (if build_instrumented
         then Some (Py.path_join stage1_install ["bin"; "llvm-profdata"])
         else None)
    ∧ cmake_defines !! "LLVM_ENABLE_LLD" = (if use_lld then Some "ON" else None)
    ∧ cmake_defines !! "LLVM_ENABLE_ASSERTIONS"
      = Some (if enable_assertions then "ON" else "OFF")
    ∧ cmake_defines !! "CMAKE_BUILD_TYPE"
      = Some (if debug_build then "Debug" else "Release")
    ∧ cmake_defines !! "CMAKE_C_COMPILER"
      = Some (Py.path_join stage1_install ["bin"; "clang"])
    ∧ cmake_defines !! "LLVM_TARGETS_TO_BUILD" = Some stage2_targets
    ∧ cmake_defines !! "CMAKE_INSTALL_PREFIX" = Some stage2_install
    ∧ env !! "LD_LIBRARY_PATH" = Some (Py.path_join stage1_install ["lib64"])
    ∧ ∀ name, name ≠ "LD_LIBRARY_PATH" → env !! name = ORIG_ENV hst !! name.
Proof.
  intros usable Hmodes. subst usable.
  unfold build_stage2. cbv zeta.
  assert (∀ d : gmap string string,
            (if Py.truthy profdata_file
             then if build_instrumented
                  then raise (RuntimeError "Cannot simultaneously instrument and use profiles")
                  else ret (<["LLVM_PROFDATA_FILE" := default "" profdata_file]> d)
             else ret d)
            = ret (M := T) (if Py.truthy profdata_file
                   then <["LLVM_PROFDATA_FILE" := default "" profdata_file]> d
                   else d)) as Hsel.
  { intros d. destruct (Py.truthy profdata_file); [|done].
    destruct build_instrumented; [discriminate Hmodes|done]. }
  rewrite Hsel, T_bind_ret.
  do 2 eexists. split; [reflexivity|].
  split_and!.
  1-8: cbn [llvm_cmake_defines];
       unfold stage2_defines_after_profdata, stage2_defines_before_profdata,
         base_cmake_defines.
  1-8: lookup_fast; try (destruct profdata_file as [p|]; cbn [Py.truthy default]);
       case_ifs; reflexivity.
  - rewrite lookup_update. by rewrite lookup_singleton_eq.
  - intros name Hname. rewrite lookup_update. by rewrite lookup_singleton_ne.
Qed.

(** X11: the Windows build writes [NATIVE.cmake] before it configures;
    the 32-bit build differs from the 64-bit one by [-m32] in the
    compiler and linker flags and by the empty library suffix; both use
    the same MinGW compiler. *)
Theorem build_llvm_for_windows_defines (targets : string) (enable_assertions : bool)
    (build_dir install_dir build_name native_clang_install : string)
    (is_32_bit : bool) :
  let native_cmake_file_path := Py.path_join build_dir ["NATIVE.cmake"] in
  let mingw_path :=
    android_path hst ["prebuilts"; "gcc"; "linux-x86"; "host";
                      "x86_64-w64-mingw32-4.8"] in
  let m32 := if is_32_bit then " -m32" else "" in
  ∃ cmake_defines,
    build_llvm_for_windows hst orc targets enable_assertions build_dir install_dir
                           build_name native_clang_install is_32_bit
    = (check_create_path orc build_dir ;;
       act orc (WriteFile native_cmake_file_path
                  ("set(CMAKE_C_COMPILER "
                   +:+ Py.path_join native_clang_install ["bin"; "clang"]
                   +:+ ")" +:+ nl +:+ "set(CMAKE_CXX_COMPILER "
                   +:+ Py.path_join native_clang_install ["bin"; "clang++"]
                   +:+ ")" +:+ nl)) ;;
       invoke_cmake hst orc build_dir cmake_defines (ORIG_ENV hst)
                    (llvm_path hst []) None true)
    ∧ cmake_defines !! "LLVM_LIBDIR_SUFFIX" = Some (if is_32_bit then "" else "64")
    ∧ cmake_defines !! "CMAKE_C_FLAGS"
      = Some ("-D_LARGEFILE_SOURCE -D_FILE_OFFSET_BITS=64" +:+ m32)
    ∧ cmake_defines !! "CMAKE_CXX_FLAGS"
      = Some ("-D_LARGEFILE_SOURCE -D_FILE_OFFSET_BITS=64" +:+ m32)
    ∧ cmake_defines !! "CMAKE_EXE_LINKER_FLAGS"
      = Some ("-Wl,--allow-multiple-definition" +:+ m32)
    ∧ cmake_defines !! "CMAKE_C_COMPILER"
      = Some (Py.path_join mingw_path ["bin"; "x86_64-w64-mingw32-gcc"])
    ∧ cmake_defines !! "CMAKE_SYSTEM_NAME" = Some "Windows"
    ∧ cmake_defines !! "LLVM_BUILD_RUNTIME" = Some "OFF"
    ∧ cmake_defines !! "LLVM_ENABLE_ASSERTIONS"
      = Some (if enable_assertions then "ON" else "OFF")
    ∧ cmake_defines !! "CMAKE_BUILD_TYPE" = Some "Release"
    ∧ cmake_defines !! "CMAKE_INSTALL_PREFIX" = Some install_dir
    ∧ cmake_defines !! "CROSS_TOOLCHAIN_FLAGS_NATIVE"
      = Some ("-DCMAKE_PREFIX_PATH=" +:+ cmake_prebuilt_bin_dir hst +:+ ";"
              +:+ "-DCMAKE_TOOLCHAIN_FILE=" +:+ native_cmake_file_path).
Proof.
  cbv zeta. eexists. split; [reflexivity|].
  split_and!.
  all: cbn [llvm_cmake_defines]; unfold base_cmake_defines.
  all: lookup_fast; destruct is_32_bit, enable_assertions; reflexivity.
Qed.

End Configs.

(** X12: whatever the number of [-v] options, the index into
    [log_levels] is in range: the level is INFO without the option and
    DEBUG with one or more. *)
Theorem log_level_clamped (args : Args) :
  verbosity args < length log_levels
  ∧ log_level args = Some (match verbose args with 0 => INFO | _ => DEBUG end).
Proof.
  unfold log_level, verbosity, log_levels. cbn [length].
  destruct (verbose args) as [|[|n]]; cbn; split; (lia || reflexivity).
Qed.

Lemma build_stage2_profile_and_env_witness :
  ∃ cmake_defines env,
    build_stage2 ex_host (ex_oracle (λ _, true)) "/src/out/stage1-install"
                 "/src/out/stage2-install" STAGE2_TARGETS "dev" false false false false
                 (Some "/src/profiles/6.0.1.profdata")
    = invoke_cmake ex_host (ex_oracle (λ _, true)) "/src/out/stage2" cmake_defines env
                   "/src/toolchain/llvm" None true
    ∧ cmake_defines !! "LLVM_PROFDATA_FILE" = Some "/src/profiles/6.0.1.profdata"
    ∧ env !! "LD_LIBRARY_PATH" = Some "/src/out/stage1-install/lib64".
Proof.
  destruct (build_stage2_profile_and_env ex_host (ex_oracle (λ _, true))
              "/src/out/stage1-install" "/src/out/stage2-install" STAGE2_TARGETS
              "dev" false false false false (Some "/src/profiles/6.0.1.profdata"))
    as (cmake_defines & env & Hrun & Hprofile & _ & _ & _ & _ & _ & _ & _ & Henv & _).
  { reflexivity. }
  exists cmake_defines, env. split_and!; [exact Hrun|exact Hprofile|exact Henv].
Defined.
(** * Packaging: where it writes, what it strips, what it archives *)

Lemma path_join_join a l1 l2 :
  Py.path_join (Py.path_join a l1) l2 = Py.path_join a (l1 ++ l2).
Proof. unfold Py.path_join. by rewrite foldl_app. Qed.

Lemma path_join2_suffix a b c :
  Py.startswith b "/" = false → b ≠ "" →
  Py.path_join2 a b +:+ c = Py.path_join2 a (b +:+ c).
Proof.
  intros Hb Hne. destruct b as [|y b]; [done|].
  assert (Py.startswith (String y b +:+ c) "/" = false) as Hbc by exact Hb.
  unfold Py.path_join2. rewrite Hb, Hbc.
  destruct (String.eqb a "" || Py.endswith a "/").
  - by rewrite string_app_assoc.
  - by rewrite !string_app_assoc.
Qed.

Lemma path_join_suffix a l b c :
  Py.startswith b "/" = false → b ≠ "" →
  Py.path_join a (l ++ [b]) +:+ c = Py.path_join a (l ++ [b +:+ c]).
Proof.
  intros Hb Hne. unfold Py.path_join. rewrite !foldl_app. cbn [foldl].
  by apply path_join2_suffix.
Qed.

Ltac joined_leaf :=
  repeat first [apply Forall_cons_2 | apply Forall_nil_2];
  unfold joined_onto;
  rewrite ?path_join_join; cbn [app];
  repeat match goal with
         | |- context [Py.path_join ?a [?x; ?y; ?z] +:+ ?c] =>
             change (Py.path_join a [x; y; z]) with (Py.path_join a ([x; y] ++ [z]));
             rewrite (path_join_suffix a [x; y] z c)
               by (first [reflexivity | discriminate])
         end;
  cbn [app];
  first [by eexists | by exists []].

Ltac inside_leaf :=
  lazymatch goal with
  | |- inside_install _ (EAct (CheckCall _ _ _) _) =>
      cbn [inside_install]; split_and!; [reflexivity|reflexivity|];
      first [ left; eexists; split; [reflexivity|joined_leaf]
            | right; do 2 eexists; reflexivity ]
  | |- inside_install _ (EAct _ _) => cbn [inside_install touched]; joined_leaf
  | |- _ => exact I
  end.

Ltac strip_leaf args :=
  unfold strip_of;
  let Heq := fresh "Heq" in
  intros ? ? Heq;
  first
    [ discriminate Heq
    | injection Heq as <-;
      split;
      [ match goal with
        | H : context [no_strip args] |- _ =>
            destruct (no_strip args); [cbn in H; discriminate H|reflexivity]
        end
      | refine (ex_intro _ _ (ex_intro _ _ (conj _ (conj _ (conj eq_refl _)))));
        [ unfold package_hosts; in_list
        | match goal with
          | H : negb (bool_decide (_ ∈ _)) = true |- _ =>
              apply negb_true_iff, bool_decide_eq_false in H; exact H
          end
        | first
            [ intros _; in_list
            | let Hd := fresh in
              intros Hd;
              match goal with
              | H : context [debug args] |- _ =>
                  rewrite Hd in H; destruct (no_strip args); discriminate H
              end ] ] ] ].

Section Packaging.
Context (hst : Host) (orc : Oracle).


Lemma remove_Ok path t t' :
  remove (H0 := T_fs orc) path t = (Ok tt, t') →
  t' = t ++ [ELog DEBUG "remove %s" [LStr path]; EAct (OsRemove path) true].
Proof.
  unfold remove. cbn. unfold T_bind, log, act. cbn.
  destruct (o_act orc _ _); [|discriminate]. intros [= <-].
  by rewrite <- app_assoc.
Qed.

Lemma remove_archives_events static_lib_dir lib_files :
  emits (static_lib_event static_lib_dir lib_files) (λ _, True)
    (for_each lib_files (λ lib_file,
       when (Py.endswith lib_file ".a")
            (remove (H0 := T_fs orc) (Py.path_join static_lib_dir [lib_file])))).
Proof.
  apply emits_for_each. intros lib_file Hin. apply emits_when. intros Hc.
  unfold remove. apply emits_bind; [apply emits_log|intros _; apply emits_act];
    try exact I; try intros ok; cbn; eauto.
Qed.

Lemma remove_archives_Ok static_lib_dir lib_files t t' :
  for_each lib_files (λ lib_file,
    when (Py.endswith lib_file ".a")
         (remove (H0 := T_fs orc) (Py.path_join static_lib_dir [lib_file]))) t
  = (Ok tt, t') →
  ∃ s, t' = t ++ s
    ∧ removed s
      = map (λ lib_file, Py.path_join static_lib_dir [lib_file])
            (List.filter (λ lib_file, Py.endswith lib_file ".a") lib_files).
Proof.
  revert t. induction lib_files as [|f l IH]; intros t; cbn [for_each].
  - intros [= <-]. exists []. by rewrite app_nil_r.
  - intros Hrun. apply bind_Ok_inv in Hrun as ([] & t1 & Hf & Hrun).
    destruct (IH _ Hrun) as (s & -> & Hs). cbn [List.filter].
    destruct (Py.endswith f ".a"); cbn [when] in Hf.
    + apply remove_Ok in Hf as ->. eexists. rewrite <- app_assoc.
      split; [reflexivity|]. rewrite removed_app, Hs. reflexivity.
    + injection Hf as <-. by exists s.
Qed.

(** X14: [remove_static_libraries] does nothing but ask when the
    directory is missing, and stops with the error of the listing when the
    directory cannot be listed. Otherwise all it does after the listing is
    to announce and remove files of the listing whose name ends in [.a];
    when it returns, it has removed every such file, once, in the order of
    the listing. *)
Theorem remove_static_libraries_removes (static_lib_dir : string) (t : trace) :
  let r := remove_static_libraries orc static_lib_dir t in
  let is_dir := o_ask orc t (IsDir static_lib_dir) in
  let t1 := t ++ [EAsk (IsDir static_lib_dir) is_dir] in
  if is_dir
  then
    match o_listdir orc t1 static_lib_dir with
    | Some lib_files =>
        ∃ s, r.2 = t1 ++ EListdir static_lib_dir (Some lib_files) :: s
          ∧ Forall (static_lib_event static_lib_dir lib_files) s
          ∧ (r.1 = Ok tt →
             removed s
             = map (λ lib_file, Py.path_join static_lib_dir [lib_file])
                   (List.filter (λ lib_file, Py.endswith lib_file ".a") lib_files))
    | None =>
        r = (Raise (ReadError static_lib_dir),
             t1 ++ [EListdir static_lib_dir None])
    end
  else r = (Ok tt, t1).
Proof.
  intros r is_dir t1. subst r.
  destruct (remove_static_libraries orc static_lib_dir t) as [res t'] eqn:Hrun.
  unfold remove_static_libraries in Hrun.
  lazymatch type of Hrun with
  | bind (ask _ _) ?k _ = _ => change (k is_dir t1 = (res, t')) in Hrun
  end.
  cbv beta in Hrun. destruct is_dir; cbn [when] in Hrun.
  - rewrite bind_listdir in Hrun.
    destruct (o_listdir orc t1 static_lib_dir) as [lib_files|]; [|done].
    cbv beta in Hrun.
    destruct (remove_archives_events static_lib_dir lib_files
                (t1 ++ [EListdir static_lib_dir (Some lib_files)]))
      as (s & Hs & Hall & _).
    rewrite Hrun in Hs. cbn [snd] in Hs. subst t'.
    exists s. cbn [fst snd]. rewrite <- app_assoc. split_and!; [done|done|].
    intros ->. apply remove_archives_Ok in Hrun as (s' & Heq & Hs').
    apply app_inv_head in Heq. by subst s'.
  - symmetry. exact Hrun.
Qed.

Lemma install_file_run src dst t :
  ∃ ok : bool,
    install_file orc src dst t
    = (if ok then Ok tt else Raise (EnvironmentError (ShutilCopy2 src dst)),
       t ++ [ELog INFO "copy %s %s" [LStr src; LStr dst];
             EAct (ShutilCopy2 src dst) ok]).
Proof.
  unfold install_file. rewrite bind_run. unfold log, act. cbv beta zeta.
  eexists. rewrite <- app_assoc. reflexivity.
Qed.

Lemma read_one_run path t :
  (text <- read_file orc path ;; ret [text]) t
  = (match o_read orc t path with
     | Some text => Ok [text]
     | None => Raise (ReadError path)
     end, t ++ [EReadFile path (o_read orc t path)]).
Proof.
  rewrite bind_run. unfold read_file. by destruct (o_read orc t path).
Qed.

(** The copies of the generic licence files *)
Lemma install_files_run (files : list string) (dst : string) t :
  ∃ res s, for_each files (λ f, install_file orc f dst) t = (res, t ++ s)
    ∧ writes s = [] ∧ texts_read s = []
    ∧ (res = Ok tt → copies s = map (λ f, (f, dst)) files).
Proof.
  revert t. induction files as [|f l IH]; intros t; cbn [for_each].
  - exists (Ok tt), []. by rewrite app_nil_r.
  - rewrite bind_run. destruct (install_file_run f dst t) as [[|] ->].
    + destruct (IH (t ++ [ELog INFO "copy %s %s" [LStr f; LStr dst];
                          EAct (ShutilCopy2 f dst) true]))
        as (res & s & -> & Hw & Hr & Hc).
      do 2 eexists. rewrite <- !app_assoc. split; [reflexivity|].
      rewrite !writes_app, !texts_read_app, !copies_app, Hw, Hr.
      split_and!; [done|done|]. intros Hres. by rewrite (Hc Hres).
    + do 2 eexists. split; [reflexivity|]. by split_and!.
Qed.

(** Reading the licences of one project *)
Lemma read_licenses_run (files : list string) t :
  ∃ res s,
    collect files (λ f, text <- read_file orc f ;; ret [text]) t = (res, t ++ s)
    ∧ writes s = [] ∧ copies s = []
    ∧ ∀ notices, res = Ok notices → texts_read s = notices.
Proof.
  revert t. induction files as [|f l IH]; intros t; cbn [collect].
  - exists (Ok []), []. rewrite app_nil_r. split_and!; try done. by intros ? [= <-].
  - rewrite bind_run, read_one_run.
    destruct (o_read orc t f) as [text|] eqn:Hread.
    + rewrite bind_run.
      destruct (IH (t ++ [EReadFile f (Some text)])) as (res & s & -> & Hw & Hc & Hr).
      destruct res as [rs|e].
      * do 2 eexists. cbn [ret T_monad T_ret]. rewrite <- !app_assoc.
        split; [reflexivity|].
        rewrite !writes_app, !copies_app, !texts_read_app, Hw, Hc.
        split_and!; [done|done|]. intros ? [= <-]. by rewrite (Hr rs eq_refl).
      * do 2 eexists. rewrite <- !app_assoc. split; [reflexivity|].
        rewrite !writes_app, !copies_app, Hw, Hc. by split_and!.
    + do 2 eexists. split; [reflexivity|]. by split_and!.
Qed.

Lemma collect_licenses_run (toolchain_path : string) (projects : list string) t :
  ∃ res s,
    collect projects (λ project,
      license_files <-
        glob orc (Py.path_join (Py.path_join toolchain_path [project]) ["LICENSE.*"]) ;;
      collect license_files (λ license_file,
        text <- read_file orc license_file ;; ret [text])) t
    = (res, t ++ s)
    ∧ writes s = [] ∧ copies s = []
    ∧ ∀ notices, res = Ok notices → texts_read s = notices.
Proof.
  revert t. induction projects as [|p l IH]; intros t; cbn [collect].
  - exists (Ok []), []. rewrite app_nil_r. split_and!; try done. by intros ? [= <-].
  - rewrite bind_run. rewrite (bind_run (glob orc _)).
    unfold glob at 1. cbv beta zeta.
    set (pattern := Py.path_join (Py.path_join toolchain_path [p]) ["LICENSE.*"]).
    destruct (read_licenses_run (o_glob orc t pattern)
                (t ++ [EGlob pattern (o_glob orc t pattern)]))
      as (res1 & s1 & -> & Hw1 & Hc1 & Hr1).
    destruct res1 as [r1|e1].
    + rewrite bind_run.
      destruct (IH ((t ++ [EGlob pattern (o_glob orc t pattern)]) ++ s1))
        as (res2 & s2 & -> & Hw2 & Hc2 & Hr2).
      destruct res2 as [r2|e2].
      * do 2 eexists. cbn [ret T_monad T_ret]. rewrite <- !app_assoc.
        split; [reflexivity|].
        rewrite !writes_app, !copies_app, !texts_read_app, Hw1, Hw2, Hc1, Hc2.
        split_and!; [done|done|]. intros ? [= <-].
        by rewrite (Hr1 r1 eq_refl), (Hr2 r2 eq_refl).
      * do 2 eexists. rewrite <- !app_assoc. split; [reflexivity|].
        rewrite !writes_app, !copies_app, Hw1, Hw2, Hc1, Hc2. by split_and!.
    + do 2 eexists. rewrite <- !app_assoc. split; [reflexivity|].
      rewrite !writes_app, !copies_app, Hw1, Hc1. by split_and!.
Qed.

(** X15: [install_license_files] writes one file at most, as its last
    step: [NOTICE] in the install directory, whose text is the texts of
    the licence files it has read, in the order read, joined by newlines.
    When it returns, it has copied exactly the files the pattern
    [MODULE_LICENSE_*] matched into the install directory; when it fails,
    either it has written nothing or the write of [NOTICE] is what
    failed. *)
Theorem install_license_files_notice (install_dir : string) (t : trace) :
  let r := install_license_files hst orc install_dir t in
  let license_pattern :=
    Py.path_join (Py.path_join (android_path hst ["toolchain"]) ["llvm"; "android"])
                 ["MODULE_LICENSE_*"] in
  let notice s' :=
    WriteFile (Py.path_join install_dir ["NOTICE"]) (Py.join nl (texts_read s')) in
  ∃ s', writes s' = []
    ∧ match r.1 with
      | Ok _ =>
          r.2 = t ++ s' ++ [EAct (notice s') true]
          ∧ copies s' = map (λ f, (f, install_dir)) (o_glob orc t license_pattern)
      | Raise e =>
          r.2 = t ++ s'
          ∨ (r.2 = t ++ s' ++ [EAct (notice s') false]
             ∧ e = EnvironmentError (notice s'))
      end.
Proof.
  intros r license_pattern notice. subst r.
  destruct (install_license_files hst orc install_dir t) as [res t'] eqn:Hrun.
  cbn [fst snd]. unfold install_license_files in Hrun. cbv zeta in Hrun.
  rewrite bind_run in Hrun. unfold glob at 1 in Hrun. cbv beta zeta in Hrun.
  fold license_pattern in Hrun.
  set (files := o_glob orc t license_pattern) in *.
  set (t0 := t ++ [EGlob license_pattern files]) in *.
  rewrite bind_run in Hrun.
  destruct (install_files_run files install_dir t0) as (res1 & s1 & Hrun1 & Hw1 & Hr1 & Hc1).
  rewrite Hrun1 in Hrun. clear Hrun1.
  destruct res1 as [[]|e1].
  2:{ injection Hrun as <- <-. exists (EGlob license_pattern files :: s1).
      split; [done|]. left. subst t0. by rewrite <- app_assoc. }
  rewrite bind_run in Hrun.
  match type of Hrun with context [collect ?ps _ (t0 ++ s1)] =>
    destruct (collect_licenses_run (android_path hst ["toolchain"]) ps (t0 ++ s1))
      as (res2 & s2 & Hrun2 & Hw2 & Hc2 & Hr2)
  end.
  rewrite Hrun2 in Hrun. clear Hrun2.
  assert (writes (EGlob license_pattern files :: s1 ++ s2) = []) as Hw.
  { change (writes (EGlob license_pattern files :: s1 ++ s2)) with (writes (s1 ++ s2)).
    by rewrite writes_app, Hw1, Hw2. }
  exists (EGlob license_pattern files :: s1 ++ s2). split; [done|].
  destruct res2 as [notices|e2].
  2:{ injection Hrun as <- <-. left. subst t0. trace_eq. }
  assert (texts_read (EGlob license_pattern files :: s1 ++ s2) = notices) as Hread.
  { change (texts_read (EGlob license_pattern files :: s1 ++ s2))
      with (texts_read (s1 ++ s2)).
    by rewrite texts_read_app, Hr1, (Hr2 notices eq_refl). }
  unfold notice. rewrite Hread. unfold act in Hrun. cbv beta zeta in Hrun.
  destruct (o_act orc _ _); injection Hrun as <- <-; subst t0.
  - split; [trace_eq|].
    change (copies (EGlob license_pattern files :: s1 ++ s2)) with (copies (s1 ++ s2)).
    by rewrite copies_app, Hc2, app_nil_r, Hc1.
  - right. split; [trace_eq|reflexivity].
Qed.


(** X17: with [--skip-package], [main] copies no tree, removes no tree,
    makes no link, matches no pattern, runs no subprocess without a
    working directory (so neither [strip] nor [tar]) and logs none of the
    notes of the packaging. *)
Theorem main_skip_package (args : Args) :
  skip_package args = true →
  emits (λ e, ¬ is_packaging e) (λ _, True) (main hst orc args).
Proof.
  intros Hskip. unfold main. rewrite Hskip. cbn [negb when].
  emits_walk_with ltac:(first [exact I
    | intros Hin; unfold is_packaging in Hin; first [contradiction | not_in_flags Hin]]).
Qed.

(** X18: every [tar] that [main] runs archives the directory
    [clang-<build name>] of the install directory of one of the packaged
    hosts into [clang-<build name>-<host>.tar.bz2] under [DIST_DIR] of the
    original environment or, without it, under the output directory. *)
Theorem main_archives (args : Args) :
  emits (archive_of hst args) (λ _, True) (main hst orc args).
Proof.
  emits_walk_with ltac:(first [exact I
    | unfold archive_of; intros ? ? Heq; first [discriminate Heq
        | injection Heq as <-; eexists; split; [|reflexivity];
          unfold package_hosts; in_list]]).
Qed.

(** X19: on a host that is not Linux, [--build-instrumented] changes
    nothing, and [main] builds the two stages only: every subprocess with
    a working directory runs in the build directory of stage 1 or stage 2,
    the only tree copied is the install tree of stage 2, and the only
    files written are [NOTICE] and [AndroidVersion.txt]. *)
Theorem main_not_linux (args : Args) :
  host_is_linux hst = false →
  (∀ b, main hst orc (set_build_instrumented b args) = main hst orc args)
  ∧ emits (two_stage_only hst) (λ _, True) (main hst orc args).
Proof.
  intros Hlinux. split.
  - intros b. unfold main. rewrite Hlinux. reflexivity.
  - unfold main. rewrite Hlinux. rewrite !andb_false_r. cbn [andb when].
    emits_walk_with ltac:(first [exact I | in_list | reflexivity
                                | do 2 eexists; split; [|reflexivity]; in_list]).
Qed.

End Packaging.

Lemma main_skip_package_witness :
  emits (λ e, ¬ is_packaging e) (λ _, True)
        (main ex_host (ex_oracle (λ _, true)) ex_args_skip_package).
Proof. apply main_skip_package. reflexivity. Defined.

Lemma main_not_linux_witness :
  (∀ b, main ex_host_darwin (ex_oracle (λ _, true)) (set_build_instrumented b ex_args)
        = main ex_host_darwin (ex_oracle (λ _, true)) ex_args)
  ∧ emits (two_stage_only ex_host_darwin) (λ _, True)
          (main ex_host_darwin (ex_oracle (λ _, true)) ex_args).
Proof. apply main_not_linux. reflexivity. Defined.

(** * Order of the build, and what the fuzzer build installs *)

Section BuildFirst.
Context (hst : Host) (orc : Oracle).

Lemma built_in_app dir t s : built_in hst dir t → built_in hst dir (t ++ s).
Proof.
  intros (flags & env & H1 & H2 & H3). exists flags, env.
  rewrite !elem_of_app. auto.
Qed.

Lemma built_in_app_r dir t s : built_in hst dir s → built_in hst dir (t ++ s).
Proof.
  intros (flags & env & H1 & H2 & H3). exists flags, env.
  rewrite !elem_of_app. auto.
Qed.

Lemma invoke_cmake_built dir defines env cmake_path t t' :
  invoke_cmake hst orc dir defines env cmake_path None true t = (Ok tt, t') →
  ∃ s, t' = t ++ s ∧ built_in hst dir s.
Proof.
  unfold invoke_cmake. cbv zeta. intros Hrun.
  destruct (emits_appends (λ _, True) (λ _, True) (check_create_path orc dir) t)
    as (s1 & Hs1 & _).
  { unfold check_create_path. repeat emits_step idtac; exact I. }
  apply bind_Ok_inv in Hrun as ([] & t1 & Hrun1 & Hrun).
  rewrite Hrun1 in Hs1. cbn [snd] in Hs1. subst t1.
  apply bind_Ok_inv in Hrun as ([] & t2 & (s2 & -> & H2)%check_call_ok & Hrun).
  apply bind_Ok_inv in Hrun as ([] & t3 & (s3 & -> & H3)%check_call_ok & Hrun).
  cbn [when] in Hrun. apply check_call_ok in Hrun as (s4 & -> & H4).
  exists (s1 ++ s2 ++ s3 ++ s4). rewrite <- !app_assoc. split; [done|].
  eexists _, _. rewrite !elem_of_app. split_and!; eauto 10.
Qed.

Lemma first_phase_quiet (args : Args) :
  emits (λ e, ¬ after_stages e) (λ _, True)
    (for_each [out_path hst ["stage2-install"]; out_path hst ["windows-i386-install"];
               out_path hst ["windows-x86-install"]]
       (λ install_dir,
          found <- ask orc (Exists install_dir) ;;
          when found (act orc (UtilsRmTree install_dir))) ;;
     build_stage1 hst orc (out_path hst ["stage1-install"]) (build_name args)
                  (host_is_linux hst && build_instrumented args) ;;
     main_stage2 hst orc args (out_path hst ["stage1-install"])
                 (out_path hst ["stage2-install"])
                 (host_is_linux hst && build_instrumented args)).
Proof.
  emits_walk_with ltac:(first [exact I | intros Hlate; by apply Hlate | intros []]).
Qed.

Lemma first_phase_built (args : Args) t t' :
  (for_each [out_path hst ["stage2-install"]; out_path hst ["windows-i386-install"];
             out_path hst ["windows-x86-install"]]
     (λ install_dir,
        found <- ask orc (Exists install_dir) ;;
        when found (act orc (UtilsRmTree install_dir))) ;;
   build_stage1 hst orc (out_path hst ["stage1-install"]) (build_name args)
                (host_is_linux hst && build_instrumented args) ;;
   main_stage2 hst orc args (out_path hst ["stage1-install"])
               (out_path hst ["stage2-install"])
               (host_is_linux hst && build_instrumented args)) t
  = (Ok tt, t') →
  built_in hst (out_path hst ["stage1"]) t' ∧ built_in hst (out_path hst ["stage2"]) t'.
Proof.
  intros Hrun.
  apply bind_Ok_inv in Hrun as ([] & t0 & _ & Hrun).
  apply bind_Ok_inv in Hrun as ([] & t1 & Hrun1 & Hrun).
  unfold build_stage1, build_llvm in Hrun1. cbv zeta in Hrun1.
  apply invoke_cmake_built in Hrun1 as (s1 & -> & Hb1).
  destruct (emits_appends (λ _, True) (λ _, True)
              (main_stage2 hst orc args (out_path hst ["stage1-install"])
                 (out_path hst ["stage2-install"])
                 (host_is_linux hst && build_instrumented args)) (t0 ++ s1))
    as (s2 & Hs2 & _).
  { emits_walk_with ltac:(exact I). }
  rewrite Hrun in Hs2. cbn [snd] in Hs2. subst t'.
  split; [by apply built_in_app, built_in_app_r|].
  unfold main_stage2 in Hrun.
  apply bind_Ok_inv in Hrun as (lv & t2 & _ & Hrun).
  apply bind_Ok_inv in Hrun as (profdata & t3 & _ & Hrun).
  apply bind_Ok_inv in Hrun as ([] & t4 & _ & Hrun).
  unfold build_stage2 in Hrun. cbv zeta in Hrun.
  apply bind_Ok_inv in Hrun as (defs & t5 & _ & Hrun).
  unfold build_llvm in Hrun. cbv zeta in Hrun.
  apply invoke_cmake_built in Hrun as (s5 & Heq & Hb2).
  rewrite Heq. by apply built_in_app_r.
Qed.

Lemma quiet_then_after s1 s2 t1 e t2 :
  Forall (λ e, ¬ after_stages e) s1 → s1 ++ s2 = t1 ++ e :: t2 → after_stages e →
  ∃ l, t1 = s1 ++ l.
Proof.
  intros Hquiet Heq Hlate.
  apply app_eq_app in Heq as [l [[-> Hl]|[-> Hl]]]; [|by exists l].
  destruct l as [|y l].
  - exists []. by rewrite !app_nil_r.
  - exfalso. cbn in Hl. injection Hl as <- ->.
    rewrite Forall_app, Forall_cons in Hquiet. by destruct Hquiet as [_ [? _]].
Qed.

(** X20: in a run of [main] that builds, whatever comes after the two
    stages (a note other than the echo of a command, a file written, a
    file or tree copied, a subprocess without a working directory) comes
    after cmake, ninja and ninja install have each returned 0 in the build
    directory of stage 1, and likewise in that of stage 2. *)
Theorem main_builds_stages_first (args : Args) :
  skip_build args = false →
  ∀ t1 e t2, (main hst orc args []).2 = t1 ++ e :: t2 → after_stages e →
    built_in hst (out_path hst ["stage1"]) t1
    ∧ built_in hst (out_path hst ["stage2"]) t1.
Proof.
  intros Hskip t1 e t2. unfold main. rewrite Hskip. cbn [negb andb when]. cbv zeta.
  destruct (first_phase_quiet args []) as (s1 & Hs1 & Hquiet & _).
  change ([] ++ s1) with s1 in Hs1.
  rewrite bind_run.
  match type of Hs1 with (?m []).2 = _ =>
    destruct (m []) as [[[]|x] t'] eqn:Hrun end; cbn [snd] in Hs1; subst t'.
  - pose proof (first_phase_built args [] s1 Hrun) as [Hb1 Hb2].
    match goal with |- (?m s1).2 = _ → _ =>
      destruct (emits_appends (λ _, True) (λ _, True) m s1) as (s2 & -> & _) end.
    { emits_walk_with ltac:(exact I). }
    intros Heq Hlate.
    destruct (quiet_then_after s1 s2 t1 e t2 Hquiet Heq Hlate) as [l ->].
    split; by apply built_in_app.
  - cbn [snd]. intros Heq Hlate. exfalso.
    destruct (quiet_then_after s1 [] t1 e t2 Hquiet) as [l ->];
      [by rewrite app_nil_r|done|].
    rewrite <- app_assoc in Heq.
    rewrite <- (app_nil_r s1) in Heq at 1. apply app_inv_head in Heq.
    by destruct l.
Qed.

Lemma no_copy_copies s : Forall no_copy s → copies s = [].
Proof.
  induction 1 as [|e s He _ IH]; [done|].
  destruct e as [[] [|]| | | | | | | |]; try done.
Qed.

(** A part that copies nothing *)
Lemma quiet_Ok {A} (m : T A) t a t' :
  emits no_copy (λ _, True) m → m t = (Ok a, t') →
  ∃ s, t' = t ++ s ∧ copies s = [].
Proof.
  intros Hm Hrun. destruct (Hm t) as (s & Hs & Hall & _).
  rewrite Hrun in Hs. exists s. split; [done|]. by apply no_copy_copies.
Qed.

Lemma for_each_copies {A} (l : list A) (body : A → T unit)
    (f : A → list (string * string)) t t' :
  (∀ x t t', x ∈ l → body x t = (Ok tt, t') → ∃ s, t' = t ++ s ∧ copies s = f x) →
  for_each l body t = (Ok tt, t') →
  ∃ s, t' = t ++ s ∧ copies s = concat (map f l).
Proof.
  revert t. induction l as [|x l IH]; intros t Hbody; cbn [for_each].
  - intros [= <-]. exists []. by rewrite app_nil_r.
  - intros Hrun. apply bind_Ok_inv in Hrun as ([] & t1 & Hx & Hrun).
    apply Hbody in Hx as (s1 & -> & Hs1); [|left].
    apply IH in Hrun as (s2 & -> & Hs2); [|intros; apply Hbody; [by right|done]].
    exists (s1 ++ s2). rewrite app_assoc. split; [done|].
    rewrite copies_app, Hs1, Hs2. reflexivity.
Qed.

Lemma concat_map_singleton {A B} (g : A → B) (l : list A) :
  concat (map (λ x, [g x]) l) = map g l.
Proof. induction l as [|x l IH]; [done|]. cbn. by rewrite IH. Qed.

Lemma concat_map_filter {A B} (c : A → bool) (g : A → B) (l : list A) :
  concat (map (λ x, if c x then [g x] else []) l) = map g (List.filter c l).
Proof.
  induction l as [|x l IH]; [done|]. cbn. destruct (c x); cbn; by rewrite IH.
Qed.

(** X21: when [build_libfuzzers] returns, the files it has copied are,
    in this order: for each configuration the archive of its build
    directory, as [libFuzzer.a] of the runtime directory of its triple;
    then each name of the listing of the fuzzer sources that ends in [.h]
    or [.def], into [prebuilt_include/llvm/lib/Fuzzer] of the stage-2
    install directory. Nothing else is copied. *)
Theorem build_libfuzzers_installs (stage2_install : string) (clang_version : Version)
    (ndk_cxx : bool) (t t' : trace) :
  build_libfuzzers hst orc stage2_install clang_version ndk_cxx t = (Ok tt, t') →
  let header_src := llvm_path hst ["projects"; "compiler-rt"; "lib"; "fuzzer"] in
  let header_dst :=
    Py.path_join stage2_install ["prebuilt_include"; "llvm"; "lib"; "Fuzzer"] in
  let build_dir cfg :=
    let libfuzzer_path := out_path hst ["lib"; "libfuzzer-" +:+ cfg_arch cfg] in
    if ndk_cxx then libfuzzer_path +:+ "-ndk-cxx" else libfuzzer_path in
  ∃ s names,
    t' = t ++ s
    ∧ EListdir header_src (Some names) ∈ s
    ∧ copies s
      = map (λ cfg,
               (Py.path_join (build_dir cfg)
                  ["lib"; "linux"; libfuzzer_static_lib_filename (cfg_arch cfg)],
                Py.path_join
                  (runtime_lib_dir stage2_install clang_version ndk_cxx
                     (cfg_llvm_triple cfg))
                  ["libFuzzer.a"]))
            (cross_compile_configs hst stage2_install (negb ndk_cxx))
        ++ map (λ f, (Py.path_join header_src [f], header_dst))
               (List.filter (λ f, Py.endswith f ".h" || Py.endswith f ".def") names).
Proof.
  intros Hrun. cbv zeta.
  set (header_src := llvm_path hst ["projects"; "compiler-rt"; "lib"; "fuzzer"]).
  set (header_dst :=
         Py.path_join stage2_install ["prebuilt_include"; "llvm"; "lib"; "Fuzzer"]).
  set (build_dir := λ cfg : config,
         if ndk_cxx
         then out_path hst ["lib"; "libfuzzer-" +:+ cfg_arch cfg] +:+ "-ndk-cxx"
         else out_path hst ["lib"; "libfuzzer-" +:+ cfg_arch cfg]).
  revert t' Hrun. intros t' Hrun.
  unfold build_libfuzzers in Hrun. cbv zeta in Hrun.
  apply bind_Ok_inv in Hrun as ([] & t1 & Hloop & Hrun).
  apply (for_each_copies _ _
           (λ cfg, [(Py.path_join (build_dir cfg)
                       ["lib"; "linux"; libfuzzer_static_lib_filename (cfg_arch cfg)],
                     Py.path_join
                       (runtime_lib_dir stage2_install clang_version ndk_cxx
                          (cfg_llvm_triple cfg))
                       ["libFuzzer.a"])])) in Hloop as (s1 & -> & Hs1).
  2:{ intros cfg u u' _ Hbody.
      apply bind_Ok_inv in Hbody as ([] & u1 & Hq1 & Hbody).
      apply (quiet_Ok _ u) in Hq1 as (q1 & -> & Hc1);
        [|emits_walk_with ltac:(exact I)].
      apply bind_Ok_inv in Hbody as ([] & u2 & Hq2 & Hbody).
      apply (quiet_Ok _ (u ++ q1)) in Hq2 as (q2 & -> & Hc2);
        [|emits_walk_with ltac:(exact I)].
      apply bind_Ok_inv in Hbody as ([] & u3 & Hq3 & Hbody).
      apply (quiet_Ok _ ((u ++ q1) ++ q2)) in Hq3 as (q3 & -> & Hc3);
        [|emits_walk_with ltac:(exact I)].
      apply bind_Ok_inv in Hbody as ([] & u4 & Hq4 & Hbody).
      apply (quiet_Ok _ (((u ++ q1) ++ q2) ++ q3)) in Hq4 as (q4 & -> & Hc4);
        [|emits_walk_with ltac:(exact I)].
      apply act_Ok in Hbody as ->.
      eexists. rewrite <- !app_assoc. split; [reflexivity|].
      rewrite !copies_app, Hc1, Hc2, Hc3, Hc4. reflexivity. }
  rewrite concat_map_singleton in Hs1.
  apply bind_Ok_inv in Hrun as ([] & t2 & Hq & Hrun).
  apply (quiet_Ok _ (t ++ s1)) in Hq as (q & -> & Hcq);
    [|emits_walk_with ltac:(exact I)].
  rewrite bind_listdir in Hrun.
  destruct (o_listdir orc _ _) as [names|] eqn:Hnames; [|discriminate].
  apply (for_each_copies _ _
           (λ f, if Py.endswith f ".h" || Py.endswith f ".def"
                 then [(Py.path_join header_src [f], header_dst)] else []))
    in Hrun as (s2 & -> & Hs2).
  2:{ intros f u u' _ Hbody. destruct (Py.endswith f ".h" || Py.endswith f ".def");
        cbn [when] in Hbody.
      - apply act_Ok in Hbody as ->. by eexists.
      - injection Hbody as <-. exists []. by rewrite app_nil_r. }
  rewrite concat_map_filter in Hs2.
  exists (s1 ++ q ++ EListdir header_src (Some names) :: s2), names.
  split_and!.
  - rewrite <- !app_assoc. reflexivity.
  - rewrite !elem_of_app, elem_of_cons. auto.
  - rewrite !copies_app, Hs1, Hcq.
    change (copies (EListdir header_src (Some names) :: s2)) with (copies s2).
    by rewrite Hs2.
Qed.

End BuildFirst.

Lemma main_builds_stages_first_witness :
  let t := (main ex_host (ex_oracle (λ _, false)) ex_args_plain []).2 in
  built_in ex_host (out_path ex_host ["stage1"]) (take 28 t)
  ∧ built_in ex_host (out_path ex_host ["stage2"]) (take 28 t).
Proof.
  intros t.
  apply (main_builds_stages_first ex_host (ex_oracle (λ _, false)) ex_args_plain
           eq_refl (take 28 t)
           (ELog INFO "Building compiler-rt for %s" [LStr "arm"]) (drop 29 t)).
  - vm_compute. reflexivity.
  - discriminate.
Defined.

Lemma build_libfuzzers_installs_witness :
  let orc := ex_oracle_listing ["FuzzerDefs.h"; "FuzzerFlags.def"; "FuzzerMain.cpp"] in
  let stage2_install := "/src/out/stage2-install" in
  let r := build_libfuzzers ex_host orc stage2_install ex_version false [] in
  let header_src := llvm_path ex_host ["projects"; "compiler-rt"; "lib"; "fuzzer"] in
  let header_dst :=
    Py.path_join stage2_install ["prebuilt_include"; "llvm"; "lib"; "Fuzzer"] in
  ∃ s names,
    r.2 = [] ++ s
    ∧ EListdir header_src (Some names) ∈ s
    ∧ copies s
      = map (λ cfg,
               (Py.path_join (out_path ex_host ["lib"; "libfuzzer-" +:+ cfg_arch cfg])
                  ["lib"; "linux"; libfuzzer_static_lib_filename (cfg_arch cfg)],
                Py.path_join
                  (runtime_lib_dir stage2_install ex_version false (cfg_llvm_triple cfg))
                  ["libFuzzer.a"]))
            (cross_compile_configs ex_host stage2_install true)
        ++ map (λ f, (Py.path_join header_src [f], header_dst))
               (List.filter (λ f, Py.endswith f ".h" || Py.endswith f ".def") names).
Proof.
  intros orc stage2_install r header_src header_dst.
  apply (build_libfuzzers_installs ex_host orc stage2_install ex_version false [] r.2).
  vm_compute. reflexivity.
Defined.

(** * Running the normalization again *)

Section Rerun.
Context (libdir : string) (version : Version).

Lemma normalize_items_frame items (d d' : gmap string Dir.node) n :
  (∀ item, item ∈ items → item ∈ lib_rows) →
  (∀ item, item ∈ items → same_stem item.1 n = false) →
  for_each items (normalize_lib_dir libdir version) d = (Ok tt, d') →
  (is_Some (d' !! n) ↔ is_Some (d !! n)).
Proof.
  revert d. induction items as [|x items IH]; intros d Hrows Hstem.
  - by intros [= <-].
  - cbn [for_each bind Dir.D_monad].
    destruct (normalize_lib_dir libdir version x d) as [[[]|e] d1] eqn:Hstep; [|done].
    intros Hrun. apply normalize_lib_ok in Hstep as [_ Hframe]; [|apply Hrows; left].
    rewrite <- (Hframe n) by (apply Hstem; left).
    apply IH; [| |done].
    + intros y Hy. apply Hrows. by right.
    + intros y Hy. apply Hstem. by right.
Qed.

Lemma missing_real_file_raises x (d : gmap string Dir.node) :
  x ∈ lib_rows → x.1 ≠ "libLLVM" → d !! real_name version x = None →
  ∃ e, normalize_lib_dir libdir version x d = (Raise e, d).
Proof.
  intros Hx HLL Hnone.
  destruct (normalize_lib_checks libdir version x d Hx HLL) as [Hreg _].
  eexists. apply Hreg. unfold Dir.isfile.
  destruct (row_names version x Hx) as (_ & _ & Hreal & _).
  rewrite (entry_child _ _ Hreal). unfold Dir.stat. cbn [Dir.resolve].
  by rewrite Hnone.
Qed.

Lemma normalize_items_missing x items (d : gmap string Dir.node) :
  (∀ item, item ∈ items → item ∈ lib_rows) →
  (∀ k v1 v2, (k, v1) ∈ items → (k, v2) ∈ items → v1 = v2) →
  x ∈ items → x.1 ≠ "libLLVM" → d !! real_name version x = None →
  ∃ e d', for_each items (normalize_lib_dir libdir version) d = (Raise e, d').
Proof.
  revert d. induction items as [|y items IH]; intros d Hrows Hfun Hx HLL Hnone.
  - by apply elem_of_nil in Hx.
  - cbn [for_each bind Dir.D_monad].
    destruct (decide (y = x)) as [->|Hne].
    + destruct (missing_real_file_raises x d) as [e ->]; [apply Hrows; left|done..|].
      eauto.
    + destruct (normalize_lib_dir libdir version y d) as [[[]|e] d1] eqn:Hstep;
        [|eauto].
      apply elem_of_cons in Hx as [->|Hx]; [done|].
      assert (y.1 ≠ x.1) as Hname.
      { intros Heq. apply Hne. destruct x as [k v], y as [k' v']. cbn in Heq. subst k'.
        f_equal. apply (Hfun k); [left|by right]. }
      apply (IH d1); [| |done|done|].
      * intros z Hz. apply Hrows. by right.
      * intros k v1 v2 H1 H2. apply (Hfun k); by right.
      * apply normalize_lib_ok in Hstep as [_ Hframe]; [|apply Hrows; left].
        destruct (row_names version x) as (Hreal_stem & _); [apply Hrows; by right|].
        apply eq_None_not_Some. rewrite Hframe; [by rewrite Hnone; intros [? [=]]|].
        apply (stems_disjoint x y); [apply Hrows; by right|apply Hrows; left|done|done].
Qed.

End Rerun.




